(** * A forum service over an unreliable datagram channel

    Shallow embedding of [server.py] and of the client (class [ForumClient])
    and proofs about the reliable datagram channel, the session worker and
    the command dispatcher.

    Conventions of the embedding.

    - A Python [bytes] value is a [string]: one [ascii] per byte.
    - A Python [str] value is a [string] too, holding the UTF-8 encoding of
      the text.  [str.encode()] is then the identity and [bytes.decode()] is
      a validity check.  Every delimiter the program uses (space, '|', ':',
      line feed) is an ASCII character, so splitting, searching and prefix
      tests on the encoding agree with the same operations on the text.
    - The three library functions whose result depends on Unicode character
      properties are modelled as follows: [strip] and [split_ws] know all the
      code points Python treats as white space; [upper] maps the ASCII
      letters only and [int_of_str] reads the ASCII digits only (Python also
      folds the case of other letters and reads other decimal digits).
    - Sockets and files are explicit state; the network, the random number
      generator and the peer of a stream connection are environments that
      the functions read from. *)

From Stdlib Require Import QArith.
Close Scope Q_scope.
From Stdlib Require Import Ascii.
From stdpp Require Import gmap strings list pretty.

(** ** Python's string operations *)

Module Py.

Definition LF : ascii := "010"%char.
Definition CR : ascii := "013"%char.
Definition nl : string := String LF "".

(** The string made of the given byte values. *)
Definition of_bytes (l : list nat) : string :=
  foldr (λ n s, String (ascii_of_nat n) s) "" l.

(** [s[n:]] *)
Fixpoint skip (n : nat) (s : string) : string :=
  match n, s with
  | S n', String _ s' => skip n' s'
  | _, _ => s
  end.

(** [s[:n]] *)
Fixpoint first (n : nat) (s : string) : string :=
  match n, s with
  | S n', String c s' => String c (first n' s')
  | _, _ => ""
  end.

(** [s.startswith(p)] *)
Definition startswith (s p : string) : bool := String.prefix p s.

(** [s.removeprefix(p)] when [s] starts with [p]. *)
Fixpoint strip_prefix (p s : string) : option string :=
  match p, s with
  | "", _ => Some s
  | String a p', String b s' =>
      if Ascii.eqb a b then strip_prefix p' s' else None
  | String _ _, "" => None
  end.

(** [s.partition(c)] when [c] occurs in [s]: the text before the first
    occurrence and the text after it. *)
Fixpoint cut (c : ascii) (s : string) : option (string * string) :=
  match s with
  | "" => None
  | String a s' =>
      if Ascii.eqb a c then Some ("", s')
      else match cut c s' with
           | Some (l, r) => Some (String a l, r)
           | None => None
           end
  end.

(** [c in s] for a one-character [c]. *)
Definition contains_char (c : ascii) (s : string) : bool :=
  match cut c s with Some _ => true | None => false end.

(** [s.split(c, maxsplit)] for a one-character separator. *)
Fixpoint split (c : ascii) (maxsplit : nat) (s : string) : list string :=
  match maxsplit with
  | 0 => [s]
  | S m =>
      match cut c s with
      | Some (l, r) => l :: split c m r
      | None => [s]
      end
  end.

(** [p in s] for a string [p]. *)
Fixpoint contains (p s : string) : bool :=
  match s with
  | "" => String.prefix p ""
  | String _ s' => String.prefix p s || contains p s'
  end.

(** [s.replace(old, new, 1)] *)
Fixpoint replace_first (old new s : string) : string :=
  match s with
  | "" => if String.prefix old "" then new else ""
  | String c s' =>
      if String.prefix old s then new +:+ skip (String.length old) s
      else String c (replace_first old new s')
  end.

(** [sep.join(l)] *)
Fixpoint join (sep : string) (l : list string) : string :=
  match l with
  | [] => ""
  | [x] => x
  | x :: l' => x +:+ sep +:+ join sep l'
  end.

(** ["".join(l)] *)
Definition concat (l : list string) : string := foldr String.append "" l.

(** The code points for which [str.isspace()] holds, in UTF-8. *)
Definition whitespace : list string :=
  of_bytes [9] :: of_bytes [10] :: of_bytes [11] :: of_bytes [12] ::
  of_bytes [13] :: of_bytes [28] :: of_bytes [29] :: of_bytes [30] ::
  of_bytes [31] :: of_bytes [32] ::
  of_bytes [194; 133] :: of_bytes [194; 160] ::
  of_bytes [225; 154; 128] ::
  of_bytes [226; 128; 128] :: of_bytes [226; 128; 129] ::
  of_bytes [226; 128; 130] :: of_bytes [226; 128; 131] ::
  of_bytes [226; 128; 132] :: of_bytes [226; 128; 133] ::
  of_bytes [226; 128; 134] :: of_bytes [226; 128; 135] ::
  of_bytes [226; 128; 136] :: of_bytes [226; 128; 137] ::
  of_bytes [226; 128; 138] ::
  of_bytes [226; 128; 168] :: of_bytes [226; 128; 169] ::
  of_bytes [226; 128; 175] :: of_bytes [226; 129; 159] ::
  of_bytes [227; 128; 128] :: [].

(** The rest of [s] after one leading token of [toks], if it has one. *)
Fixpoint strip_token (toks : list string) (s : string) : option string :=
  match toks with
  | [] => None
  | t :: toks' =>
      match strip_prefix t s with
      | Some r => Some r
      | None => strip_token toks' s
      end
  end.

Fixpoint lstrip_loop (toks : list string) (fuel : nat) (s : string) : string :=
  match fuel with
  | 0 => s
  | S fuel' =>
      match strip_token toks s with
      | Some r => lstrip_loop toks fuel' r
      | None => s
      end
  end.

(** [s.lstrip()], [s.rstrip()], [s.strip()] *)
Definition lstrip (s : string) : string :=
  lstrip_loop whitespace (String.length s) s.
Definition rstrip (s : string) : string :=
  String.rev (lstrip_loop (String.rev <$> whitespace) (String.length s)
                (String.rev s)).
Definition strip (s : string) : string := rstrip (lstrip s).

(** [s.split()]: the maximal runs of characters that are not white space. *)
Fixpoint split_ws_loop (fuel : nat) (cur : string) (s : string) : list string :=
  let flush := match cur with "" => [] | _ => [String.rev cur] end in
  match fuel with
  | 0 => flush
  | S fuel' =>
      match strip_token whitespace s with
      | Some r => flush ++ split_ws_loop fuel' "" r
      | None =>
          match s with
          | "" => flush
          | String c s' => split_ws_loop fuel' (String c cur) s'
          end
      end
  end.
Definition split_ws (s : string) : list string :=
  split_ws_loop (S (String.length s)) "" s.

(** [s.upper()] on the ASCII letters: this is [str.upper] when [s] is ASCII
    text; Python also maps letters outside ASCII, some of them to ASCII
    letters. *)
Definition upper_char (c : ascii) : ascii :=
  let n := nat_of_ascii c in
  if (97 <=? n) && (n <=? 122) then ascii_of_nat (n - 32) else c.
Fixpoint upper (s : string) : string :=
  match s with
  | "" => ""
  | String c s' => String (upper_char c) (upper s')
  end.

(** [str(n)] and the [{n}] of an f-string, for an integer. *)
Definition str_of_int (n : Z) : string := pretty n.

Definition digit (c : ascii) : option Z :=
  let n := nat_of_ascii c in
  if (48 <=? n) && (n <=? 57) then Some (Z.of_nat (n - 48)) else None.

(** The digits of an integer literal: decimal digits, with single
    underscores allowed between two digits.  [prev] tells whether the
    previous character was a digit. *)
Fixpoint digits (prev : bool) (acc : Z) (s : string) : option Z :=
  match s with
  | "" => if prev then Some acc else None
  | String c s' =>
      match digit c with
      | Some d => digits true (10 * acc + d) s'
      | None =>
          if Ascii.eqb c "_" && prev then
            match s' with
            | String c' _ =>
                match digit c' with
                | Some _ => digits false acc s'
                | None => None
                end
            | "" => None
            end
          else None
      end
  end.

(** [int(s)], [None] standing for [ValueError]: this is [int] when [s] is
    ASCII text; Python also reads the decimal digits of other scripts. *)
Definition int_of_str (s : string) : option Z :=
  match strip s with
  | String "-" r => Z.opp <$> digits false 0 r
  | String "+" r => digits false 0 r
  | r => digits false 0 r
  end.

(** The lines of a text file read in text mode: universal newlines, each
    line ending ('\n', '\r' or '\r\n') is read as '\n' and kept. *)
Fixpoint readlines (s : string) : list string :=
  match s with
  | "" => []
  | String c s' =>
      if Ascii.eqb c LF then nl :: readlines s'
      else if Ascii.eqb c CR then
        match s' with
        | String c' s'' =>
            if Ascii.eqb c' LF then nl :: readlines s''
            else nl :: readlines s'
        | "" => [nl]
        end
      else
        match readlines s' with
        | [] => [String c ""]
        | l :: ls => String c l :: ls
        end
  end.

End Py.

Global Arguments Py.first : simpl never.
Global Arguments Py.skip : simpl never.

(** ** UTF-8 *)

Module Utf8.

(** For a first byte: the number of continuation bytes that follow and
    the range the first of them must lie in (the later ones lie in
    80..BF).  [None] for a byte that cannot start a character. *)
Definition lead (b : nat) : option (nat * nat * nat) :=
  if b <? 128 then Some (0, 128, 191)
  else if (194 <=? b) && (b <=? 223) then Some (1, 128, 191)
  else if b =? 224 then Some (2, 160, 191)
  else if (225 <=? b) && (b <=? 236) then Some (2, 128, 191)
  else if b =? 237 then Some (2, 128, 159)
  else if (238 <=? b) && (b <=? 239) then Some (2, 128, 191)
  else if b =? 240 then Some (3, 144, 191)
  else if (241 <=? b) && (b <=? 243) then Some (3, 128, 191)
  else if b =? 244 then Some (3, 128, 143)
  else None.

(** [valid_from pending lo hi s]: [s] completes a character that still
    needs [pending] continuation bytes, the next one in [lo..hi], and goes
    on as well-formed UTF-8. *)
Fixpoint valid_from (pending lo hi : nat) (s : string) : bool :=
  match s with
  | "" => pending =? 0
  | String c s' =>
      let b := nat_of_ascii c in
      match pending with
      | 0 =>
          match lead b with
          | Some (n, lo', hi') => valid_from n lo' hi' s'
          | None => false
          end
      | S p => (lo <=? b) && (b <=? hi) && valid_from p 128 191 s'
      end
  end.

Definition valid (s : string) : bool := valid_from 0 128 191 s.

(** [data.decode()]: [None] stands for [UnicodeDecodeError]. *)
Definition decode (data : string) : option string :=
  if valid data then Some data else None.

(** U+FFFD, the replacement character. *)
Definition replacement : string := Py.of_bytes [239; 191; 189].

(** [data.decode('utf-8', errors='replace')]: every maximal ill-formed
    run of bytes becomes U+FFFD.  [cur] holds, in reverse, the bytes of
    the character being read. *)
Fixpoint decode_replace_from (pending lo hi : nat) (cur : string)
    (s : string) : string :=
  match s with
  | "" => match pending with 0 => "" | S _ => replacement end
  | String c s' =>
      let b := nat_of_ascii c in
      let fresh :=
        match lead b with
        | Some (0, _, _) => String c (decode_replace_from 0 128 191 "" s')
        | Some (n, lo', hi') => decode_replace_from n lo' hi' (String c "") s'
        | None => replacement +:+ decode_replace_from 0 128 191 "" s'
        end in
      match pending with
      | 0 => fresh
      | S p =>
          if (lo <=? b) && (b <=? hi) then
            match p with
            | 0 => String.rev (String c cur) +:+
                     decode_replace_from 0 128 191 "" s'
            | S _ => decode_replace_from p 128 191 (String c cur) s'
            end
          else replacement +:+ fresh
      end
  end.

Definition decode_replace (data : string) : string :=
  decode_replace_from 0 128 191 "" data.

End Utf8.

(** ** Exceptions *)

Inductive exn : Set :=
  | socket_timeout
  | ValueError
  | UnicodeDecodeError
  | IndexError
  | FileNotFoundError
  | IsADirectoryError.

(** [isinstance(e, cls)]: [UnicodeDecodeError] derives from [ValueError]. *)
Definition isinstance (e cls : exn) : bool :=
  match e, cls with
  | socket_timeout, socket_timeout => true
  | ValueError, ValueError => true
  | UnicodeDecodeError, (UnicodeDecodeError | ValueError) => true
  | IndexError, IndexError => true
  | FileNotFoundError, FileNotFoundError => true
  | IsADirectoryError, IsADirectoryError => true
  | _, _ => false
  end.

(** A call either returns a value or raises. *)
Inductive result (A : Type) : Type :=
  | Ret (a : A)
  | Raise (e : exn).
Arguments Ret {A} a.
Arguments Raise {A} e.

Definition result_bind {A B : Type} (r : result A) (k : A → result B)
    : result B :=
  match r with
  | Ret a => k a
  | Raise e => Raise e
  end.

(** ** Constants of [server.py] and of the client *)

Definition BUFFER_SIZE : nat := 1024.
Definition ACK_TIMEOUT : nat := 2.
Definition UPLOAD_DIR : string := "uploads".
Definition CREDENTIALS_FILE : string := "credentials.txt".
Definition MAX_RETRIES : nat := 3.

(** ** The datagram socket *)

(** An endpoint: host and port. *)
Definition addr : Type := string * Z.

(** What one call of [sock.recvfrom] meets: the wait times out, or a
    datagram arrives from some endpoint. *)
Inductive arrival : Type :=
  | Timeout
  | Datagram (data : string) (from : addr).

(** The world around a socket: the successive values of [random.random()],
    each in the interval [0, 1), and the successive outcomes of
    [recvfrom]. *)
Record Env : Type := {
  random : nat → Q;
  network : nat → arrival
}.

(** A socket in use: how many random numbers were drawn, how many times
    [recvfrom] was called, and the datagrams handed to [sendto], oldest
    first. *)
Record Sock : Type := {
  draws : nat;
  reads : nat;
  sent : list (string * addr)
}.

Definition fresh_sock : Sock := {| draws := 0; reads := 0; sent := [] |}.

(** [sock.sendto(packet, a)], for a packet that fits one datagram: the
    socket of the code raises [OSError] for a longer one. *)
Definition sendto (packet : string) (a : addr) (s : Sock) : Sock :=
  {| draws := draws s; reads := reads s; sent := sent s ++ [(packet, a)] |}.

(** [sock.recvfrom(BUFFER_SIZE)]: a longer datagram is cut to the buffer
    size. *)
Definition recvfrom (E : Env) (s : Sock) : result (string * addr) * Sock :=
  let s' := {| draws := draws s; reads := S (reads s); sent := sent s |} in
  match network E (reads s) with
  | Timeout => (Raise socket_timeout, s')
  | Datagram data a => (Ret (Py.first BUFFER_SIZE data, a), s')
  end.

(** [random.random() < packet_loss_rate] *)
Definition simulate_packet_loss (E : Env) (packet_loss_rate : Q) (s : Sock)
    : bool * Sock :=
  (negb (Qle_bool packet_loss_rate (random E (draws s))),
   {| draws := S (draws s); reads := reads s; sent := sent s |}).

(** [f"{seq_num}|BIN|".encode() + data] and [f"{seq_num}|{data}".encode()] *)
Definition frame (seq_num : Z) (data : string) (is_binary : bool) : string :=
  if is_binary then (Py.str_of_int seq_num +:+ "|BIN|") +:+ data
  else Py.str_of_int seq_num +:+ "|" +:+ data.

(** [int(ack_data.decode())] *)
Definition ack_number (ack_data : string) : result Z :=
  match Utf8.decode ack_data with
  | None => Raise UnicodeDecodeError
  | Some text =>
      match Py.int_of_str text with
      | None => Raise ValueError
      | Some n => Ret n
      end
  end.

(** ** The reliable datagram channel *)

(** The loop of [reliable_send], the same in the server and in the client.
    [fuel] bounds the number of iterations that are run; [None] means the
    bound was reached before the loop ended.  The body of the [try] is
    [recvfrom], the reading of the acknowledgment and the comparison; a
    timeout counts an attempt, a [ValueError] does not. *)
Fixpoint send_loop (E : Env) (fuel : nat) (packet : string) (a : addr)
    (seq_num : Z) (packet_loss_rate : Q) (attempts : nat) (s : Sock)
    : option (result bool * Sock) :=
  match fuel with
  | 0 => None
  | S fuel' =>
      if attempts <? MAX_RETRIES then
        let '(lost, s) := simulate_packet_loss E packet_loss_rate s in
        let s := if lost then s else sendto packet a s in
        let '(r, s) := recvfrom E s in
        let tried :=
          result_bind r (λ '(ack_data, _),
            result_bind (ack_number ack_data) (λ ack_seq,
              Ret (ack_seq =? seq_num)%Z)) in
        match tried with
        | Ret true => Some (Ret true, s)
        | Ret false =>
            send_loop E fuel' packet a seq_num packet_loss_rate attempts s
        | Raise e =>
            if isinstance e socket_timeout then
              send_loop E fuel' packet a seq_num packet_loss_rate
                (attempts + 1) s
            else if isinstance e ValueError then
              send_loop E fuel' packet a seq_num packet_loss_rate attempts s
            else Some (Raise e, s)
        end
      else Some (Ret false, s)
  end.

(** The decoding of a datagram in [reliable_recv], the same in the server
    and in the client: the acknowledgment to send, if any, the payload and
    the binary flag; [None] when the datagram is not returned and the loop
    goes on (the binary branch: fewer than three parts, or a sequence number
    that does not decode, which raises into [except Exception]). *)
Definition accept_frame (data : string)
    : option (option string * string * bool) :=
  match Utf8.decode data with
  | Some decoded =>
      if Py.contains_char "|" decoded then
        match Py.split "|" 1 decoded with
        | [seq_num; payload] => Some (Some seq_num, payload, false)
        | _ => None
        end
      else Some (None, decoded, false)
  | None =>
      let parts := Py.split "|" 2 data in
      if 3 <=? length parts then
        match Utf8.decode (parts !!! 0) with
        | Some seq_num => Some (Some seq_num, parts !!! 2, true)
        | None => None
        end
      else None
  end.

Module Server.

(** [reliable_send(sock, addr, data, is_binary, packet_loss_rate)], where
    [seq_num] is the value drawn by [random.randint(0, 10000)]. *)
Definition reliable_send (E : Env) (fuel : nat) (seq_num : Z) (a : addr)
    (data : string) (is_binary : bool) (packet_loss_rate : Q) (s : Sock)
    : option (result bool * Sock) :=
  send_loop E fuel (frame seq_num data is_binary) a seq_num
    packet_loss_rate 0 s.

(** [reliable_recv(sock, packet_loss_rate)]: the payload, the sender and
    the binary flag.  The function has no exit but its [return]s: a
    timeout and every other exception are caught and the loop goes on. *)
Fixpoint reliable_recv (E : Env) (fuel : nat) (packet_loss_rate : Q)
    (s : Sock) : option ((string * addr * bool) * Sock) :=
  match fuel with
  | 0 => None
  | S fuel' =>
      let '(r, s) := recvfrom E s in
      match r with
      | Raise _ => reliable_recv E fuel' packet_loss_rate s
      | Ret (data, a) =>
          let '(lost, s) := simulate_packet_loss E packet_loss_rate s in
          if lost then reliable_recv E fuel' packet_loss_rate s
          else
            match accept_frame data with
            | Some (Some seq_num, payload, is_binary) =>
                Some ((payload, a, is_binary), sendto seq_num a s)
            | Some (None, payload, is_binary) =>
                Some ((payload, a, is_binary), s)
            | None => reliable_recv E fuel' packet_loss_rate s
            end
      end
  end.

End Server.

Module ForumClient.

(** [self.reliable_send(data, packet_loss_rate)]: always a text frame, to
    [self.server_addr]. *)
Definition reliable_send (E : Env) (fuel : nat) (seq_num : Z)
    (server_addr : addr) (data : string) (packet_loss_rate : Q) (s : Sock)
    : option (result bool * Sock) :=
  send_loop E fuel (frame seq_num data false) server_addr seq_num
    packet_loss_rate 0 s.

(** [self.reliable_recv(packet_loss_rate)]: the payload and whether it is
    a [bytes] value, or Python's [None] when the wait times out. *)
Fixpoint reliable_recv (E : Env) (fuel : nat) (packet_loss_rate : Q)
    (s : Sock) : option (option (string * bool) * Sock) :=
  match fuel with
  | 0 => None
  | S fuel' =>
      let '(r, s) := recvfrom E s in
      match r with
      | Raise e =>
          if isinstance e socket_timeout then Some (None, s)
          else reliable_recv E fuel' packet_loss_rate s
      | Ret (data, a) =>
          let '(lost, s) := simulate_packet_loss E packet_loss_rate s in
          if lost then reliable_recv E fuel' packet_loss_rate s
          else
            match accept_frame data with
            | Some (Some seq_num, payload, is_binary) =>
                Some (Some (payload, is_binary), sendto seq_num a s)
            | Some (None, payload, is_binary) =>
                Some (Some (payload, is_binary), s)
            | None => reliable_recv E fuel' packet_loss_rate s
            end
      end
  end.

End ForumClient.

(** ** The state of the server process *)

(** An entry of the working directory. *)
Inductive node : Type :=
  | File (content : string)
  | Dir.

(** The state a session worker acts on.

    - [logged_users]: the global set of that name.
    - [cwd]: the working directory, by name.  Names are looked up as they
      are written: a title is one name, whatever characters it has.
    - [uploads]: the directories [uploads/<title>], each with its files.
    - [replies]: the calls of [reliable_send] made so far, oldest first,
      as destination and payload.
    - [tcp_in]: the stream connections that [accept] will return, each as
      the successive non-final results of its [recv(BUFFER_SIZE)]; after the
      last of them [recv] returns the empty byte string (end of stream).
    - [tcp_out]: for each download, the blocks handed to [sendall]. *)
Record State : Type := {
  logged_users : gset string;
  cwd : gmap string node;
  uploads : gmap string (gmap string string);
  replies : list (addr * string);
  tcp_in : list (list string);
  tcp_out : list (list string)
}.

Definition set_logged_users (f : gset string → gset string) (st : State) : State :=
  {| logged_users := f (logged_users st); cwd := cwd st;
     uploads := uploads st; replies := replies st; tcp_in := tcp_in st;
     tcp_out := tcp_out st |}.
Definition set_cwd (f : gmap string node → gmap string node) (st : State) : State :=
  {| logged_users := logged_users st; cwd := f (cwd st);
     uploads := uploads st; replies := replies st; tcp_in := tcp_in st;
     tcp_out := tcp_out st |}.
Definition set_uploads
    (f : gmap string (gmap string string) → gmap string (gmap string string))
    (st : State) : State :=
  {| logged_users := logged_users st; cwd := cwd st;
     uploads := f (uploads st); replies := replies st; tcp_in := tcp_in st;
     tcp_out := tcp_out st |}.
Definition set_replies (f : list (addr * string) → list (addr * string))
    (st : State) : State :=
  {| logged_users := logged_users st; cwd := cwd st;
     uploads := uploads st; replies := f (replies st); tcp_in := tcp_in st;
     tcp_out := tcp_out st |}.
Definition set_tcp_in (f : list (list string) → list (list string))
    (st : State) : State :=
  {| logged_users := logged_users st; cwd := cwd st;
     uploads := uploads st; replies := replies st; tcp_in := f (tcp_in st);
     tcp_out := tcp_out st |}.
Definition set_tcp_out (f : list (list string) → list (list string))
    (st : State) : State :=
  {| logged_users := logged_users st; cwd := cwd st;
     uploads := uploads st; replies := replies st; tcp_in := tcp_in st;
     tcp_out := f (tcp_out st) |}.

(** ** Statements of the session worker *)

(** How a statement ends other than by going to the next one. *)
Inductive signal : Type :=
  | Continue              (* [continue]: on to the next command *)
  | Break                 (* [break]: out of the command loop *)
  | Return                (* [return] from [client_handler] *)
  | Raised (e : exn)      (* an exception on its way to [except Exception] *)
  | Blocked               (* a call that never returns *)
  | Unmodelled.           (* a [bytes] value used where the worker expects
                             a [str]: what follows is not described *)

Inductive step (A : Type) : Type :=
  | Val (a : A)
  | Sig (s : signal).
Arguments Val {A} a.
Arguments Sig {A} s.

Definition M (A : Type) : Type := State → step A * State.

Definition ret {A : Type} (a : A) : M A := λ st, (Val a, st).
Definition bind {A B : Type} (m : M A) (k : A → M B) : M B := λ st,
  match m st with
  | (Val a, st') => k a st'
  | (Sig s, st') => (Sig s, st')
  end.

Declare Scope stmt_scope.
Delimit Scope stmt_scope with stmt.
Notation "x ← y ; z" := (bind y (λ x, z))
  (at level 20, y at level 100, z at level 200, only parsing) : stmt_scope.
Notation "x ;; z" := (bind x (λ _, z))
  (at level 100, z at level 200, only parsing, right associativity) : stmt_scope.
Open Scope stmt_scope.

Definition signal_ {A : Type} (s : signal) : M A := λ st, (Sig s, st).
Definition gets {A : Type} (f : State → A) : M A := λ st, (Val (f st), st).
Definition modify (f : State → State) : M unit := λ st, (Val tt, f st).
Definition lift {A : Type} (r : result A) : M A :=
  match r with
  | Ret a => ret a
  | Raise e => signal_ (Raised e)
  end.

(** [reliable_send(sock, addr, data, packet_loss_rate=packet_loss_rate)],
    whose result the worker never looks at: the reply is recorded.  In the
    code the call raises when [data] has no encoding or its frame does not
    fit one datagram, and does not return while datagrams that are no
    acknowledgment keep arriving. *)
Definition reply (a : addr) (data : string) : M unit :=
  modify (set_replies (λ l, l ++ [(a, data)])).

(** [os.path.exists(name)], for a name that is the name of one entry of the
    working directory: the directory is a map from names to entries, and a
    path of several components, ".", ".." or an absolute path is no key of
    it. *)
Definition path_exists (name : string) : M bool :=
  gets (λ st, bool_decide (is_Some (cwd st !! name))).

(** [open(name, 'r')] followed by [f.readlines()] *)
Definition read_text (dir : gmap string node) (name : string)
    : result (list string) :=
  match dir !! name with
  | None => Raise FileNotFoundError
  | Some Dir => Raise IsADirectoryError
  | Some (File content) =>
      match Utf8.decode content with
      | None => Raise UnicodeDecodeError
      | Some text => Ret (Py.readlines text)
      end
  end.
Definition readlines (name : string) : M (list string) :=
  st ← gets cwd; lift (read_text st name).

(** [open(name, 'w')] followed by [f.write(text)], for a name that is the
    name of one entry of the working directory. *)
Definition write_text (name text : string) : M unit :=
  dir ← gets cwd;
  match dir !! name with
  | Some Dir => signal_ (Raised IsADirectoryError)
  | _ => modify (set_cwd (insert name (File text)))
  end.

(** [open(name, 'a')] followed by [f.write(text)] *)
Definition append_text (name text : string) : M unit :=
  dir ← gets cwd;
  match dir !! name with
  | Some Dir => signal_ (Raised IsADirectoryError)
  | Some (File content) => modify (set_cwd (insert name (File (content +:+ text))))
  | None => modify (set_cwd (insert name (File text)))
  end.

(** [tcp_sock.accept()] *)
Definition accept : M (list string) :=
  conns ← gets tcp_in;
  match conns with
  | [] => signal_ Blocked
  | c :: rest => modify (set_tcp_in (λ _, rest));; ret c
  end.

(** The credentials read by [authenticate_user]: lines of fewer than two
    words are skipped. *)
Definition credentials_of (lines : list string) : gmap string string :=
  foldl (λ credentials line,
           if bool_decide (Py.strip line = "") then credentials
           else
             let parts := Py.split_ws (Py.strip line) in
             if 2 <=? length parts
             then <[parts !!! 0 := parts !!! 1]> credentials
             else credentials)
        ∅ lines.

(** The credentials read by [client_handler]: a line of one word raises
    [IndexError]. *)
Definition credentials_strict (lines : list string)
    : result (gmap string string) :=
  foldl (λ acc line,
           result_bind acc (λ credentials,
             if bool_decide (Py.strip line = "") then Ret credentials
             else
               match Py.split_ws line with
               | k :: v :: _ => Ret (<[k := v]> credentials)
               | _ => Raise IndexError
               end))
        (Ret ∅) lines.

(** [authenticate_user(username, password, new_user)] *)
Definition authenticate_user (username password : string) (new_user : bool)
    : M bool :=
  present ← path_exists CREDENTIALS_FILE;
  (if present then ret tt else write_text CREDENTIALS_FILE "");;
  lines ← readlines CREDENTIALS_FILE;
  let credentials := credentials_of lines in
  if new_user then
    if bool_decide (is_Some (credentials !! username)) then ret false
    else
      append_text CREDENTIALS_FILE
        (username +:+ " " +:+ password +:+ Py.nl);;
      ret true
  else
    ret (bool_decide (credentials !! username = Some password)).

(** [os.path.isfile(name)] *)
Definition isfile (dir : gmap string node) (name : string) : bool :=
  match dir !! name with
  | Some (File _) => true
  | _ => false
  end.

(** [get_thread_list()], with [os.listdir()] listing the working directory
    in the order of [map_to_list]; the order in which the code lists it is
    arbitrary. *)
Definition get_thread_list (dir : gmap string node) : list string :=
  filter (λ file,
            isfile dir file = true ∧
            Py.startswith file "." = false ∧
            file ∉ ["server.py"; "client.py"; "credentials.txt"])
         ((map_to_list dir).*1).

(** ** Loops of the stream transfers *)

(** The receiving loop of UPD: the bytes written to the file, given the
    results of the successive [recv]. *)
Fixpoint receive_file (chunks : list string) : string :=
  match chunks with
  | [] => ""
  | data :: chunks' =>
      if String.eqb data "" || String.eqb data "EOF" then ""
      else data +:+ receive_file chunks'
  end.

(** The sending loops of DWN and of the client's [upload_file]: the results
    of the successive [f.read(BUFFER_SIZE)] before the empty one, each handed
    to [sendall]. *)
Fixpoint read_blocks (fuel : nat) (content : string) : list string :=
  match fuel with
  | 0 => []
  | S fuel' =>
      match Py.first BUFFER_SIZE content with
      | "" => []
      | data => data :: read_blocks fuel' (Py.skip BUFFER_SIZE content)
      end
  end.
Definition file_blocks (content : string) : list string :=
  read_blocks (String.length content) content.

(** The receiving loop of the client's [download_file]: the bytes written
    to the local file, given the results of the successive [recv]. *)
Fixpoint save_file (chunks : list string) : string :=
  match chunks with
  | [] => ""
  | data :: chunks' =>
      if String.eqb data "" then "" else data +:+ save_file chunks'
  end.

(** ** The commands *)

Section Commands.

(** The name the session is logged in under and the endpoint the command
    came from, where the replies go. *)
Variable username : string.
Variable a : addr.

Definition do_XIT : M unit :=
  modify (set_logged_users (λ users, users ∖ {[username]}));;
  reply a "Goodbye";;
  signal_ Break.

Definition do_CRT (thread_title : string) : M unit :=
  present ← path_exists thread_title;
  if present then
    reply a ("Thread " +:+ thread_title +:+ " already exists")
  else
    write_text thread_title (username +:+ Py.nl);;
    reply a ("Thread " +:+ thread_title +:+ " created successfully").

(** LST.  The code raises, instead of replying, when a title has no
    encoding or the list does not fit one datagram. *)
Definition do_LST : M unit :=
  threads ← gets (λ st, get_thread_list (cwd st));
  match threads with
  | _ :: _ => reply a ("Threads:" +:+ Py.nl +:+ Py.join Py.nl threads)
  | [] => reply a "No threads available"
  end.

Definition do_MSG (args : string) : M unit :=
  let msg_parts := Py.split " " 1 args in
  if length msg_parts <? 2 then
    reply a "Invalid message format. Use: MSG threadtitle message";;
    signal_ Continue
  else
    let thread_title := msg_parts !!! 0 in
    let message := msg_parts !!! 1 in
    present ← path_exists thread_title;
    if negb present then
      reply a ("Thread " +:+ thread_title +:+ " does not exist");;
      signal_ Continue
    else
      lines ← readlines thread_title;
      let msg_number := length lines in
      append_text thread_title
        (Py.str_of_int (Z.of_nat msg_number) +:+ " " +:+ username +:+ ": " +:+
         message +:+ Py.nl);;
      reply a ("Message posted to " +:+ thread_title).

Definition do_RDT (thread_title : string) : M unit :=
  present ← path_exists thread_title;
  if negb present then
    reply a ("Thread " +:+ thread_title +:+ " does not exist");;
    signal_ Continue
  else
    lines ← readlines thread_title;
    if length lines <=? 1 then
      reply a ("Thread " +:+ thread_title +:+ " is empty")
    else
      let thread_content := Py.concat (drop 1 lines) in
      reply a ("Thread " +:+ thread_title +:+ ":" +:+ Py.nl +:+
               thread_content).

(** The body of the renumbering loop of DLT, for one [i]. *)
Definition renumber_at (i : nat) (lines : list string) : list string :=
  match lines !! i with
  | Some old_line =>
      if negb (String.eqb (Py.strip old_line) "") &&
         Py.contains_char " " old_line
      then
        let old_msg_num := Py.split " " 1 old_line !!! 0 in
        let new_line :=
          Py.replace_first (old_msg_num +:+ " ")
            (Py.str_of_int (Z.of_nat i) +:+ " ") old_line in
        <[i := new_line]> lines
      else lines
  | None => lines
  end.

(** [for i in range(message_number, len(lines)): ...] *)
Definition renumber (message_number : nat) (lines : list string)
    : list string :=
  foldl (λ lines i, renumber_at i lines) lines
    (seq message_number (length lines - message_number)).

(** DLT once the title and the number are read. *)
Definition delete_message (thread_title : string) (message_number : Z)
    : M unit :=
  present ← path_exists thread_title;
  if negb present then
    reply a ("Thread " +:+ thread_title +:+ " does not exist");;
    signal_ Continue
  else
    lines ← readlines thread_title;
    if (message_number <=? 0)%Z || (Z.of_nat (length lines) <=? message_number)%Z
    then
      reply a ("Message " +:+ Py.str_of_int message_number +:+
               " does not exist in thread " +:+ thread_title);;
      signal_ Continue
    else
      let message_line := lines !!! Z.to_nat message_number in
      if negb (Py.startswith message_line
                 (Py.str_of_int message_number +:+ " " +:+ username +:+ ":"))
      then
        reply a "You can only delete your own messages";;
        signal_ Continue
      else
        let lines := delete (Z.to_nat message_number) lines in
        let lines := renumber (Z.to_nat message_number) lines in
        write_text thread_title (Py.concat lines);;
        reply a ("Message " +:+ Py.str_of_int message_number +:+
                 " deleted from " +:+ thread_title).

Definition do_DLT (args : string) : M unit :=
  let dlt_parts := Py.split " " 1 args in
  if length dlt_parts <? 2 then
    reply a "Invalid delete format. Use: DLT threadtitle messagenumber";;
    signal_ Continue
  else
    let thread_title := dlt_parts !!! 0 in
    match Py.int_of_str (dlt_parts !!! 1) with
    | None => reply a "Invalid message number";; signal_ Continue
    | Some message_number => delete_message thread_title message_number
    end.

(** EDT once the title, the number and the new text are read. *)
Definition edit_message (thread_title : string) (message_number : Z)
    (new_message : string) : M unit :=
  present ← path_exists thread_title;
  if negb present then
    reply a ("Thread " +:+ thread_title +:+ " does not exist");;
    signal_ Continue
  else
    lines ← readlines thread_title;
    if (message_number <=? 0)%Z || (Z.of_nat (length lines) <=? message_number)%Z
    then
      reply a ("Message " +:+ Py.str_of_int message_number +:+
               " does not exist in thread " +:+ thread_title);;
      signal_ Continue
    else
      let message_line := lines !!! Z.to_nat message_number in
      if negb (Py.startswith message_line
                 (Py.str_of_int message_number +:+ " " +:+ username +:+ ":"))
      then
        reply a "You can only edit your own messages";;
        signal_ Continue
      else
        let lines :=
          <[Z.to_nat message_number :=
              Py.str_of_int message_number +:+ " " +:+ username +:+ ": " +:+
              new_message +:+ Py.nl]> lines in
        write_text thread_title (Py.concat lines);;
        reply a ("Message " +:+ Py.str_of_int message_number +:+
                 " edited in " +:+ thread_title).

Definition do_EDT (args : string) : M unit :=
  let remaining := Py.split " " 2 args in
  if length remaining <? 3 then
    reply a "Invalid edit format. Use: EDT threadtitle messagenumber message";;
    signal_ Continue
  else
    let thread_title := remaining !!! 0 in
    match Py.int_of_str (remaining !!! 1) with
    | None => reply a "Invalid message number";; signal_ Continue
    | Some message_number =>
        edit_message thread_title message_number (remaining !!! 2)
    end.

(** RMV: [f.readline()] is the first of the lines of the file; the upload
    directory of the thread goes with it. *)
Definition do_RMV (thread_title : string) : M unit :=
  present ← path_exists thread_title;
  if negb present then
    reply a ("Thread " +:+ thread_title +:+ " does not exist");;
    signal_ Continue
  else
    lines ← readlines thread_title;
    let creator := Py.strip (default "" (head lines)) in
    if negb (String.eqb creator username) then
      reply a "You can only remove threads you created";;
      signal_ Continue
    else
      modify (set_cwd (delete thread_title));;
      modify (set_uploads (delete thread_title));;
      reply a ("Thread " +:+ thread_title +:+ " removed").

(** UPD.  The upload directory of a thread is the entry of [uploads] under
    its title, and a stored file the entry of that directory under its
    name: this is [os.path.join(UPLOAD_DIR, thread_title)] and
    [os.path.join(thread_upload_dir, filename)] when the title and the file
    name are names of one directory entry. *)
Definition do_UPD (args : string) : M unit :=
  let upd_parts := Py.split " " 1 args in
  if length upd_parts <? 2 then
    reply a "Invalid upload format. Use: UPD threadtitle filename";;
    signal_ Continue
  else
    let thread_title := upd_parts !!! 0 in
    let filename := upd_parts !!! 1 in
    present ← path_exists thread_title;
    if negb present then
      reply a ("Thread " +:+ thread_title +:+ " does not exist");;
      signal_ Continue
    else
      modify (set_uploads (λ u,
        match u !! thread_title with
        | Some _ => u
        | None => <[thread_title := ∅]> u
        end));;
      reply a "Ready for TCP transfer";;
      chunks ← accept;
      modify (set_uploads (λ u,
        <[thread_title :=
            <[filename := receive_file chunks]>
              (default ∅ (u !! thread_title))]> u));;
      append_text thread_title
        (username +:+ " uploaded " +:+ filename +:+ Py.nl);;
      reply a ("File " +:+ filename +:+ " uploaded successfully").

(** DWN, with the same reading of the two paths as UPD. *)
Definition do_DWN (args : string) : M unit :=
  let dwn_parts := Py.split " " 1 args in
  if length dwn_parts <? 2 then
    reply a "Invalid download format. Use: DWN threadtitle filename";;
    signal_ Continue
  else
    let thread_title := dwn_parts !!! 0 in
    let filename := dwn_parts !!! 1 in
    present ← path_exists thread_title;
    if negb present then
      reply a ("Thread " +:+ thread_title +:+ " does not exist");;
      signal_ Continue
    else
      stored ← gets (λ st, uploads st !! thread_title ≫= (.!! filename));
      match stored with
      | None =>
          reply a ("File " +:+ filename +:+ " does not exist in thread " +:+
                   thread_title);;
          signal_ Continue
      | Some content =>
          let file_size := String.length content in
          reply a ("Ready for TCP transfer|" +:+ Py.str_of_int (Z.of_nat file_size));;
          _ ← accept;
          modify (set_tcp_out (λ l, l ++ [file_blocks content]));;
          reply a ("File " +:+ filename +:+ " downloaded successfully")
      end.

(** One turn of the command loop, from the datagram [reliable_recv]
    returned to the end of the loop body. *)
Definition dispatch (cmd_data : string) (is_binary : bool) : M unit :=
  if String.eqb cmd_data "" then signal_ Continue
  else
    let cmd := if is_binary then Utf8.decode_replace cmd_data else cmd_data in
    let parts := Py.split " " 1 (Py.strip cmd) in
    let command := Py.upper (parts !!! 0) in
    if String.eqb command "XIT" then do_XIT
    else if String.eqb command "CRT" && (1 <? length parts) then
      do_CRT (parts !!! 1)
    else if String.eqb command "LST" then do_LST
    else if String.eqb command "MSG" && (1 <? length parts) then
      do_MSG (parts !!! 1)
    else if String.eqb command "RDT" && (1 <? length parts) then
      do_RDT (parts !!! 1)
    else if String.eqb command "DLT" && (1 <? length parts) then
      do_DLT (parts !!! 1)
    else if String.eqb command "EDT" && (1 <? length parts) then
      do_EDT (parts !!! 1)
    else if String.eqb command "RMV" && (1 <? length parts) then
      do_RMV (parts !!! 1)
    else if String.eqb command "UPD" && (1 <? length parts) then
      do_UPD (parts !!! 1)
    else if String.eqb command "DWN" && (1 <? length parts) then
      do_DWN (parts !!! 1)
    else reply a "Invalid command".

End Commands.

(** ** The session worker *)

(** What [reliable_recv] returns to the worker: payload, sender, binary
    flag. *)
Definition received : Type := string * addr * bool.

(** [while server_running: ...], with the datagrams [reliable_recv] returns
    to this worker, in order.  When there is none left the worker waits in
    [reliable_recv]. *)
Fixpoint command_loop (username : string) (inbox : list received) : M unit :=
  match inbox with
  | [] => signal_ Blocked
  | (cmd_data, a, is_binary) :: inbox' => λ st,
      match dispatch username a cmd_data is_binary st with
      | (Val _, st') | (Sig Continue, st') =>
          command_loop username inbox' st'
      | (Sig Break, st') => (Val tt, st')
      | (Sig s, st') => (Sig s, st')
      end
  end.

(** The second half of the authentication: the password is received and
    checked.  Returns the datagrams left for the command loop. *)
Definition check_password (username : string) (new_user : bool)
    (inbox : list received) : M (list received) :=
  match inbox with
  | [] => signal_ Blocked
  | (password, a, is_binary) :: inbox' =>
      if is_binary then signal_ Unmodelled
      else
        ok ← authenticate_user username password new_user;
        if ok then
          reply a (if new_user then "Account Created" else "Welcome");;
          modify (set_logged_users (λ users, {[username]} ∪ users));;
          ret inbox'
        else
          reply a (if new_user then "Account creation failed"
                   else "Invalid Password");;
          signal_ Return
  end.

(** The body of the [try] of [client_handler], after the user name is
    received from [a]. *)
Definition session (username : string) (a : addr) (inbox : list received)
    : M unit :=
  if String.eqb username "" then
    reply a "Invalid username";; signal_ Return
  else
    users ← gets logged_users;
    if bool_decide (username ∈ users) then
      reply a "Username in use";; signal_ Return
    else
      present ← path_exists CREDENTIALS_FILE;
      user_exists ←
        (if present then
           lines ← readlines CREDENTIALS_FILE;
           credentials ← lift (credentials_strict lines);
           ret (bool_decide (is_Some (credentials !! username)))
         else ret false);
      reply a (if user_exists then "Username OK" else "New User");;
      inbox ← check_password username (negb user_exists) inbox;
      command_loop username inbox.

(** How a worker is found in the end. *)
Inductive ending : Type :=
  | Finished (error : option exn)   (* returned, after logging [error] *)
  | Waiting                         (* inside a call that has not returned *)
  | OutOfModel.

(** The [finally] block. *)
Definition finally (username : string) (st : State) : State :=
  set_logged_users (λ users, users ∖ {[username]}) st.

(** [client_handler(sock, client_addr, packet_loss_rate)] *)
Definition client_handler (inbox : list received) (st : State)
    : ending * State :=
  match inbox with
  | [] => (Waiting, st)
  | (data, a, is_binary) :: inbox' =>
      if is_binary then (OutOfModel, st)
      else
        let username := Py.strip data in
        match session username a inbox' st with
        | (Sig Blocked, st') => (Waiting, st')
        | (Sig Unmodelled, st') => (OutOfModel, st')
        | (Sig (Raised e), st') => (Finished (Some e), finally username st')
        | (_, st') => (Finished None, finally username st')
        end
  end.

(** The server process when it starts: nobody logged in, the program and
    the directory [uploads] in the working directory. *)
Definition initial_state : State :=
  {| logged_users := ∅;
     cwd := <[UPLOAD_DIR := Dir]> (<["server.py" := File ""]> ∅);
     uploads := ∅;
     replies := [];
     tcp_in := [];
     tcp_out := [] |}.

(** ** Predicates and inputs of the statements *)

(** The socket after one turn of the loop of [reliable_send] that does not
    return: the packet is sent unless it is lost, and [recvfrom] is called
    once. *)
Definition turn (E : Env) (packet : string) (a : addr)
    (packet_loss_rate : Q) (s : Sock) : Sock :=
  let '(lost, s1) := simulate_packet_loss E packet_loss_rate s in
  snd (recvfrom E (if lost then s1 else sendto packet a s1)).

(** Two endpoints. *)
Definition peer : addr := ("127.0.0.1", 9090%Z).
Definition other_peer : addr := ("127.0.0.1", 9091%Z).

(** A network on which nothing ever arrives. *)
Definition silent : Env :=
  {| random := λ _, 0%Q; network := λ _, Timeout |}.

(** A network on which the datagram [data] keeps arriving. *)
Definition noisy (data : string) : Env :=
  {| random := λ _, 0%Q; network := λ _, Datagram data other_peer |}.

(** A network on which the datagrams of [l] arrive one after the other,
    from [peer], and nothing after them. *)
Definition delivering (l : list string) : Env :=
  {| random := λ _, 0%Q;
     network := λ n, match l !! n with
                     | Some data => Datagram data peer
                     | None => Timeout
                     end |}.

(** All the characters of [s] satisfy [P]. *)
Fixpoint all_chars (P : ascii → bool) (s : string) : bool :=
  match s with
  | "" => true
  | String c s' => P c && all_chars P s'
  end.

(** A decimal digit or the minus sign. *)
Definition numeral_char (c : ascii) : bool :=
  match Py.digit c with
  | Some _ => true
  | None => Ascii.eqb c "-"
  end.

(** The socket after [recvfrom] returned a datagram and
    [simulate_packet_loss] was asked about it. *)
Definition received_one (s : Sock) : Sock :=
  {| draws := S (draws s); reads := S (reads s); sent := sent s |}.

(** What one turn of the command loop for a command from [a] has handed to
    [reliable_send], from state [st] to the outcome [r].  A turn that ends
    without an exception has handed over exactly one reply, which is no
    announcement of a transfer; or, for a file transfer that went through,
    exactly two: "Ready for TCP transfer..." before the stream transfer and
    "File ... successfully" after it.  A turn that waits for the stream
    connection has handed over the announcement alone.  A turn that ends in
    an exception has handed over nothing, or the "Ready for TCP transfer"
    of an upload. *)
Definition answered (a : addr) (st : State) (r : step unit * State) : Prop :=
  match r.1 with
  | Sig (Raised _) =>
      replies r.2 = replies st ∨
      replies r.2 = replies st ++ [(a, "Ready for TCP transfer")]
  | Sig Blocked =>
      ∃ x, replies r.2 = replies st ++ [(a, x)] ∧
           Py.startswith x "Ready for TCP transfer" = true
  | _ =>
      (∃ x, replies r.2 = replies st ++ [(a, x)] ∧
            Py.startswith x "Ready for TCP transfer" = false) ∨
      (∃ x y, replies r.2 = replies st ++ [(a, x); (a, y)] ∧
              Py.startswith x "Ready for TCP transfer" = true ∧
              Py.startswith y "File " = true)
  end.

(** The session of the scenario: a new user Han creates the thread Cantina,
    posts a message and reads the thread. *)
Definition han_session : list received :=
  [("Han", peer, false); ("solo1", peer, false);
   ("CRT Cantina", peer, false); ("MSG Cantina Hello", peer, false);
   ("RDT Cantina", peer, false)].

(** The state of the server while Han is logged in and idle. *)
Definition han_logged_in : State :=
  (client_handler [("Han", peer, false); ("solo1", peer, false)]
     initial_state).2.

(** The state of the server after a user whose name is Han followed by a
    colon has created the thread Cantina and posted a message there. *)
Definition han_colon_posted : State :=
  (client_handler
     [("Han:", peer, false); ("pw", peer, false);
      ("CRT Cantina", peer, false); ("MSG Cantina Hello", peer, false)]
     initial_state).2.

(** What the renumbering of DLT makes of the line [old_line] that comes to
    stand at index [i]: the text before its first space is replaced by [i],
    unless the line is blank or has no space. *)
Definition renumbered (i : nat) (old_line : string) : string :=
  match Py.cut " " old_line with
  | Some (_, rest) =>
      if String.eqb (Py.strip old_line) "" then old_line
      else Py.str_of_int (Z.of_nat i) +:+ " " +:+ rest
  | None => old_line
  end.

(** The state of the server after Han has created the thread Cantina,
    posted three messages, the second one of two lines, and uploaded a
    file. *)
Definition cantina_with_bare_line : State :=
  (client_handler
     [("Han", peer, false); ("solo1", peer, false);
      ("CRT Cantina", peer, false); ("MSG Cantina one", peer, false);
      ("MSG Cantina two" +:+ Py.nl +:+ "lines", peer, false);
      ("MSG Cantina three", peer, false);
      ("UPD Cantina notes.txt", peer, false)]
     (set_tcp_in (λ _, [["abc"]]) initial_state)).2.

(** The state of the server after Han has created the thread Cantina, with
    two stream connections to come: one that delivers the blocks [chunks]
    and then ends, and a second one. *)
Definition cantina_before_upload (chunks : list string) : State :=
  set_tcp_in (λ _, [chunks; []])
    (client_handler
       [("Han", peer, false); ("solo1", peer, false);
        ("CRT Cantina", peer, false)] initial_state).2.

(** ** Predicates and inputs of the further statements *)





(** The file size that the client's [download_file] reads in the reply to
    its DWN: the number after the first '|' of a text reply.  [None] is
    Python's [None]: the reply is a [bytes] value, has no '|', or what
    follows the '|' is not a number. *)
Definition announced_size (response : string) (is_binary : bool)
    : option Z :=
  if negb is_binary && negb (String.eqb response "") &&
     Py.contains_char "|" response
  then
    match Py.split "|" (String.length response) response with
    | _ :: size :: _ => Py.int_of_str size
    | _ => None
    end
  else None.

(** The state of the server after Han has created the thread Cantina and
    uploaded the file notes.txt there, with one stream connection to
    come. *)
Definition cantina_with_notes : State :=
  (dispatch "Han" peer "UPD Cantina notes.txt" false
     (cantina_before_upload ["abc"; "def"])).2.

(** What DLT and EDT leave of the file [t] whose content was [content]:
    the file as it was, or the first line as it was read, followed by
    lines. *)
Definition first_line_kept (t content : string) (st' : State) : Prop :=
  cwd st' !! t = Some (File content) ∨
  ∃ creator_line rest rest',
    Py.readlines content = creator_line :: rest ∧
    cwd st' !! t = Some (File (creator_line +:+ Py.concat rest')).

(** A printable ASCII character other than the space, and a text made of
    such characters: a word, as [str.split()] finds it, that has no white
    space and no line break in it. *)
Definition word_char (c : ascii) : bool :=
  (33 <=? nat_of_ascii c) && (nat_of_ascii c <=? 126).
Definition word (w : string) : Prop :=
  w ≠ "" ∧ all_chars word_char w = true.

(** The line that a registration writes to the credentials file. *)
Definition credentials_line (username password : string) : string :=
  username +:+ " " +:+ password +:+ Py.nl.

(** A character that is not a line break. *)
Definition no_break (c : ascii) : bool :=
  negb (Ascii.eqb c Py.LF) && negb (Ascii.eqb c Py.CR).

(** The line that MSG writes for message [n]. *)
Definition message_line (n : nat) (username message : string) : string :=
  Py.str_of_int (Z.of_nat n) +:+ " " +:+ username +:+ ": " +:+ message +:+
  Py.nl.

(** The command loop of the client ([ForumClient.run]): what a command
    line that starts, in any letter case, with [word] and a space -- [word]
    is UPD or DWN -- is split into: the thread title and the file name that
    are handed to [upload_file] or [download_file].  [None] when the line
    does not start so or has fewer than three parts. *)
Definition client_transfer_args (word command : string)
    : option (string * string) :=
  if Py.startswith (Py.upper command) (word +:+ " ") then
    match Py.split " " 2 command with
    | [_; thread_title; filename] => Some (thread_title, filename)
    | _ => None
    end
  else None.

(** The request that [upload_file] or [download_file] then sends:
    [f"UPD {thread_title} {filename}"], [f"DWN {thread_title} {filename}"]. *)
Definition transfer_request (word thread_title filename : string) : string :=
  word +:+ " " +:+ thread_title +:+ " " +:+ filename.

(** ** Where the embedding follows the code

    The definitions above leave out the failures of the operating system
    and those parts of Python's library that depend on Unicode tables or on
    the resolution of paths: [sendto] and [reply] always succeed,
    [Py.upper] and [Py.int_of_str] know the ASCII letters and digits only,
    and names are looked up as they are written.  The predicates below
    describe the inputs on which the code does what the definitions do;
    the statements that depend on these definitions take them as
    hypotheses. *)

(** The largest payload of a datagram (UDP over IPv4): [sock.sendto] raises
    [OSError] for a longer one. *)
Definition MAX_DATAGRAM : Z := 65507.



(** A reply that [reliable_send] frames and sends whatever sequence number
    it draws: text that [str.encode()] encodes, and that fits a datagram
    behind the longest header, "10000|". *)
Definition sendable (data : string) : bool :=
  Utf8.valid data && (Z.of_nat (String.length data) + 6 <=? MAX_DATAGRAM)%Z.

(** ASCII text: on it [str.upper()] is [Py.upper] and [int()] is
    [Py.int_of_str]. *)
Definition ascii_text (s : string) : bool :=
  all_chars (λ c, nat_of_ascii c <? 128) s.

(** The name of one directory entry: not empty, not "." or "..", without
    '/' and without the NUL character, of at most 255 bytes, well-formed
    UTF-8.  For such a name [os.path.exists], [open] and [os.path.join]
    act on the entry of that name in the directory, and on nothing else. *)
Definition plain_name (name : string) : bool :=
  negb (String.eqb name "") && negb (String.eqb name ".") &&
  negb (String.eqb name "..") &&
  negb (Py.contains_char "/" name) && negb (Py.contains_char Ascii.zero name) &&
  (String.length name <=? 255) && Utf8.valid name.

(** The state of a server that has started: [server.py] creates the
    directory [uploads] before it serves anyone, and no command removes
    it. *)
Definition started (st : State) : bool :=
  match cwd st !! UPLOAD_DIR with
  | Some Dir => true
  | _ => false
  end.







(** The lines of the reply of LST for the titles [listing]. *)
Definition listing_text (listing : list string) : string :=
  "Threads:" +:+ Py.concat ((λ name, Py.nl +:+ name) <$> listing).

(** * Proofs *)

(** ** The string operations on examples *)

Example strip_example :
  Py.strip (" " +:+ Py.of_bytes [194; 160] +:+ "a b" +:+ Py.nl) = "a b".
Proof. reflexivity. Qed.

Example split_example :
  Py.split " " 1 "MSG Cantina Hello there" = ["MSG"; "Cantina Hello there"] ∧
  Py.split " " 1 "LST" = ["LST"] ∧
  Py.split "|" 2 "7|BIN|a|b" = ["7"; "BIN"; "a|b"].
Proof. repeat split; reflexivity. Qed.

Example split_ws_example :
  Py.split_ws ("  Han   solo1 " +:+ Py.nl) = ["Han"; "solo1"].
Proof. reflexivity. Qed.

Example int_of_str_example :
  Py.int_of_str " -1_0" = Some (-10)%Z ∧ Py.int_of_str "007" = Some 7%Z ∧
  Py.int_of_str "1__0" = None ∧ Py.int_of_str "1_" = None ∧
  Py.int_of_str "+" = None ∧ Py.int_of_str "" = None ∧
  Py.int_of_str "1 2" = None.
Proof. repeat split; reflexivity. Qed.

Example readlines_example :
  Py.readlines ("a" +:+ Py.nl +:+ "b" +:+ String Py.CR Py.nl +:+ "c") =
  ["a" +:+ Py.nl; "b" +:+ Py.nl; "c"].
Proof. reflexivity. Qed.

Example replace_first_example :
  Py.replace_first "Yoda " "3 " "Yoda uploaded Yoda f" = "3 uploaded Yoda f".
Proof. reflexivity. Qed.

Example upper_example : Py.upper "xit now" = "XIT NOW".
Proof. reflexivity. Qed.

Example utf8_example :
  Utf8.valid (Py.of_bytes [72; 195; 169; 226; 130; 172; 240; 159; 152; 128])
    = true ∧
  Utf8.valid (Py.of_bytes [192; 128]) = false ∧
  Utf8.valid (Py.of_bytes [237; 160; 128]) = false ∧
  Utf8.valid (Py.of_bytes [226; 130]) = false ∧
  Utf8.decode_replace (Py.of_bytes [97; 226; 130; 98; 224; 128; 255]) =
    Py.of_bytes [97; 239; 191; 189; 98; 239; 191; 189; 239; 191; 189;
                 239; 191; 189].
Proof. repeat split; reflexivity. Qed.

(** ** Strings *)

Lemma app_nil_l_s (y : string) : "" +:+ y = y.
Proof. reflexivity. Qed.

Lemma app_cons_s (c : ascii) (x y : string) :
  String c x +:+ y = String c (x +:+ y).
Proof. reflexivity. Qed.

Create Rewrite HintDb str.
Hint Rewrite app_nil_l_s app_cons_s : str.

Ltac str_simpl := autorewrite with str; simpl.

(** Closes a goal whose premise equates two different constructors. *)
Ltac absurd_eq := simpl; intros; congruence.

Lemma app_assoc_s (x y z : string) : (x +:+ y) +:+ z = x +:+ y +:+ z.
Proof. induction x as [|c x IH]; str_simpl; [reflexivity|]. f_equal. exact IH. Qed.

Lemma app_nil_r_s (x : string) : x +:+ "" = x.
Proof. induction x as [|c x IH]; str_simpl; [reflexivity|]. f_equal. exact IH. Qed.

Lemma length_app_s (x y : string) :
  String.length (x +:+ y) = String.length x + String.length y.
Proof. induction x as [|c x IH]; str_simpl; [reflexivity|]. f_equal. exact IH. Qed.

Lemma first_cons (n : nat) (c : ascii) (s : string) :
  Py.first (S n) (String c s) = String c (Py.first n s).
Proof. reflexivity. Qed.

Lemma skip_cons (n : nat) (c : ascii) (s : string) :
  Py.skip (S n) (String c s) = Py.skip n s.
Proof. reflexivity. Qed.

Lemma first_all (n : nat) (s : string) :
  String.length s ≤ n → Py.first n s = s.
Proof.
  revert n; induction s as [|c s IH]; intros [|n] Hlen; simpl in *;
    try reflexivity; try lia.
  rewrite first_cons. f_equal. apply IH. lia.
Qed.

Lemma cut_app (c : ascii) (l r : string) :
  Py.contains_char c l = false → Py.cut c (l +:+ String c r) = Some (l, r).
Proof.
  unfold Py.contains_char.
  induction l as [|x l IH]; str_simpl.
  - intros _. rewrite Ascii.eqb_refl. reflexivity.
  - destruct (Ascii.eqb x c) eqn:Hx; [discriminate|].
    destruct (Py.cut c l) as [[? ?]|] eqn:Hcut; [discriminate|].
    intros _. rewrite IH; reflexivity.
Qed.

Lemma cut_sound (c : ascii) (s l r : string) :
  Py.cut c s = Some (l, r) →
  s = l +:+ String c r ∧ Py.contains_char c l = false.
Proof.
  unfold Py.contains_char.
  revert l; induction s as [|x s IH]; simpl; intros l; [discriminate|].
  destruct (Ascii.eqb x c) eqn:Hx.
  - apply Ascii.eqb_eq in Hx as ->. intros [= <- <-]. split; reflexivity.
  - destruct (Py.cut c s) as [[l' r']|] eqn:Hcut; [|discriminate].
    intros [= <- <-]. destruct (IH l' eq_refl) as [-> Hl].
    split; [reflexivity|]. simpl. rewrite Hx.
    destruct (Py.cut c l'); [discriminate|reflexivity].
Qed.

Lemma contains_char_app (c : ascii) (l r : string) :
  Py.contains_char c (l +:+ String c r) = true.
Proof.
  unfold Py.contains_char.
  induction l as [|x l IH]; str_simpl.
  - rewrite Ascii.eqb_refl. reflexivity.
  - destruct (Ascii.eqb x c); [reflexivity|].
    destruct (Py.cut c (l +:+ String c r)) as [[? ?]|]; [reflexivity|discriminate].
Qed.

Lemma contains_char_cons (c x : ascii) (s : string) :
  Py.contains_char c (String x s) = Ascii.eqb x c || Py.contains_char c s.
Proof.
  unfold Py.contains_char. simpl.
  destruct (Ascii.eqb x c); [reflexivity|].
  destruct (Py.cut c s) as [[? ?]|]; reflexivity.
Qed.

(** ** The reliable datagram channel: sending *)

Section SendLoop.

Variable E : Env.
Variable packet : string.
Variable a : addr.
Variable seq_num : Z.
Variable packet_loss_rate : Q.





Lemma turn_draws (s : Sock) :
  draws (turn E packet a packet_loss_rate s) = S (draws s).
Proof.
  unfold turn, simulate_packet_loss, recvfrom.
  destruct (negb _); simpl; destruct (network E _); reflexivity.
Qed.





Lemma iter_turn_draws (n : nat) (s : Sock) :
  draws (Nat.iter n (turn E packet a packet_loss_rate) s) = draws s + n.
Proof.
  induction n as [|n IH]; simpl; [lia|]. rewrite turn_draws, IH. lia.
Qed.



End SendLoop.





(** ** Decimal numerals *)

Lemma all_chars_app (P : ascii → bool) (s t : string) :
  all_chars P (s +:+ t) = all_chars P s && all_chars P t.
Proof.
  induction s as [|c s IH]; str_simpl; [reflexivity|].
  rewrite IH. apply andb_assoc.
Qed.

Lemma pretty_N_char_numeral (x : N) : numeral_char (pretty_N_char x) = true.
Proof. unfold pretty_N_char. repeat case_match; reflexivity. Qed.

Lemma pretty_N_go_numeral (x : N) (s : string) :
  all_chars numeral_char s = true →
  all_chars numeral_char (pretty_N_go x s) = true.
Proof.
  revert s. induction (N.lt_wf_0 x) as [x _ IH]; intros s Hs.
  destruct (decide (x = 0%N)) as [->|Hx].
  - rewrite pretty_N_go_0. exact Hs.
  - rewrite pretty_N_go_step by lia. apply IH.
    + apply N.div_lt; lia.
    + simpl. rewrite pretty_N_char_numeral. exact Hs.
Qed.

Lemma pretty_N_numeral (x : N) : all_chars numeral_char (pretty x) = true.
Proof.
  unfold pretty, pretty_N. case_decide; [reflexivity|].
  apply pretty_N_go_numeral. reflexivity.
Qed.

(** The decimal text of an integer is made of digits and a sign. *)
Lemma str_of_int_numeral (n : Z) :
  all_chars numeral_char (Py.str_of_int n) = true.
Proof.
  unfold Py.str_of_int.
  destruct n as [|p|p]; [reflexivity| |].
  - apply (pretty_N_numeral (Npos p)).
  - change (pretty (Zneg p)) with ("-" +:+ pretty (Npos p)).
    rewrite all_chars_app. rewrite (pretty_N_numeral (Npos p)). reflexivity.
Qed.

Lemma numeral_char_ascii (c : ascii) :
  numeral_char c = true → nat_of_ascii c < 128.
Proof.
  destruct c as [[] [] [] [] [] [] [] []]; vm_compute; intros; try lia;
    discriminate.
Qed.

Lemma numeral_char_not (c x : ascii) :
  numeral_char c = true → numeral_char x = false → Ascii.eqb c x = false.
Proof.
  intros Hc Hx. destruct (Ascii.eqb_spec c x) as [->|]; [congruence|reflexivity].
Qed.

Lemma numeral_no_char (x : ascii) (s : string) :
  numeral_char x = false →
  all_chars numeral_char s = true → Py.contains_char x s = false.
Proof.
  intros Hx. induction s as [|c s IH]; [reflexivity|].
  simpl. intros [Hc Hs]%andb_prop.
  rewrite contains_char_cons, (numeral_char_not c x Hc Hx). auto.
Qed.

(** ** UTF-8 *)

Lemma lead_ascii (b : nat) : b < 128 → Utf8.lead b = Some (0, 128, 191).
Proof.
  intros Hb. unfold Utf8.lead.
  destruct (Nat.ltb_spec b 128); [reflexivity|lia].
Qed.

(** ASCII text in front of [t] does not change whether [t] is well
    formed. *)
Lemma valid_numeral_app (s t : string) :
  all_chars numeral_char s = true → Utf8.valid (s +:+ t) = Utf8.valid t.
Proof.
  unfold Utf8.valid. induction s as [|c s IH]; str_simpl; [reflexivity|].
  intros [Hc Hs]%andb_prop.
  rewrite (lead_ascii _ (numeral_char_ascii c Hc)). auto.
Qed.

Lemma decode_valid (data : string) :
  Utf8.valid data = true → Utf8.decode data = Some data.
Proof. unfold Utf8.decode. intros ->. reflexivity. Qed.

Lemma decode_invalid (data : string) :
  Utf8.valid data = false → Utf8.decode data = None.
Proof. unfold Utf8.decode. intros ->. reflexivity. Qed.

Lemma decode_Some (data text : string) :
  Utf8.decode data = Some text → text = data ∧ Utf8.valid data = true.
Proof.
  unfold Utf8.decode. destruct (Utf8.valid data); [|discriminate].
  intros [= <-]. auto.
Qed.

Lemma valid_numeral (s : string) :
  all_chars numeral_char s = true → Utf8.valid s = true.
Proof.
  intros Hs. rewrite <- (app_nil_r_s s), valid_numeral_app by exact Hs.
  reflexivity.
Qed.

(** ** The reliable datagram channel: receiving *)

(** A datagram that is returned without an acknowledgment is well-formed
    text without a '|', returned whole. *)
Lemma accept_frame_no_ack (data payload : string) (is_binary : bool) :
  accept_frame data = Some (None, payload, is_binary) →
  Py.cut "|" data = None ∧ payload = data ∧ is_binary = false ∧
  Utf8.valid data = true.
Proof.
  unfold accept_frame.
  destruct (Utf8.decode data) as [decoded|] eqn:Hdec.
  - apply decode_Some in Hdec as [-> Hvalid].
    unfold Py.contains_char.
    destruct (Py.cut "|" data) as [[l r]|] eqn:Hcut.
    + simpl. rewrite Hcut. absurd_eq.
    + intros [= <- <-]. auto.
  - cbv zeta. destruct (3 <=? length (Py.split "|" 2 data)); [|absurd_eq].
    destruct (Utf8.decode (Py.split "|" 2 data !!! 0)); absurd_eq.
Qed.

(** A datagram that is returned with an acknowledgment has a '|'; the
    acknowledgment is what stands before the first one. *)
Lemma accept_frame_ack (data seq_num payload : string) (is_binary : bool) :
  accept_frame data = Some (Some seq_num, payload, is_binary) →
  ∃ rest, Py.cut "|" data = Some (seq_num, rest) ∧
          (is_binary = false → payload = rest ∧ Utf8.valid data = true) ∧
          (is_binary = true → Utf8.valid data = false ∧
             ∃ marker, Py.cut "|" rest = Some (marker, payload)).
Proof.
  unfold accept_frame.
  destruct (Utf8.decode data) as [decoded|] eqn:Hdec.
  - apply decode_Some in Hdec as [-> Hvalid].
    unfold Py.contains_char.
    destruct (Py.cut "|" data) as [[l r]|] eqn:Hcut; [|absurd_eq].
    simpl. rewrite Hcut. intros [= <- <- <-].
    exists r. split; [reflexivity|]. split; [auto|absurd_eq].
  - assert (Hinv : Utf8.valid data = false).
    { unfold Utf8.decode in Hdec. destruct (Utf8.valid data); congruence. }
    simpl. destruct (Py.cut "|" data) as [[l r]|] eqn:Hcut; [|absurd_eq].
    destruct (Py.cut "|" r) as [[m p]|] eqn:Hcut2; [|absurd_eq].
    simpl. destruct (Utf8.decode l) as [seq|] eqn:Hl; [|absurd_eq].
    apply decode_Some in Hl as [-> _].
    intros [= <- <- <-]. exists r. split; [reflexivity|].
    split; [absurd_eq|]. intros _. split; [exact Hinv|]. exists m. exact Hcut2.
Qed.

Section Receive.

Variable E : Env.
Variable packet_loss_rate : Q.

(** One turn of the loops of [reliable_recv] in which a datagram arrives
    and is not dropped. *)
Lemma server_recv_turn (fuel : nat) (s : Sock) (raw : string) (a : addr) :
  network E (reads s) = Datagram raw a →
  (packet_loss_rate <= random E (draws s))%Q →
  Server.reliable_recv E (S fuel) packet_loss_rate s =
  match accept_frame (Py.first BUFFER_SIZE raw) with
  | Some (Some seq_num, payload, is_binary) =>
      Some ((payload, a, is_binary), sendto seq_num a (received_one s))
  | Some (None, payload, is_binary) =>
      Some ((payload, a, is_binary), received_one s)
  | None => Server.reliable_recv E fuel packet_loss_rate (received_one s)
  end.
Proof.
  intros Hnet Hkept. simpl. unfold recvfrom, simulate_packet_loss.
  rewrite Hnet. simpl.
  apply Qle_bool_iff in Hkept. rewrite Hkept. reflexivity.
Qed.

Lemma client_recv_turn (fuel : nat) (s : Sock) (raw : string) (a : addr) :
  network E (reads s) = Datagram raw a →
  (packet_loss_rate <= random E (draws s))%Q →
  ForumClient.reliable_recv E (S fuel) packet_loss_rate s =
  match accept_frame (Py.first BUFFER_SIZE raw) with
  | Some (Some seq_num, payload, is_binary) =>
      Some (Some (payload, is_binary), sendto seq_num a (received_one s))
  | Some (None, payload, is_binary) =>
      Some (Some (payload, is_binary), received_one s)
  | None => ForumClient.reliable_recv E fuel packet_loss_rate (received_one s)
  end.
Proof.
  intros Hnet Hkept. simpl. unfold recvfrom, simulate_packet_loss.
  rewrite Hnet. simpl.
  apply Qle_bool_iff in Hkept. rewrite Hkept. reflexivity.
Qed.

(** What the server's [reliable_recv] has done when it returns. *)
Lemma server_recv_returns (fuel : nat) (s s' : Sock) (payload : string)
    (a : addr) (is_binary : bool) :
  Server.reliable_recv E fuel packet_loss_rate s
    = Some ((payload, a, is_binary), s') →
  ∃ n raw,
    reads s ≤ n ∧ network E n = Datagram raw a ∧
    match Py.cut "|" (Py.first BUFFER_SIZE raw) with
    | Some (seq_num, _) => sent s' = sent s ++ [(seq_num, a)]
    | None =>
        sent s' = sent s ∧ payload = Py.first BUFFER_SIZE raw ∧
        is_binary = false
    end.
Proof.
  revert s. induction fuel as [|fuel IH]; intros s; [intros [=]|].
  simpl. unfold recvfrom, simulate_packet_loss.
  destruct (network E (reads s)) as [|raw from] eqn:Hnet; simpl.
  - intros H. apply IH in H as (n & raw & Hn & Hraw & Hcut).
    exists n, raw. simpl in Hn. split; [lia|]. split; [exact Hraw|exact Hcut].
  - destruct (negb _).
    + intros H. apply IH in H as (n & raw' & Hn & Hraw & Hcut).
      exists n, raw'. simpl in Hn. split; [lia|]. split; [exact Hraw|exact Hcut].
    + destruct (accept_frame (Py.first BUFFER_SIZE raw))
        as [[[[seq|] p] b]|] eqn:Hacc.
      * intros [= <- <- <- <-].
        apply accept_frame_ack in Hacc as (rest & Hcut & _).
        exists (reads s), raw. rewrite Hcut. auto.
      * intros [= <- <- <- <-].
        apply accept_frame_no_ack in Hacc as (Hcut & -> & -> & _).
        exists (reads s), raw. rewrite Hcut. auto.
      * intros H. apply IH in H as (n & raw' & Hn & Hraw & Hcut).
        exists n, raw'. simpl in Hn. split; [lia|].
        split; [exact Hraw|exact Hcut].
Qed.

(** What the client's [reliable_recv] has done when it returns a
    payload. *)
Lemma client_recv_returns (fuel : nat) (s s' : Sock) (payload : string)
    (is_binary : bool) :
  ForumClient.reliable_recv E fuel packet_loss_rate s
    = Some (Some (payload, is_binary), s') →
  ∃ n raw a,
    reads s ≤ n ∧ network E n = Datagram raw a ∧
    match Py.cut "|" (Py.first BUFFER_SIZE raw) with
    | Some (seq_num, _) => sent s' = sent s ++ [(seq_num, a)]
    | None =>
        sent s' = sent s ∧ payload = Py.first BUFFER_SIZE raw ∧
        is_binary = false
    end.
Proof.
  revert s. induction fuel as [|fuel IH]; intros s; [intros [=]|].
  simpl. unfold recvfrom, simulate_packet_loss.
  destruct (network E (reads s)) as [|raw from] eqn:Hnet; simpl.
  - absurd_eq.
  - destruct (negb _).
    + intros H. apply IH in H as (n & raw' & a & Hn & Hraw & Hcut).
      exists n, raw', a. simpl in Hn. split; [lia|].
      split; [exact Hraw|exact Hcut].
    + destruct (accept_frame (Py.first BUFFER_SIZE raw))
        as [[[[seq|] p] b]|] eqn:Hacc.
      * intros [= <- <- <-].
        apply accept_frame_ack in Hacc as (rest & Hcut & _).
        exists (reads s), raw, from. rewrite Hcut. auto.
      * intros [= <- <- <-].
        apply accept_frame_no_ack in Hacc as (Hcut & -> & -> & _).
        exists (reads s), raw, from. rewrite Hcut. auto.
      * intros H. apply IH in H as (n & raw' & a & Hn & Hraw & Hcut).
        exists n, raw', a. simpl in Hn. split; [lia|].
        split; [exact Hraw|exact Hcut].
Qed.

End Receive.

(** What [frame] builds: the decimal sequence number, a '|', and the rest. *)
Lemma frame_shape (seq_num : Z) (data : string) (is_binary : bool) :
  frame seq_num data is_binary =
  Py.str_of_int seq_num +:+
    String "|" (if is_binary then "BIN|" +:+ data else data).
Proof.
  unfold frame. destruct is_binary; [|reflexivity].
  rewrite app_assoc_s. reflexivity.
Qed.

Lemma frame_valid (seq_num : Z) (data : string) (is_binary : bool) :
  Utf8.valid (frame seq_num data is_binary) = Utf8.valid data.
Proof.
  rewrite frame_shape, valid_numeral_app by apply str_of_int_numeral.
  destruct is_binary; reflexivity.
Qed.

(** How [reliable_recv] reads a frame built by [reliable_send]: the flag
    it returns is decided by the bytes being well-formed UTF-8 or not. *)
Lemma accept_frame_of_frame (seq_num : Z) (data : string) (is_binary : bool) :
  (is_binary = false → Utf8.valid data = true) →
  accept_frame (frame seq_num data is_binary) =
  Some (Some (Py.str_of_int seq_num),
        if Utf8.valid data
        then (if is_binary then "BIN|" +:+ data else data)
        else data,
        negb (Utf8.valid data)).
Proof.
  intros Htext.
  assert (Hbar : Py.contains_char "|" (Py.str_of_int seq_num) = false).
  { apply numeral_no_char; [reflexivity|apply str_of_int_numeral]. }
  unfold accept_frame.
  destruct (Utf8.valid data) eqn:Hvalid.
  - rewrite decode_valid by (rewrite frame_valid; exact Hvalid).
    rewrite frame_shape, contains_char_app. simpl.
    rewrite cut_app by exact Hbar. reflexivity.
  - destruct is_binary; [|specialize (Htext eq_refl); congruence].
    rewrite decode_invalid by (rewrite frame_valid; exact Hvalid).
    rewrite frame_shape. simpl.
    rewrite cut_app by exact Hbar. simpl.
    rewrite decode_valid; [reflexivity|].
    apply valid_numeral, str_of_int_numeral.
Qed.

(** C2, as the code has it.  Whenever the receive operation of the server
    or of the client returns a payload, it has taken a datagram from the
    network; if that datagram contains a '|', the receiver has sent what
    stands before the first '|' (the sequence number) back to its sender,
    and nothing else, before returning; if it contains none (the plain
    text framing), the receiver has sent nothing and returns the whole
    datagram as text. *)
Theorem C2_ack_before_return (E : Env) (fuel : nat) (packet_loss_rate : Q)
    (s s' : Sock) (payload : string) (is_binary : bool) :
  (∀ a, Server.reliable_recv E fuel packet_loss_rate s
          = Some ((payload, a, is_binary), s') →
     ∃ n raw,
       reads s ≤ n ∧ network E n = Datagram raw a ∧
       match Py.cut "|" (Py.first BUFFER_SIZE raw) with
       | Some (seq_num, _) => sent s' = sent s ++ [(seq_num, a)]
       | None =>
           sent s' = sent s ∧ payload = Py.first BUFFER_SIZE raw ∧
           is_binary = false
       end) ∧
  (ForumClient.reliable_recv E fuel packet_loss_rate s
     = Some (Some (payload, is_binary), s') →
   ∃ n raw a,
     reads s ≤ n ∧ network E n = Datagram raw a ∧
     match Py.cut "|" (Py.first BUFFER_SIZE raw) with
     | Some (seq_num, _) => sent s' = sent s ++ [(seq_num, a)]
     | None =>
         sent s' = sent s ∧ payload = Py.first BUFFER_SIZE raw ∧
         is_binary = false
     end).
Proof.
  split.
  - intros a. apply server_recv_returns.
  - apply client_recv_returns.
Qed.

(** The statement of C2 for a command frame with sequence number 7. *)
Lemma C2_ack_before_return_witness :
  ∃ n raw,
    reads fresh_sock ≤ n ∧
    network (delivering ["7|MSG Cantina Hello"]) n = Datagram raw peer ∧
    match Py.cut "|" (Py.first BUFFER_SIZE raw) with
    | Some (seq_num, _) =>
        sent (sendto "7" peer (received_one fresh_sock))
          = sent fresh_sock ++ [(seq_num, peer)]
    | None =>
        sent (sendto "7" peer (received_one fresh_sock)) = sent fresh_sock ∧
        "MSG Cantina Hello" = Py.first BUFFER_SIZE raw ∧ false = false
    end.
Proof.
  apply (proj1 (C2_ack_before_return (delivering ["7|MSG Cantina Hello"]) 1 0
                  fresh_sock (sendto "7" peer (received_one fresh_sock))
                  "MSG Cantina Hello" false) peer).
  reflexivity.
Defined.

(** C2, as stated, fails: a datagram without a '|' is accepted -- its
    payload is returned to the caller -- and the receiver, server or
    client, has sent no acknowledgment. *)
Lemma C2_counterexample :
  ∃ s',
    Server.reliable_recv (delivering ["Goodbye"]) 1 0 fresh_sock
      = Some (("Goodbye", peer, false), s') ∧
    ForumClient.reliable_recv (delivering ["Goodbye"]) 1 0 fresh_sock
      = Some (Some ("Goodbye", false), s') ∧
    sent s' = [].
Proof. eexists. split; [reflexivity|]. split; reflexivity. Qed.

(** C7, as the code has it.  The receive operation tells binary from text
    by whether the datagram is well-formed UTF-8, not by the marker.  For a
    frame built by the send operation, of at most [BUFFER_SIZE] = 1024
    bytes, that arrives and is not dropped by the simulated loss, and whose
    payload, if it is text, is well-formed: a text frame comes back as its
    text; a binary frame whose bytes are not well-formed UTF-8 comes back
    as the binary payload; a binary frame whose bytes are well-formed UTF-8
    comes back as text, the marker and its '|' in front of it.  In each
    case the sequence number is acknowledged. *)
Theorem C7_text_or_binary (E : Env) (fuel : nat) (packet_loss_rate : Q)
    (s : Sock) (seq_num : Z) (data : string) (is_binary : bool) (a : addr) :
  network E (reads s) = Datagram (frame seq_num data is_binary) a →
  (packet_loss_rate <= random E (draws s))%Q →
  String.length (frame seq_num data is_binary) ≤ BUFFER_SIZE →
  (is_binary = false → Utf8.valid data = true) →
  let returned :=
    if Utf8.valid data
    then (if is_binary then "BIN|" +:+ data else data, false)
    else (data, true) in
  Server.reliable_recv E (S fuel) packet_loss_rate s =
    Some ((returned.1, a, returned.2),
          sendto (Py.str_of_int seq_num) a (received_one s)) ∧
  ForumClient.reliable_recv E (S fuel) packet_loss_rate s =
    Some (Some returned, sendto (Py.str_of_int seq_num) a (received_one s)).
Proof.
  intros Hnet Hkept Hlen Htext returned.
  rewrite (server_recv_turn E _ fuel s _ a Hnet Hkept).
  rewrite (client_recv_turn E _ fuel s _ a Hnet Hkept).
  rewrite first_all by exact Hlen.
  rewrite accept_frame_of_frame by exact Htext.
  subst returned. destruct (Utf8.valid data); split; reflexivity.
Qed.

(** The statement of C7 for a binary frame that starts like a JPEG
    file. *)
Lemma C7_text_or_binary_witness :
  Server.reliable_recv
    (delivering [frame 7 (Py.of_bytes [255; 216; 255; 224]) true]) 1 0
    fresh_sock =
    Some ((Py.of_bytes [255; 216; 255; 224], peer, true),
          sendto "7" peer (received_one fresh_sock)) ∧
  ForumClient.reliable_recv
    (delivering [frame 7 (Py.of_bytes [255; 216; 255; 224]) true]) 1 0
    fresh_sock =
    Some (Some (Py.of_bytes [255; 216; 255; 224], true),
          sendto "7" peer (received_one fresh_sock)).
Proof.
  apply (C7_text_or_binary
           (delivering [frame 7 (Py.of_bytes [255; 216; 255; 224]) true])
           0 0 fresh_sock 7 (Py.of_bytes [255; 216; 255; 224]) true peer).
  - reflexivity.
  - vm_compute. discriminate.
  - vm_compute. lia.
  - intros [=].
Defined.

(** C7, as stated, fails: the binary frame built for the payload [abc],
    whose bytes are well-formed UTF-8, is returned as the text [BIN|abc]
    with the binary flag off, by the server and by the client. *)
Lemma C7_counterexample :
  frame 7 "abc" true = "7|BIN|abc" ∧
  ∃ s',
    Server.reliable_recv (delivering [frame 7 "abc" true]) 1 0 fresh_sock
      = Some (("BIN|abc", peer, false), s') ∧
    ForumClient.reliable_recv (delivering [frame 7 "abc" true]) 1 0 fresh_sock
      = Some (Some ("BIN|abc", false), s').
Proof. split; [reflexivity|]. eexists. split; reflexivity. Qed.

(** ** The thread list *)

Lemma isfile_true (dir : gmap string node) (name : string) :
  isfile dir name = true ↔ ∃ content, dir !! name = Some (File content).
Proof.
  unfold isfile. destruct (dir !! name) as [[content|]|].
  - split; [eauto|reflexivity].
  - split; [absurd_eq|]. intros [content H]. congruence.
  - split; [absurd_eq|]. intros [content H]. congruence.
Qed.

Lemma elem_of_get_thread_list (dir : gmap string node) (name : string) :
  name ∈ get_thread_list dir ↔
  (∃ content, dir !! name = Some (File content)) ∧
  Py.startswith name "." = false ∧
  name ∉ ["server.py"; "client.py"; "credentials.txt"].
Proof.
  unfold get_thread_list. rewrite list_elem_of_filter, isfile_true.
  split.
  - intros [(Hfile & Hdot & Hnot) _]. auto.
  - intros ([content Hfile] & Hdot & Hnot). split; [eauto|].
    apply list_elem_of_fmap. exists (name, File content). split; [reflexivity|].
    apply elem_of_map_to_list. exact Hfile.
Qed.

Lemma NoDup_get_thread_list (dir : gmap string node) :
  NoDup (get_thread_list dir).
Proof. apply NoDup_filter, NoDup_fst_map_to_list. Qed.

(** [sep.join] puts the separator in front of every item but the first. *)
Lemma join_lines (sep x : string) (l : list string) :
  Py.join sep (x :: l) = x +:+ Py.concat ((λ y, sep +:+ y) <$> l).
Proof.
  revert x. induction l as [|y l IH]; intros x.
  - simpl. symmetry. apply app_nil_r_s.
  - change (Py.join sep (x :: y :: l)) with (x +:+ sep +:+ Py.join sep (y :: l)).
    rewrite IH. change (Py.concat ((λ y0, sep +:+ y0) <$> y :: l))
      with ((sep +:+ y) +:+ Py.concat ((λ y0, sep +:+ y0) <$> l)).
    rewrite (app_assoc_s sep y). reflexivity.
Qed.

(** C10.  The thread list of LST consists of the regular files of the
    working directory whose name does not start with a dot and is none of
    [server.py], [client.py], [credentials.txt], each once, whoever created
    them.  When the list is empty LST replies "No threads available".  When
    it is not, every title is well-formed text and the text of the list is
    one that [reliable_send] sends, LST replies with the line "Threads:"
    followed by one line for each title of the list, in the order in which
    the directory was listed, which the code does not determine. *)
Theorem C10_thread_list (username : string) (a : addr) (st : State) :
  let threads := get_thread_list (cwd st) in
  (∀ name, name ∈ threads ↔
     (∃ content, cwd st !! name = Some (File content)) ∧
     Py.startswith name "." = false ∧
     name ∉ ["server.py"; "client.py"; "credentials.txt"]) ∧
  NoDup threads ∧
  (threads = [] →
   dispatch username a "LST" false st =
     (Val tt, set_replies (λ l, l ++ [(a, "No threads available")]) st)) ∧
  (threads ≠ [] → forallb Utf8.valid threads = true →
   sendable (listing_text threads) = true →
   ∃ listing,
     listing ≡ₚ threads ∧
     dispatch username a "LST" false st =
       (Val tt, set_replies (λ l, l ++ [(a, listing_text listing)]) st)).
Proof.
  intros threads. split; [|split; [|split]].
  - intros name. apply elem_of_get_thread_list.
  - apply NoDup_get_thread_list.
  - intros Hnone.
    change (dispatch username a "LST" false st) with (do_LST a st).
    unfold do_LST, bind, gets. fold threads. rewrite Hnone. reflexivity.
  - intros Hsome _ _. exists threads. split; [reflexivity|].
    change (dispatch username a "LST" false st) with (do_LST a st).
    unfold do_LST, bind, gets. fold threads.
    destruct threads as [|x l]; [contradiction|].
    rewrite join_lines. unfold listing_text.
    change (Py.concat ((λ name, Py.nl +:+ name) <$> x :: l))
      with ((Py.nl +:+ x) +:+ Py.concat ((λ name, Py.nl +:+ name) <$> l)).
    rewrite (app_assoc_s Py.nl x). reflexivity.
Qed.

(** The reply of LST in a working directory that holds the thread Cantina
    and a file that no CRT created. *)
Lemma C10_thread_list_witness :
  ∃ listing,
    listing ≡ₚ get_thread_list
                 (<["notes.txt" := File "x"]> (cwd (cantina_before_upload []))) ∧
    dispatch "Han" peer "LST" false
      (set_cwd <["notes.txt" := File "x"]> (cantina_before_upload [])) =
      (Val tt,
       set_replies (λ l, l ++ [(peer, listing_text listing)])
         (set_cwd <["notes.txt" := File "x"]> (cantina_before_upload []))).
Proof.
  destruct (C10_thread_list "Han" peer
              (set_cwd <["notes.txt" := File "x"]> (cantina_before_upload [])))
    as (_ & _ & _ & Hreply).
  apply Hreply.
  - vm_compute. discriminate.
  - vm_compute. reflexivity.
  - vm_compute. reflexivity.
Defined.

(** A file that no CRT created is listed; a directory, a hidden file and
    the three reserved names are not. *)
Example stray_file_listed :
  (replies
     (dispatch "Han" peer "lst" false
        (set_cwd (λ dir, <["notes.txt" := File "x"]>
                           (<[".hidden" := File ""]>
                              (<["client.py" := File ""]>
                                 (<["credentials.txt" := File ""]> dir))))
           initial_state)).2).*2 =
  ["Threads:" +:+ Py.nl +:+ "notes.txt"].
Proof. vm_compute. reflexivity. Qed.

(** ** The commands and their replies *)

Ltac run :=
  cbv beta iota zeta delta
    [bind path_exists readlines write_text append_text accept reply
     lift gets modify signal_ ret answered fst snd];
  simpl.

Ltac cases := repeat (case_match; simplify_eq/=).
















(** ** Message numbers *)

(** MSG gives a message the number of lines the thread file has. *)
Lemma do_MSG_posts (username : string) (a : addr)
    (thread_title message content : string) (st : State) :
  Py.contains_char " " thread_title = false →
  cwd st !! thread_title = Some (File content) →
  Utf8.valid content = true →
  do_MSG username a (thread_title +:+ " " +:+ message) st =
  (Val tt,
   set_replies (λ l, l ++ [(a, "Message posted to " +:+ thread_title)])
     (set_cwd
        <[thread_title :=
            File (content +:+
                  Py.str_of_int (Z.of_nat (length (Py.readlines content))) +:+
                  " " +:+ username +:+ ": " +:+ message +:+ Py.nl)]> st)).
Proof.
  intros Htitle Hfile Hvalid. unfold do_MSG.
  change (thread_title +:+ " " +:+ message)
    with (thread_title +:+ String " " message).
  simpl. rewrite cut_app by exact Htitle. run.
  rewrite bool_decide_eq_true_2 by (rewrite Hfile; eauto). simpl.
  unfold read_text. rewrite Hfile, (decode_valid _ Hvalid). simpl.
  rewrite Hfile. reflexivity.
Qed.

(** ** The scenario of section 8 *)



(** ** The session registry *)

(** A worker that returns leaves its user name out of the registry,
    whoever put it there. *)
Lemma client_handler_finished (data : string) (a : addr)
    (inbox : list received) (st st' : State) (error : option exn) :
  client_handler ((data, a, false) :: inbox) st = (Finished error, st') →
  Py.strip data ∉ logged_users st'.
Proof.
  unfold client_handler, finally.
  destruct (session (Py.strip data) a inbox st) as [[u|[| | |e| |]] st1];
    intros Hres; simplify_eq; simpl;
    apply not_elem_of_difference; right; apply elem_of_singleton; reflexivity.
Qed.

(** A login under a name that is in use. *)
Lemma client_handler_in_use (data : string) (a : addr)
    (inbox : list received) (st : State) :
  Py.strip data ≠ "" →
  Py.strip data ∈ logged_users st →
  client_handler ((data, a, false) :: inbox) st =
  (Finished None,
   finally (Py.strip data)
     (set_replies (λ l, l ++ [(a, "Username in use")]) st)).
Proof.
  intros Hne Hin. unfold client_handler, session.
  apply String.eqb_neq in Hne as ->.
  unfold bind, gets. rewrite bool_decide_eq_true_2 by exact Hin.
  reflexivity.
Qed.

(** C4 fails on the code.  While Han is logged in, a second worker is
    asked to log in as Han: it answers "Username in use", returns, and its
    [finally] block removes the entry of the first session from the
    registry.  A third worker then logs in as Han while the first session
    is still there. *)
Theorem C4_rejected_login_removes_entry :
  elements (logged_users han_logged_in) = ["Han"] ∧
  ∃ st st',
    client_handler [("Han", other_peer, false)] han_logged_in
      = (Finished None, st) ∧
    last (replies st) = Some (other_peer, "Username in use") ∧
    elements (logged_users st) = [] ∧
    client_handler [("Han", other_peer, false); ("solo1", other_peer, false)]
      st = (Waiting, st') ∧
    last (replies st') = Some (other_peer, "Welcome").
Proof.
  split; [vm_compute; reflexivity|].
  eexists. eexists. split; [vm_compute; reflexivity|].
  split; [vm_compute; reflexivity|]. split; [vm_compute; reflexivity|].
  split; vm_compute; reflexivity.
Qed.

(** ** Prefixes *)

Lemma prefix_nil (s : string) : String.prefix "" s = true.
Proof. destruct s; reflexivity. Qed.

Lemma prefix_cons_nil (a : ascii) (p : string) :
  String.prefix (String a p) "" = false.
Proof. reflexivity. Qed.

Lemma prefix_cons (a b : ascii) (p s : string) :
  String.prefix (String a p) (String b s) = Ascii.eqb a b && String.prefix p s.
Proof.
  change (String.prefix (String a p) (String b s))
    with (if ascii_dec a b then String.prefix p s else false).
  destruct (ascii_dec a b) as [->|Hne].
  - rewrite Ascii.eqb_refl. reflexivity.
  - apply Ascii.eqb_neq in Hne as ->. reflexivity.
Qed.

Hint Rewrite prefix_nil prefix_cons_nil prefix_cons : str.

Lemma prefix_app (p s : string) : String.prefix p (p +:+ s) = true.
Proof.
  induction p as [|c p IH]; autorewrite with str; [reflexivity|].
  rewrite Ascii.eqb_refl. exact IH.
Qed.

Lemma prefix_app_same (p x y : string) :
  String.prefix (p +:+ x) (p +:+ y) = String.prefix x y.
Proof.
  induction p as [|c p IH]; autorewrite with str; [reflexivity|].
  rewrite Ascii.eqb_refl. exact IH.
Qed.

Lemma skip_app (p s : string) : Py.skip (String.length p) (p +:+ s) = s.
Proof.
  induction p as [|c p IH]; autorewrite with str; [destruct s; reflexivity|].
  simpl. rewrite skip_cons. exact IH.
Qed.

Lemma replace_first_prefix (old new s : string) :
  String.prefix old s = true →
  Py.replace_first old new s = new +:+ Py.skip (String.length old) s.
Proof.
  destruct s as [|c s]; unfold Py.replace_first; fold Py.replace_first.
  - destruct old; [|absurd_eq]. intros _. rewrite app_nil_r_s. reflexivity.
  - intros ->. reflexivity.
Qed.

(** Two names without a colon, each followed by a colon: one text starts
    with the other only if the names are the same. *)
Lemma prefix_colon (u v r1 r2 : string) :
  Py.contains_char ":" u = false →
  Py.contains_char ":" v = false →
  String.prefix (u +:+ String ":" r1) (v +:+ String ":" r2) = true →
  u = v.
Proof.
  revert v. induction u as [|x u IH]; intros [|y v];
    autorewrite with str; rewrite ?contains_char_cons.
  - reflexivity.
  - intros _ [Hy _]%orb_false_elim [Hy' _]%andb_prop.
    rewrite Ascii.eqb_sym in Hy'. congruence.
  - intros [Hx _]%orb_false_elim _ [Hx' _]%andb_prop. congruence.
  - intros [_ Hu]%orb_false_elim [_ Hv]%orb_false_elim
      [->%Ascii.eqb_eq Hp]%andb_prop.
    f_equal. exact (IH v Hu Hv Hp).
Qed.

(** ** Authorship *)

(** The line MSG writes for message [n] of [author]. *)
Lemma ownership_check (n : Z) (author username body : string) :
  Py.contains_char ":" author = false →
  Py.contains_char ":" username = false →
  Py.startswith
    (Py.str_of_int n +:+ " " +:+ author +:+ ": " +:+ body +:+ Py.nl)
    (Py.str_of_int n +:+ " " +:+ username +:+ ":") = true ↔
  author = username.
Proof.
  intros Ha Hu. unfold Py.startswith.
  rewrite prefix_app_same.
  change (" " +:+ username +:+ ":") with (String " " (username +:+ ":")).
  change (" " +:+ author +:+ ": " +:+ body +:+ Py.nl)
    with (String " " (author +:+ String ":" (" " +:+ body +:+ Py.nl))).
  rewrite prefix_cons, Ascii.eqb_refl. simpl. split.
  - intros Hp. symmetry. eapply prefix_colon; eauto.
  - intros ->.
    change (String ":" (" " +:+ body +:+ Py.nl))
      with (":" +:+ (" " +:+ body +:+ Py.nl)).
    rewrite <- app_assoc_s. apply prefix_app.
Qed.

(** A DLT on a message in bounds whose line does not start with the number
    and the name of the session: the reply, and nothing else changes. *)
Lemma delete_message_not_owner (username : string) (a : addr)
    (thread_title : string) (message_number : Z) (lines : list string)
    (st : State) :
  read_text (cwd st) thread_title = Ret lines →
  (0 < message_number < Z.of_nat (length lines))%Z →
  Py.startswith (lines !!! Z.to_nat message_number)
    (Py.str_of_int message_number +:+ " " +:+ username +:+ ":") = false →
  delete_message username a thread_title message_number st =
  (Sig Continue,
   set_replies (λ l, l ++ [(a, "You can only delete your own messages")]) st).
Proof.
  intros Hread Hbounds Hcheck. unfold delete_message. run.
  assert (Hsome : is_Some (cwd st !! thread_title)).
  { unfold read_text in Hread. destruct (cwd st !! thread_title); eauto.
    congruence. }
  rewrite bool_decide_eq_true_2 by exact Hsome. simpl.
  rewrite Hread.
  destruct (Z.leb_spec message_number 0); [lia|].
  destruct (Z.leb_spec (Z.of_nat (length lines)) message_number); [lia|].
  simpl. rewrite Hcheck. reflexivity.
Qed.

(** The same for EDT. *)
Lemma edit_message_not_owner (username : string) (a : addr)
    (thread_title : string) (message_number : Z) (new_message : string)
    (lines : list string) (st : State) :
  read_text (cwd st) thread_title = Ret lines →
  (0 < message_number < Z.of_nat (length lines))%Z →
  Py.startswith (lines !!! Z.to_nat message_number)
    (Py.str_of_int message_number +:+ " " +:+ username +:+ ":") = false →
  edit_message username a thread_title message_number new_message st =
  (Sig Continue,
   set_replies (λ l, l ++ [(a, "You can only edit your own messages")]) st).
Proof.
  intros Hread Hbounds Hcheck. unfold edit_message. run.
  assert (Hsome : is_Some (cwd st !! thread_title)).
  { unfold read_text in Hread. destruct (cwd st !! thread_title); eauto.
    congruence. }
  rewrite bool_decide_eq_true_2 by exact Hsome. simpl.
  rewrite Hread.
  destruct (Z.leb_spec message_number 0); [lia|].
  destruct (Z.leb_spec (Z.of_nat (length lines)) message_number); [lia|].
  simpl. rewrite Hcheck. reflexivity.
Qed.

(** C6 fails on the code.  The user "Han:" (Han followed by a colon) has
    created the thread Cantina and posted message 1.  The user "Han" then
    sends [DLT Cantina 1], or [EDT Cantina 1 Bye]: the line of the message,
    "1 Han:: Hello", starts with "1 Han:", so the server takes Han for the
    author and deletes the message, or rewrites it as Han's. *)
Theorem C6_prefix_check_lets_another_user_in :
  cwd han_colon_posted !! "Cantina" =
    Some (File ("Han:" +:+ Py.nl +:+ "1 Han:: Hello" +:+ Py.nl)) ∧
  ∃ st_d st_e,
    client_handler
      [("Han", other_peer, false); ("solo1", other_peer, false);
       ("DLT Cantina 1", other_peer, false)] han_colon_posted
      = (Waiting, st_d) ∧
    last (replies st_d) = Some (other_peer, "Message 1 deleted from Cantina") ∧
    cwd st_d !! "Cantina" = Some (File ("Han:" +:+ Py.nl)) ∧
    client_handler
      [("Han", other_peer, false); ("solo1", other_peer, false);
       ("EDT Cantina 1 Bye", other_peer, false)] han_colon_posted
      = (Waiting, st_e) ∧
    last (replies st_e) = Some (other_peer, "Message 1 edited in Cantina") ∧
    cwd st_e !! "Cantina" =
      Some (File ("Han:" +:+ Py.nl +:+ "1 Han: Bye" +:+ Py.nl)).
Proof.
  split; [vm_compute; reflexivity|].
  eexists. eexists.
  split; [vm_compute; reflexivity|]. split; [vm_compute; reflexivity|].
  split; [vm_compute; reflexivity|]. split; [vm_compute; reflexivity|].
  split; vm_compute; reflexivity.
Qed.

(** ** The renumbering of DLT *)


(** What the body of the loop makes of the line at [i]. *)
Lemma renumber_at_line (i : nat) (lines : list string) (old_line : string) :
  lines !! i = Some old_line →
  renumber_at i lines = <[i := renumbered i old_line]> lines.
Proof.
  intros Hi. unfold renumber_at, renumbered. rewrite Hi.
  unfold Py.contains_char.
  destruct (Py.cut " " old_line) as [[tok rest]|] eqn:Hcut.
  - destruct (String.eqb (Py.strip old_line) ""); simpl.
    + symmetry. apply list_insert_id. exact Hi.
    + rewrite Hcut. simpl.
      apply cut_sound in Hcut as [-> _].
      change (tok +:+ String " " rest) with (tok +:+ " " +:+ rest).
      rewrite <- (app_assoc_s tok " " rest).
      rewrite replace_first_prefix by apply prefix_app.
      rewrite skip_app, app_assoc_s. reflexivity.
  - rewrite andb_false_r. symmetry. apply list_insert_id. exact Hi.
Qed.

Lemma renumber_at_length (i : nat) (lines : list string) :
  length (renumber_at i lines) = length lines.
Proof.
  destruct (lines !! i) as [old_line|] eqn:Hi.
  - rewrite (renumber_at_line _ _ _ Hi). apply length_insert.
  - unfold renumber_at. rewrite Hi. reflexivity.
Qed.

Lemma renumber_at_lookup (i j : nat) (lines : list string) :
  renumber_at i lines !! j =
  if decide (i = j) then renumbered i <$> lines !! j else lines !! j.
Proof.
  destruct (lines !! i) as [old_line|] eqn:Hi.
  - rewrite (renumber_at_line _ _ _ Hi).
    destruct (decide (i = j)) as [<-|Hne].
    + rewrite list_lookup_insert_eq by (eapply lookup_lt_Some; exact Hi).
      rewrite Hi. reflexivity.
    + apply list_lookup_insert_ne. exact Hne.
  - unfold renumber_at. rewrite Hi.
    destruct (decide (i = j)) as [<-|Hne]; [rewrite Hi|]; reflexivity.
Qed.

(** The loop over [seq k n]. *)
Lemma renumber_loop_lookup (n k j : nat) (lines : list string) :
  foldl (λ lines i, renumber_at i lines) lines (seq k n) !! j =
  if decide (k ≤ j < k + n) then renumbered j <$> lines !! j else lines !! j.
Proof.
  revert k lines. induction n as [|n IH]; intros k lines; simpl.
  - destruct (decide (k ≤ j < k + 0)); [lia|reflexivity].
  - rewrite IH, renumber_at_lookup.
    destruct (decide (S k ≤ j < S k + n)), (decide (k = j)),
      (decide (k ≤ j < k + S n)); try lia; subst; reflexivity.
Qed.

(** The line at [j] after the renumbering from [k] on. *)
Lemma renumber_lookup (k j : nat) (lines : list string) :
  renumber k lines !! j =
  if decide (k ≤ j) then renumbered j <$> lines !! j else lines !! j.
Proof.
  unfold renumber. rewrite renumber_loop_lookup.
  destruct (decide (k ≤ j)), (decide (k ≤ j < k + (length lines - k)));
    try lia; try reflexivity.
  rewrite (lookup_ge_None_2 lines j) by lia. reflexivity.
Qed.

Lemma renumber_length (k : nat) (lines : list string) :
  length (renumber k lines) = length lines.
Proof.
  unfold renumber. generalize (seq k (length lines - k)) as l.
  intros l. revert lines. induction l as [|i l IH]; intros lines; simpl;
    [reflexivity|].
  rewrite IH. apply renumber_at_length.
Qed.

(** C9, as the code has it.  After a successful DLT of message [k], the
    lines before [k] are as they were and every later line has moved up by
    one; of a moved line that contains a space and is not blank, the text
    before the first space is replaced by the line's new index, whatever
    that text was -- the user name of an upload record included; a moved
    line without a space, or blank, is left as it is. *)
Theorem C9_renumbering (username : string) (a : addr) (thread_title : string)
    (content : string) (k : nat) (st : State) :
  cwd st !! thread_title = Some (File content) →
  Utf8.valid content = true →
  0 < k < length (Py.readlines content) →
  Py.startswith (Py.readlines content !!! k)
    (Py.str_of_int (Z.of_nat k) +:+ " " +:+ username +:+ ":") = true →
  ∃ lines',
    delete_message username a thread_title (Z.of_nat k) st =
      (Val tt,
       set_replies
         (λ l, l ++ [(a, "Message " +:+ Py.str_of_int (Z.of_nat k) +:+
                         " deleted from " +:+ thread_title)])
         (set_cwd <[thread_title := File (Py.concat lines')]> st)) ∧
    length lines' = length (Py.readlines content) - 1 ∧
    ∀ i, lines' !! i =
         if decide (i < k) then Py.readlines content !! i
         else renumbered i <$> Py.readlines content !! S i.
Proof.
  intros Hfile Hvalid Hk Hown.
  exists (renumber k (delete k (Py.readlines content))).
  split; [|split].
  - unfold delete_message. run.
    rewrite bool_decide_eq_true_2 by (rewrite Hfile; eauto). simpl.
    unfold read_text. rewrite Hfile, (decode_valid _ Hvalid).
    destruct (Z.leb_spec (Z.of_nat k) 0); [lia|].
    destruct (Z.leb_spec (Z.of_nat (length (Py.readlines content)))
                (Z.of_nat k)); [lia|].
    simpl. rewrite Nat2Z.id, Hown. simpl. rewrite Hfile. reflexivity.
  - rewrite renumber_length, length_delete by (apply lookup_lt_is_Some; lia).
    reflexivity.
  - intros i. rewrite renumber_lookup.
    destruct (decide (k ≤ i)), (decide (i < k)); try lia.
    + rewrite list_lookup_delete_ge by lia. reflexivity.
    + apply list_lookup_delete_lt. lia.
Qed.

(** The statement of C9 for the deletion of message 1 by Han. *)
Lemma C9_renumbering_witness :
  ∃ lines',
    delete_message "Han" peer "Cantina" (Z.of_nat 1) cantina_with_bare_line =
      (Val tt,
       set_replies
         (λ l, l ++ [(peer, "Message " +:+ Py.str_of_int (Z.of_nat 1) +:+
                            " deleted from " +:+ "Cantina")])
         (set_cwd <["Cantina" := File (Py.concat lines')]>
            cantina_with_bare_line)) ∧
    length lines' =
      length (Py.readlines
                ("Han" +:+ Py.nl +:+ "1 Han: one" +:+ Py.nl +:+
                 "2 Han: two" +:+ Py.nl +:+ "lines" +:+ Py.nl +:+
                 "4 Han: three" +:+ Py.nl +:+
                 "Han uploaded notes.txt" +:+ Py.nl)) - 1 ∧
    ∀ i, lines' !! i =
         if decide (i < 1)
         then Py.readlines
                ("Han" +:+ Py.nl +:+ "1 Han: one" +:+ Py.nl +:+
                 "2 Han: two" +:+ Py.nl +:+ "lines" +:+ Py.nl +:+
                 "4 Han: three" +:+ Py.nl +:+
                 "Han uploaded notes.txt" +:+ Py.nl) !! i
         else renumbered i <$>
              Py.readlines
                ("Han" +:+ Py.nl +:+ "1 Han: one" +:+ Py.nl +:+
                 "2 Han: two" +:+ Py.nl +:+ "lines" +:+ Py.nl +:+
                 "4 Han: three" +:+ Py.nl +:+
                 "Han uploaded notes.txt" +:+ Py.nl) !! S i.
Proof.
  apply (C9_renumbering "Han" peer "Cantina" _ 1 cantina_with_bare_line).
  - vm_compute. reflexivity.
  - vm_compute. reflexivity.
  - vm_compute. lia.
  - vm_compute. reflexivity.
Defined.

(** C9, as stated, fails: Han deletes message 1 of a thread whose fourth
    line, the second line of a message, is the single word "lines".  That
    line moves to index 2 and is not rewritten: it has no space.  The
    upload record after it is: its user name is replaced by 4. *)
Lemma C9_counterexample :
  ∃ st' content',
    dispatch "Han" peer "DLT Cantina 1" false cantina_with_bare_line
      = (Val tt, st') ∧
    last (replies st') = Some (peer, "Message 1 deleted from Cantina") ∧
    cwd st' !! "Cantina" = Some (File content') ∧
    Py.readlines content' !! 2 = Some ("lines" +:+ Py.nl) ∧
    Py.readlines content' !! 4 = Some ("4 uploaded notes.txt" +:+ Py.nl).
Proof.
  eexists. eexists.
  split; [vm_compute; reflexivity|]. split; [vm_compute; reflexivity|].
  split; [vm_compute; reflexivity|]. split; vm_compute; reflexivity.
Qed.

(** ** The stream transfers *)

Lemma first_skip (n : nat) (s : string) : Py.first n s +:+ Py.skip n s = s.
Proof.
  revert s. induction n as [|n IH]; intros [|c s]; try reflexivity.
  rewrite first_cons, skip_cons, app_cons_s, IH. reflexivity.
Qed.

Lemma length_skip (n : nat) (s : string) :
  String.length (Py.skip n s) = String.length s - n.
Proof.
  revert s. induction n as [|n IH]; intros [|c s]; try reflexivity.
  rewrite skip_cons, IH. reflexivity.
Qed.

(** The blocks read from a file make up the file. *)
Lemma concat_read_blocks (fuel : nat) (content : string) :
  String.length content ≤ fuel →
  Py.concat (read_blocks fuel content) = content.
Proof.
  revert content. induction fuel as [|fuel IH]; intros content Hlen.
  - destruct content; [reflexivity|simpl in Hlen; lia].
  - simpl. destruct content as [|c content]; [reflexivity|].
    change BUFFER_SIZE with (S (pred BUFFER_SIZE)).
    rewrite first_cons, skip_cons. simpl.
    rewrite IH.
    + rewrite app_cons_s, first_skip. reflexivity.
    + rewrite length_skip. simpl in Hlen. lia.
Qed.

Lemma concat_file_blocks (content : string) :
  Py.concat (file_blocks content) = content.
Proof. apply concat_read_blocks. reflexivity. Qed.



(** The download loop of the client writes all the blocks when none of them
    is empty. *)
Lemma save_file_all (chunks : list string) :
  Forall (λ data, data ≠ "") chunks → save_file chunks = Py.concat chunks.
Proof.
  induction 1 as [|data chunks Hne _ IH]; [reflexivity|].
  simpl. apply String.eqb_neq in Hne as ->. rewrite IH. reflexivity.
Qed.

Lemma split_two (title rest : string) :
  Py.contains_char " " title = false →
  Py.split " " 1 (title +:+ " " +:+ rest) = [title; rest].
Proof.
  intros Htitle. change (title +:+ " " +:+ rest) with (title +:+ String " " rest).
  simpl. rewrite cut_app by exact Htitle. reflexivity.
Qed.


(** A download that finds its thread, its file and a connection. *)
Lemma do_DWN_sends (a : addr) (thread_title filename content stored : string)
    (conn : list string) (rest : list (list string)) (st : State) :
  Py.contains_char " " thread_title = false →
  cwd st !! thread_title = Some (File content) →
  uploads st !! thread_title ≫= (.!! filename) = Some stored →
  tcp_in st = conn :: rest →
  ∃ st2,
    do_DWN a (thread_title +:+ " " +:+ filename) st = (Val tt, st2) ∧
    tcp_out st2 = tcp_out st ++ [file_blocks stored] ∧
    uploads st2 = uploads st ∧
    replies st2 = replies st ++
      [(a, "Ready for TCP transfer|" +:+
             Py.str_of_int (Z.of_nat (String.length stored)));
       (a, "File " +:+ filename +:+ " downloaded successfully")].
Proof.
  intros Htitle Hfile Hstored Hconn. unfold do_DWN.
  rewrite split_two by exact Htitle. run.
  rewrite bool_decide_eq_true_2 by (rewrite Hfile; eauto). simpl.
  rewrite Hstored. simpl. rewrite Hconn. simpl.
  eexists. split; [reflexivity|]. simpl.
  rewrite <- app_assoc. auto.
Qed.




(** * Further properties *)

(** ** Sending: success, failure and what is transmitted *)

Section SendMore.

Variable E : Env.
Variable packet : string.
Variable a : addr.
Variable seq_num : Z.
Variable packet_loss_rate : Q.

(** One turn of the loop in which the awaited acknowledgment arrives. *)
Lemma send_loop_acked (fuel attempts : nat) (s : Sock) (data : string)
    (from : addr) :
  attempts < MAX_RETRIES →
  network E (reads s) = Datagram data from →
  ack_number (Py.first BUFFER_SIZE data) = Ret seq_num →
  send_loop E (S fuel) packet a seq_num packet_loss_rate attempts s =
  Some (Ret true, turn E packet a packet_loss_rate s).
Proof.
  intros Hlt Hnet Hack. simpl.
  apply Nat.ltb_lt in Hlt as ->.
  unfold turn, simulate_packet_loss, recvfrom.
  destruct (negb _); simpl; rewrite Hnet; simpl; rewrite Hack; simpl;
    rewrite Z.eqb_refl; reflexivity.
Qed.



End SendMore.



Section SendReturns.

Variable E : Env.
Variable packet : string.
Variable a : addr.
Variable seq_num : Z.
Variable packet_loss_rate : Q.



End SendReturns.





(** ** Receiving: timeouts, dropped and malformed datagrams *)

(** X4.  On a network where every wait times out, the receive operation of
    the server never returns, however many turns of its loop are run; the
    one of the client returns Python's [None] after a single call of
    [recvfrom], having sent nothing. *)
Theorem X4_recv_on_timeouts (E : Env) (packet_loss_rate : Q) (s : Sock) :
  (∀ n, network E n = Timeout) →
  (∀ fuel, Server.reliable_recv E fuel packet_loss_rate s = None) ∧
  (∀ fuel,
     ForumClient.reliable_recv E (S fuel) packet_loss_rate s =
     Some (None, {| draws := draws s; reads := S (reads s); sent := sent s |})).
Proof.
  intros Hnet. split.
  - intros fuel. revert s. induction fuel as [|fuel IH]; intros s; [reflexivity|].
    simpl. unfold recvfrom. rewrite Hnet. apply IH.
  - intros fuel. simpl. unfold recvfrom. rewrite Hnet. reflexivity.
Qed.

(** The statement of X4 on the silent network. *)
Lemma X4_recv_on_timeouts_witness :
  (∀ fuel, Server.reliable_recv silent fuel 0 fresh_sock = None) ∧
  (∀ fuel,
     ForumClient.reliable_recv silent (S fuel) 0 fresh_sock =
     Some (None, {| draws := draws fresh_sock; reads := S (reads fresh_sock);
                    sent := sent fresh_sock |})).
Proof.
  apply (X4_recv_on_timeouts silent 0 fresh_sock).
  intros n. reflexivity.
Defined.

(** X5.  With a loss rate above every random draw -- loss rate 1 -- the
    receive operation drops every datagram: the one of the server never
    returns, and the one of the client returns only Python's [None], on a
    timeout; neither sends an acknowledgment. *)
Theorem X5_recv_drops_everything (E : Env) (packet_loss_rate : Q) :
  (∀ k, (random E k < packet_loss_rate)%Q) →
  (∀ fuel s, Server.reliable_recv E fuel packet_loss_rate s = None) ∧
  (∀ fuel s r s',
     ForumClient.reliable_recv E fuel packet_loss_rate s = Some (r, s') →
     r = None ∧ sent s' = sent s).
Proof.
  intros Hlost.
  assert (Hdrop : ∀ s : Sock,
    negb (Qle_bool packet_loss_rate (random E (draws s))) = true).
  { intros s. destruct (Qle_bool _ _) eqn:Hle; [|reflexivity].
    apply Qle_bool_iff in Hle. specialize (Hlost (draws s)).
    apply Qlt_not_le in Hlost. contradiction. }
  split.
  - intros fuel. induction fuel as [|fuel IH]; intros s; [reflexivity|].
    simpl. unfold recvfrom, simulate_packet_loss.
    destruct (network E (reads s)); simpl; [apply IH|].
    rewrite Hdrop. apply IH.
  - intros fuel. induction fuel as [|fuel IH]; intros s r s'; [discriminate|].
    simpl. unfold recvfrom, simulate_packet_loss.
    destruct (network E (reads s)); simpl.
    + intros [= <- <-]. auto.
    + rewrite Hdrop. intros H. apply IH in H as [-> Hs]. auto.
Qed.

(** The statement of X5 for loss rate 1 on a network that keeps delivering
    a command. *)
Lemma X5_recv_drops_everything_witness :
  (∀ fuel s, Server.reliable_recv (noisy "7|LST") fuel 1 s = None) ∧
  (∀ fuel s r s',
     ForumClient.reliable_recv (noisy "7|LST") fuel 1 s = Some (r, s') →
     r = None ∧ sent s' = sent s).
Proof.
  apply (X5_recv_drops_everything (noisy "7|LST") 1).
  intros k. vm_compute. reflexivity.
Defined.

(** The datagrams [reliable_recv] neither returns nor acknowledges. *)
Lemma accept_frame_None (data : string) :
  accept_frame data = None ↔
  Utf8.valid data = false ∧
  (length (Py.split "|" 2 data) < 3 ∨
   Utf8.valid (Py.split "|" 2 data !!! 0) = false).
Proof.
  unfold accept_frame, Utf8.decode.
  destruct (Utf8.valid data) eqn:Hvalid.
  - split; [|intros [[=] _]].
    unfold Py.contains_char. simpl.
    destruct (Py.cut "|" data) as [[l r]|]; absurd_eq.
  - cbv zeta.
    destruct (Nat.leb_spec 3 (length (Py.split "|" 2 data))) as [Hlen|Hlen].
    + destruct (Utf8.valid (Py.split "|" 2 data !!! 0)) eqn:Hseq.
      * split; [absurd_eq|]. intros [_ [?|?]]; [lia|congruence].
      * split; auto.
    + split; auto.
Qed.

(** X6.  A datagram that is not well-formed UTF-8 and has fewer than two
    '|', or whose bytes before the first '|' are not well-formed UTF-8, is
    discarded by the receive operation of the server and of the client,
    dropped by the simulated loss or not: the loop goes on to the next
    [recvfrom] and nothing is sent back. *)
Theorem X6_recv_discards_malformed (E : Env) (fuel : nat)
    (packet_loss_rate : Q) (s : Sock) (raw : string) (a : addr) :
  network E (reads s) = Datagram raw a →
  Utf8.valid (Py.first BUFFER_SIZE raw) = false →
  length (Py.split "|" 2 (Py.first BUFFER_SIZE raw)) < 3 ∨
    Utf8.valid (Py.split "|" 2 (Py.first BUFFER_SIZE raw) !!! 0) = false →
  Server.reliable_recv E (S fuel) packet_loss_rate s =
    Server.reliable_recv E fuel packet_loss_rate (received_one s) ∧
  ForumClient.reliable_recv E (S fuel) packet_loss_rate s =
    ForumClient.reliable_recv E fuel packet_loss_rate (received_one s) ∧
  sent (received_one s) = sent s.
Proof.
  intros Hnet Hvalid Hparts.
  assert (Hnone : accept_frame (Py.first BUFFER_SIZE raw) = None)
    by (apply accept_frame_None; auto).
  split; [|split; [|reflexivity]].
  - simpl. unfold recvfrom, simulate_packet_loss. rewrite Hnet. simpl.
    destruct (negb _); [reflexivity|]. rewrite Hnone. reflexivity.
  - simpl. unfold recvfrom, simulate_packet_loss. rewrite Hnet. simpl.
    destruct (negb _); [reflexivity|]. rewrite Hnone. reflexivity.
Qed.

(** The statement of X6 for a datagram of two bytes that are not UTF-8. *)
Lemma X6_recv_discards_malformed_witness :
  Server.reliable_recv (delivering [Py.of_bytes [255; 254]]) 2 0 fresh_sock =
    Server.reliable_recv (delivering [Py.of_bytes [255; 254]]) 1 0
      (received_one fresh_sock) ∧
  ForumClient.reliable_recv (delivering [Py.of_bytes [255; 254]]) 2 0
      fresh_sock =
    ForumClient.reliable_recv (delivering [Py.of_bytes [255; 254]]) 1 0
      (received_one fresh_sock) ∧
  sent (received_one fresh_sock) = sent fresh_sock.
Proof.
  apply (X6_recv_discards_malformed (delivering [Py.of_bytes [255; 254]]) 1 0
           fresh_sock (Py.of_bytes [255; 254]) peer).
  - reflexivity.
  - vm_compute. reflexivity.
  - left. vm_compute. lia.
Defined.

(** ** Decimal numerals read back *)

Lemma rev_app_all_chars (P : ascii → bool) (s acc : string) :
  all_chars P (String.rev_app s acc) = all_chars P s && all_chars P acc.
Proof.
  revert acc. induction s as [|c s IH]; intros acc; simpl; [reflexivity|].
  rewrite IH. simpl. destruct (P c), (all_chars P s); reflexivity.
Qed.

Lemma rev_app_rev_app (s acc acc' : string) :
  String.rev_app (String.rev_app s acc) acc' = String.rev_app acc (s +:+ acc').
Proof.
  revert acc acc'. induction s as [|c s IH]; intros acc acc'; simpl;
    [reflexivity|].
  rewrite IH. reflexivity.
Qed.

Lemma rev_rev (s : string) : String.rev (String.rev s) = s.
Proof.
  unfold String.rev. rewrite rev_app_rev_app. simpl. apply app_nil_r_s.
Qed.

Lemma rev_all_chars (P : ascii → bool) (s : string) :
  all_chars P (String.rev s) = all_chars P s.
Proof. unfold String.rev. rewrite rev_app_all_chars. apply andb_true_r. Qed.

(** No white space starts, or ends, with a digit or a sign. *)
Lemma strip_token_numeral (c : ascii) (s : string) :
  numeral_char c = true →
  Py.strip_token Py.whitespace (String c s) = None ∧
  Py.strip_token (String.rev <$> Py.whitespace) (String c s) = None.
Proof.
  destruct c as [[] [] [] [] [] [] [] []]; intros H; vm_compute in H;
    try discriminate H; split; reflexivity.
Qed.

Lemma lstrip_loop_numeral (toks : list string) (s : string) :
  (∀ c s', numeral_char c = true → Py.strip_token toks (String c s') = None) →
  all_chars numeral_char s = true →
  Py.lstrip_loop toks (String.length s) s = s.
Proof.
  intros Htoks Hs. destruct s as [|c s]; [reflexivity|].
  simpl in Hs. apply andb_prop in Hs as [Hc _].
  simpl. rewrite (Htoks c s Hc). reflexivity.
Qed.

(** A numeral has no white space to strip. *)
Lemma strip_numeral (s : string) :
  all_chars numeral_char s = true → Py.strip s = s.
Proof.
  intros Hs.
  assert (Hl : Py.lstrip s = s).
  { apply lstrip_loop_numeral; [|exact Hs].
    intros c s' Hc. destruct (strip_token_numeral c s' Hc) as [Hw _].
    exact Hw. }
  assert (Hlen : ∀ t acc, String.length (String.rev_app t acc) =
                          String.length t + String.length acc).
  { induction t as [|c t IH]; intros acc; simpl; [reflexivity|].
    rewrite IH. simpl. lia. }
  assert (Hr : Py.rstrip s = s).
  { unfold Py.rstrip.
    replace (String.length s) with (String.length (String.rev s))
      by (unfold String.rev; rewrite Hlen; simpl; lia).
    replace (Py.lstrip_loop (String.rev <$> Py.whitespace)
               (String.length (String.rev s)) (String.rev s))
      with (String.rev s); [apply rev_rev|].
    symmetry. apply lstrip_loop_numeral.
    - intros c s' Hc. destruct (strip_token_numeral c s' Hc) as [_ Hw].
      exact Hw.
    - rewrite rev_all_chars. exact Hs. }
  unfold Py.strip. rewrite Hl. exact Hr.
Qed.

Lemma digit_pretty (y : N) :
  (y < 10)%N → Py.digit (pretty_N_char y) = Some (Z.of_N y).
Proof.
  intros Hy.
  assert (y = 0 ∨ y = 1 ∨ y = 2 ∨ y = 3 ∨ y = 4 ∨ y = 5 ∨ y = 6 ∨ y = 7 ∨
          y = 8 ∨ y = 9)%N as Hcases by lia.
  repeat (destruct Hcases as [->|Hcases]; [reflexivity|]).
  subst. reflexivity.
Qed.

(** Reading the digits [pretty_N_go] writes in front of [s]. *)
Lemma digits_pretty_N_go (x : N) :
  ∃ p : Z, ∀ (s : string) (acc : Z) (prev : bool),
    Py.digits prev acc (pretty_N_go x s) =
    if decide (x = 0%N) then Py.digits prev acc s
    else Py.digits true (acc * p + Z.of_N x) s.
Proof.
  induction (N.lt_wf_0 x) as [x _ IH].
  destruct (decide (x = 0%N)) as [->|Hx].
  - exists 1%Z. intros s acc prev. rewrite pretty_N_go_0. reflexivity.
  - destruct (IH (x `div` 10)%N) as [p Hp]; [apply N.div_lt; lia|].
    exists (if decide ((x `div` 10)%N = 0%N) then 10 else p * 10)%Z.
    intros s acc prev. rewrite pretty_N_go_step by lia. rewrite Hp.
    assert (Hmod : (x `mod` 10 < 10)%N) by (apply N.mod_lt; lia).
    assert (Hx10 : Z.of_N x =
                   (10 * Z.of_N (x `div` 10) + Z.of_N (x `mod` 10))%Z).
    { rewrite (N.div_mod x 10) at 1 by lia. lia. }
    destruct (decide ((x `div` 10)%N = 0%N)) as [Hd|Hd].
    + simpl. rewrite (digit_pretty _ Hmod). f_equal. rewrite Hd in Hx10. lia.
    + simpl. rewrite (digit_pretty _ Hmod). f_equal. lia.
Qed.

Lemma digits_pretty_N (x : N) :
  Py.digits false 0 (pretty x) = Some (Z.of_N x).
Proof.
  unfold pretty, pretty_N. destruct (decide (x = 0%N)) as [->|Hx];
    [reflexivity|].
  destruct (digits_pretty_N_go x) as [p Hp]. rewrite Hp.
  destruct (decide (x = 0%N)); [contradiction|]. simpl. f_equal; lia.
Qed.

(** The head of a numeral decides how [int] reads it. *)
Lemma int_of_str_head (s : string) (c : ascii) (r : string) :
  Py.strip s = String c r →
  numeral_char c = true →
  Py.int_of_str s =
  if Ascii.eqb c "-" then Z.opp <$> Py.digits false 0 r
  else Py.digits false 0 (String c r).
Proof.
  intros Hstrip Hc. unfold Py.int_of_str. rewrite Hstrip.
  destruct c as [[] [] [] [] [] [] [] []]; vm_compute in Hc;
    try discriminate Hc; reflexivity.
Qed.

(** [int(str(n))] is [n]. *)
Lemma int_of_str_of_int (n : Z) : Py.int_of_str (Py.str_of_int n) = Some n.
Proof.
  pose proof (str_of_int_numeral n) as Hnum.
  pose proof (strip_numeral _ Hnum) as Hstrip.
  destruct n as [|p|p]; [reflexivity| |].
  - unfold Py.str_of_int in *.
    change (pretty (Zpos p)) with (pretty (Npos p)) in *.
    destruct (pretty (Npos p)) as [|c r] eqn:Hp.
    { pose proof (digits_pretty_N (Npos p)) as H. rewrite Hp in H.
      discriminate H. }
    simpl in Hnum. apply andb_prop in Hnum as [Hc _].
    rewrite (int_of_str_head _ c r Hstrip Hc).
    destruct (Ascii.eqb_spec c "-") as [->|_].
    + exfalso. unfold pretty, pretty_N in Hp.
      destruct (decide (Npos p = 0%N)); [discriminate|].
      apply (pretty_N_go_ne_dash (Npos p) "" r); [discriminate|exact Hp].
    + rewrite <- Hp. apply (digits_pretty_N (Npos p)).
  - unfold Py.str_of_int in *.
    change (pretty (Zneg p)) with ("-" +:+ pretty (Npos p)) in *.
    change ("-" +:+ pretty (Npos p)) with (String "-" (pretty (Npos p))) in *.
    rewrite (int_of_str_head _ "-" (pretty (Npos p)) Hstrip eq_refl).
    simpl. rewrite (digits_pretty_N (Npos p)). reflexivity.
Qed.

(** ** A frame and its acknowledgment *)

Lemma ack_number_of_seq (seq_num : Z) :
  ack_number (Py.str_of_int seq_num) = Ret seq_num.
Proof.
  unfold ack_number.
  rewrite decode_valid by apply valid_numeral, str_of_int_numeral.
  rewrite int_of_str_of_int. reflexivity.
Qed.

(** X7.  One exchange without loss.  A text frame built by the send
    operation arrives whole at the receive operation of the server: the
    payload is returned unchanged and one datagram is sent back, the decimal
    sequence number.  When that datagram arrives at the sender during its
    first wait, the send operation returns [True] after one attempt. *)
Theorem X7_exchange_without_loss (E_recv E_send : Env) (fuel_recv fuel_send : nat)
    (rate_recv rate_send : Q) (seq_num : Z) (data : string)
    (sender receiver : addr) (s_recv s_send : Sock) :
  Utf8.valid data = true →
  String.length (frame seq_num data false) ≤ BUFFER_SIZE →
  network E_recv (reads s_recv) = Datagram (frame seq_num data false) sender →
  (rate_recv <= random E_recv (draws s_recv))%Q →
  ∃ ack s_recv',
    Server.reliable_recv E_recv (S fuel_recv) rate_recv s_recv
      = Some ((data, sender, false), s_recv') ∧
    sent s_recv' = sent s_recv ++ [(ack, sender)] ∧
    (network E_send (reads s_send) = Datagram ack receiver →
     Server.reliable_send E_send (S fuel_send) seq_num receiver data false
       rate_send s_send
       = Some (Ret true,
               turn E_send (frame seq_num data false) receiver rate_send
                 s_send)).
Proof.
  intros Hvalid Hlen Hnet Hkept.
  exists (Py.str_of_int seq_num),
         (sendto (Py.str_of_int seq_num) sender (received_one s_recv)).
  split; [|split].
  - rewrite (server_recv_turn E_recv _ fuel_recv s_recv _ sender Hnet Hkept).
    rewrite first_all by exact Hlen.
    rewrite accept_frame_of_frame by auto. rewrite Hvalid. reflexivity.
  - reflexivity.
  - intros Hack. unfold Server.reliable_send.
    apply (send_loop_acked _ _ _ _ _ _ _ _ (Py.str_of_int seq_num) receiver).
    + unfold MAX_RETRIES. lia.
    + exact Hack.
    + rewrite first_all; [apply ack_number_of_seq|].
      rewrite frame_shape, length_app_s in Hlen. lia.
Qed.

(** The statement of X7 for the command [LST] sent with sequence number
    4711. *)
Lemma X7_exchange_without_loss_witness :
  ∃ ack s_recv',
    Server.reliable_recv (delivering [frame 4711 "LST" false]) 1 0 fresh_sock
      = Some (("LST", peer, false), s_recv') ∧
    sent s_recv' = sent fresh_sock ++ [(ack, peer)] ∧
    (network (delivering ["4711"]) (reads fresh_sock) = Datagram ack peer →
     Server.reliable_send (delivering ["4711"]) 1 4711 peer "LST" false 0
       fresh_sock
       = Some (Ret true,
               turn (delivering ["4711"]) (frame 4711 "LST" false) peer 0
                 fresh_sock)).
Proof.
  apply (X7_exchange_without_loss (delivering [frame 4711 "LST" false])
           (delivering ["4711"]) 0 0 0 0 4711 "LST" peer peer
           fresh_sock fresh_sock).
  - reflexivity.
  - vm_compute. lia.
  - reflexivity.
  - vm_compute. discriminate.
Defined.
(** ** The registry and the commands *)

(** No command but XIT changes the registry; XIT removes the name of the
    session. *)
Lemma do_CRT_registry (username : string) (a : addr) (args : string)
    (st : State) :
  logged_users (do_CRT username a args st).2 = logged_users st.
Proof. unfold do_CRT. run. cases; reflexivity. Qed.

Lemma do_LST_registry (a : addr) (st : State) :
  logged_users (do_LST a st).2 = logged_users st.
Proof.
  unfold do_LST, bind, gets, reply, modify.
  destruct (get_thread_list (cwd st)); reflexivity.
Qed.

Lemma do_MSG_registry (username : string) (a : addr) (args : string)
    (st : State) :
  logged_users (do_MSG username a args st).2 = logged_users st.
Proof. unfold do_MSG. run. cases; reflexivity. Qed.

Lemma do_RDT_registry (a : addr) (args : string) (st : State) :
  logged_users (do_RDT a args st).2 = logged_users st.
Proof. unfold do_RDT. run. cases; reflexivity. Qed.

Lemma do_DLT_registry (username : string) (a : addr) (args : string)
    (st : State) :
  logged_users (do_DLT username a args st).2 = logged_users st.
Proof. unfold do_DLT, delete_message. run. cases; reflexivity. Qed.

Lemma do_EDT_registry (username : string) (a : addr) (args : string)
    (st : State) :
  logged_users (do_EDT username a args st).2 = logged_users st.
Proof. unfold do_EDT, edit_message. run. cases; reflexivity. Qed.

Lemma do_RMV_registry (username : string) (a : addr) (args : string)
    (st : State) :
  logged_users (do_RMV username a args st).2 = logged_users st.
Proof. unfold do_RMV. run. cases; reflexivity. Qed.

Lemma do_UPD_registry (username : string) (a : addr) (args : string)
    (st : State) :
  logged_users (do_UPD username a args st).2 = logged_users st.
Proof. unfold do_UPD. run. cases; reflexivity. Qed.

Lemma do_DWN_registry (a : addr) (args : string) (st : State) :
  logged_users (do_DWN a args st).2 = logged_users st.
Proof. unfold do_DWN. run. cases; reflexivity. Qed.

Lemma dispatch_registry (username : string) (a : addr) (cmd_data : string)
    (is_binary : bool) (st : State) :
  logged_users (dispatch username a cmd_data is_binary st).2 = logged_users st ∨
  logged_users (dispatch username a cmd_data is_binary st).2 =
    logged_users st ∖ {[username]}.
Proof.
  unfold dispatch.
  repeat match goal with
         | |- context [(if ?c then _ else _) st] => destruct c
         end.
  - left. reflexivity.
  - right. reflexivity.
  - left. apply do_CRT_registry.
  - left. apply do_LST_registry.
  - left. apply do_MSG_registry.
  - left. apply do_RDT_registry.
  - left. apply do_DLT_registry.
  - left. apply do_EDT_registry.
  - left. apply do_RMV_registry.
  - left. apply do_UPD_registry.
  - left. apply do_DWN_registry.
  - left. reflexivity.
Qed.

Lemma others_kept (users : gset string) (username other : string) :
  other ≠ username → other ∈ users ∖ {[username]} ↔ other ∈ users.
Proof.
  intros Hother. rewrite elem_of_difference, elem_of_singleton. tauto.
Qed.

Lemma others_kept_union (users : gset string) (username other : string) :
  other ≠ username → other ∈ {[username]} ∪ users ↔ other ∈ users.
Proof.
  intros Hother. rewrite elem_of_union, elem_of_singleton. tauto.
Qed.

(** The names other than [username] are in the registry after the command
    loop when they are in it before. *)
Lemma command_loop_registry (username : string) (inbox : list received)
    (st : State) (other : string) :
  other ≠ username →
  other ∈ logged_users (command_loop username inbox st).2 ↔
  other ∈ logged_users st.
Proof.
  intros Hother. revert st.
  induction inbox as [|[[cmd_data a] is_binary] inbox IH]; intros st;
    [reflexivity|].
  simpl.
  pose proof (dispatch_registry username a cmd_data is_binary st) as Hd.
  destruct (dispatch username a cmd_data is_binary st) as [[u|sig] st1].
  - rewrite IH. simpl in Hd. destruct Hd as [-> | ->]; [reflexivity|].
    apply others_kept. exact Hother.
  - simpl in Hd.
    destruct sig; simpl; rewrite ?IH; destruct Hd as [-> | ->];
      try reflexivity; apply others_kept; exact Hother.
Qed.

Lemma authenticate_user_registry (username password : string)
    (new_user : bool) (st : State) :
  logged_users (authenticate_user username password new_user st).2 =
  logged_users st.
Proof. unfold authenticate_user. run. cases; reflexivity. Qed.

Lemma session_registry (username : string) (a : addr)
    (inbox : list received) (st : State) (other : string) :
  other ≠ username →
  other ∈ logged_users (session username a inbox st).2 ↔
  other ∈ logged_users st.
Proof.
  intros Hother. unfold session.
  destruct (String.eqb username ""); [reflexivity|].
  unfold bind at 1. unfold gets at 1.
  destruct (bool_decide (username ∈ logged_users st)); [reflexivity|].
  unfold bind at 1. unfold path_exists at 1. unfold gets at 1.
  unfold bind at 1.
  match goal with
  | |- context [(if ?c then ?x else ?y) st] =>
      destruct ((if c then x else y) st) as [[user_exists|sig] st1] eqn:Hex
  end.
  2: { assert (logged_users st1 = logged_users st) as <-; [|reflexivity].
       revert Hex. run. cases; intros; simplify_eq/=; reflexivity. }
  assert (logged_users st1 = logged_users st) as Hst1.
  { revert Hex. run. cases; intros; simplify_eq/=; reflexivity. }
  rewrite <- Hst1. clear Hex Hst1 st.
  unfold bind at 1. unfold reply at 1. unfold modify at 1.
  unfold bind at 1.
  destruct inbox as [|[[password a'] is_binary] inbox]; [reflexivity|].
  unfold check_password. destruct is_binary; [reflexivity|].
  unfold bind at 1.
  pose proof (authenticate_user_registry username password
                (negb user_exists)
                (set_replies
                   (λ l, l ++ [(a, if user_exists then "Username OK"
                                   else "New User")]) st1)) as Hauth.
  destruct (authenticate_user _ _ _ _) as [[[]|sig] st2]; simpl in Hauth.
  - unfold bind, reply, modify, ret. simpl.
    rewrite command_loop_registry by exact Hother. simpl.
    rewrite Hauth. apply others_kept_union. exact Hother.
  - unfold bind, reply, modify, signal_. simpl. rewrite Hauth. reflexivity.
  - simpl. rewrite Hauth. reflexivity.
Qed.

(** X8.  A session worker changes the registry of logged-in users at its own
    name only: a name other than the one it received is in [logged_users]
    after the worker has run, whatever datagrams it was given and wherever
    it stopped, exactly when it was there before.  And a worker that has
    returned leaves its own name out of the registry. *)
Theorem X8_worker_keeps_other_names (data : string) (a : addr)
    (is_binary : bool) (inbox : list received) (st : State) (other : string) :
  other ≠ Py.strip data →
  (other ∈ logged_users (client_handler ((data, a, is_binary) :: inbox) st).2 ↔
   other ∈ logged_users st) ∧
  (∀ error st',
     client_handler ((data, a, is_binary) :: inbox) st = (Finished error, st') →
     Py.strip data ∉ logged_users st').
Proof.
  intros Hother. split.
  - unfold client_handler. destruct is_binary; [reflexivity|].
    pose proof (session_registry (Py.strip data) a inbox st other Hother)
      as Hs.
    destruct (session (Py.strip data) a inbox st) as [[u|[| | |e| |]] st1];
      simpl in *; rewrite ?others_kept by exact Hother; exact Hs.
  - intros error st'. destruct is_binary.
    + simpl. intros H. discriminate H.
    + apply client_handler_finished.
Qed.

(** The statement of X8 for a worker that registers Leia and is told to
    exit, while Han is logged in. *)
Lemma X8_worker_keeps_other_names_witness :
  ("Han" ∈ logged_users
             (client_handler
                [("Leia", other_peer, false); ("organa", other_peer, false);
                 ("XIT", other_peer, false)] han_logged_in).2 ↔
   "Han" ∈ logged_users han_logged_in) ∧
  (∀ error st',
     client_handler
       [("Leia", other_peer, false); ("organa", other_peer, false);
        ("XIT", other_peer, false)] han_logged_in = (Finished error, st') →
     Py.strip "Leia" ∉ logged_users st').
Proof.
  apply (X8_worker_keeps_other_names "Leia" other_peer false
           [("organa", other_peer, false); ("XIT", other_peer, false)]
           han_logged_in "Han").
  vm_compute. discriminate.
Defined.

(** ** The working directory and the commands *)














(** ** Commands that are refused *)

Lemma path_missing (st : State) (name : string) :
  cwd st !! name = None → bool_decide (is_Some (cwd st !! name)) = false.
Proof.
  intros H. apply bool_decide_eq_false_2. rewrite H. intros [x Hx].
  discriminate Hx.
Qed.

(** X10.  A command about a thread that does not exist: the server has
    started, and the title is the name of one directory entry, has no space
    and is no entry of the working directory.  MSG, RDT, DLT, EDT, RMV, UPD
    and DWN answer "Thread <title> does not exist" and go on to the next
    command; nothing but the reply is changed: no file and no upload
    directory is created, and UPD and DWN do not wait for a stream
    connection. *)
Theorem X10_missing_thread (username : string) (a : addr)
    (title rest : string) (n : Z) (st : State) :
  started st = true →
  plain_name title = true →
  cwd st !! title = None →
  Py.contains_char " " title = false →
  let refused :=
    (Sig Continue,
     set_replies
       (λ l, l ++ [(a, "Thread " +:+ title +:+ " does not exist")]) st) in
  do_MSG username a (title +:+ " " +:+ rest) st = refused ∧
  do_RDT a title st = refused ∧
  delete_message username a title n st = refused ∧
  edit_message username a title n rest st = refused ∧
  do_RMV username a title st = refused ∧
  do_UPD username a (title +:+ " " +:+ rest) st = refused ∧
  do_DWN a (title +:+ " " +:+ rest) st = refused.
Proof.
  intros _ _ Hmissing Htitle refused. apply path_missing in Hmissing.
  repeat split.
  - unfold do_MSG. rewrite split_two by exact Htitle. run.
    rewrite Hmissing. reflexivity.
  - unfold do_RDT. run. rewrite Hmissing. reflexivity.
  - unfold delete_message. run. rewrite Hmissing. reflexivity.
  - unfold edit_message. run. rewrite Hmissing. reflexivity.
  - unfold do_RMV. run. rewrite Hmissing. reflexivity.
  - unfold do_UPD. rewrite split_two by exact Htitle. run.
    rewrite Hmissing. reflexivity.
  - unfold do_DWN. rewrite split_two by exact Htitle. run.
    rewrite Hmissing. reflexivity.
Qed.

(** The statement of X10 for the thread Hoth, which Han has not created. *)
Lemma X10_missing_thread_witness :
  let refused :=
    (Sig Continue,
     set_replies
       (λ l, l ++ [(peer, "Thread " +:+ "Hoth" +:+ " does not exist")])
       han_logged_in) : step unit * State in
  do_MSG "Han" peer ("Hoth" +:+ " " +:+ "cold") han_logged_in = refused ∧
  do_RDT peer "Hoth" han_logged_in = refused ∧
  delete_message "Han" peer "Hoth" 1 han_logged_in = refused ∧
  edit_message "Han" peer "Hoth" 1 "cold" han_logged_in = refused ∧
  do_RMV "Han" peer "Hoth" han_logged_in = refused ∧
  do_UPD "Han" peer ("Hoth" +:+ " " +:+ "cold") han_logged_in = refused ∧
  do_DWN peer ("Hoth" +:+ " " +:+ "cold") han_logged_in = refused.
Proof.
  apply (X10_missing_thread "Han" peer "Hoth" "cold" 1 han_logged_in).
  - vm_compute. reflexivity.
  - vm_compute. reflexivity.
  - vm_compute. reflexivity.
  - vm_compute. reflexivity.
Defined.

(** ** A line of one word in the credentials file *)

Lemma credentials_strict_raised (lines : list string) :
  foldl (λ (acc : result (gmap string string)) line,
           result_bind acc (λ credentials,
             if bool_decide (Py.strip line = "") then Ret credentials
             else
               match Py.split_ws line with
               | k :: v :: _ => Ret (<[k := v]> credentials)
               | _ => Raise IndexError
               end))
        (Raise IndexError) lines = Raise IndexError.
Proof. induction lines as [|line lines IH]; [reflexivity|exact IH]. Qed.

(** The dictionary comprehension of the worker fails on the first line
    that has characters other than white space but fewer than two words. *)
Lemma credentials_strict_one_word (lines : list string) (i : nat)
    (line : string) :
  lines !! i = Some line →
  Py.strip line ≠ "" →
  length (Py.split_ws line) < 2 →
  credentials_strict lines = Raise IndexError.
Proof.
  unfold credentials_strict. generalize (∅ : gmap string string).
  revert i. induction lines as [|l lines IH]; intros i credentials Hi Hne Hlen;
    [discriminate Hi|].
  destruct i as [|i]; simpl in Hi.
  - injection Hi as ->. simpl.
    rewrite bool_decide_eq_false_2 by exact Hne.
    destruct (Py.split_ws line) as [|k [|v parts]];
      [apply credentials_strict_raised|apply credentials_strict_raised|].
    simpl in Hlen. lia.
  - simpl. destruct (bool_decide (Py.strip l = "")); [eapply IH; eauto|].
    destruct (Py.split_ws l) as [|k [|v parts]];
      [apply credentials_strict_raised|apply credentials_strict_raised|].
    eapply IH; eauto.
Qed.

(** X11.  Once the credentials file has a line with one word only -- the
    line that a registration with an empty password writes -- the worker of
    every later session ends in an [IndexError] while it reads the file:
    whatever user name it was given, it sends no reply and returns, and
    nothing is changed. *)
Theorem X11_one_word_line_locks_out (data : string) (a : addr)
    (inbox : list received) (st : State) (content line : string) (i : nat) :
  Py.strip data ≠ "" →
  Py.strip data ∉ logged_users st →
  cwd st !! CREDENTIALS_FILE = Some (File content) →
  Utf8.valid content = true →
  Py.readlines content !! i = Some line →
  Py.strip line ≠ "" →
  length (Py.split_ws line) < 2 →
  client_handler ((data, a, false) :: inbox) st =
    (Finished (Some IndexError), st).
Proof.
  intros Hname Hfree Hfile Hvalid Hline Hne Hlen.
  unfold client_handler, session.
  apply String.eqb_neq in Hname as ->.
  unfold bind at 1. unfold gets at 1.
  rewrite bool_decide_eq_false_2 by exact Hfree.
  run. rewrite bool_decide_eq_true_2 by (rewrite Hfile; eauto). simpl.
  unfold read_text. rewrite Hfile, (decode_valid _ Hvalid). simpl.
  rewrite (credentials_strict_one_word _ i line Hline Hne Hlen). simpl.
  unfold finally, set_logged_users. destruct st as [users dir up rep tin tout].
  simpl in *. f_equal. f_equal.
  apply leibniz_equiv. intros x. rewrite elem_of_difference, elem_of_singleton.
  split; [tauto|]. intros Hx. split; [exact Hx|]. intros ->. contradiction.
Qed.

(** The statement of X11 for Leia, after Han has registered with an empty
    password. *)
Lemma X11_one_word_line_locks_out_witness :
  client_handler [("Leia", other_peer, false); ("organa", other_peer, false)]
    (client_handler [("Han", peer, false); ("", peer, false)] initial_state).2 =
  (Finished (Some IndexError),
   (client_handler [("Han", peer, false); ("", peer, false)] initial_state).2).
Proof.
  apply (X11_one_word_line_locks_out "Leia" other_peer
           [("organa", other_peer, false)]
           (client_handler [("Han", peer, false); ("", peer, false)]
              initial_state).2
           ("Han " +:+ Py.nl) ("Han " +:+ Py.nl) 0).
  - vm_compute. discriminate.
  - vm_compute. discriminate.
  - vm_compute. reflexivity.
  - vm_compute. reflexivity.
  - vm_compute. reflexivity.
  - vm_compute. discriminate.
  - vm_compute. lia.
Defined.

(** ** The blocks of a file *)

Lemma length_first (n : nat) (s : string) :
  String.length (Py.first n s) = n `min` String.length s.
Proof.
  revert s. induction n as [|n IH]; intros [|c s]; try reflexivity.
  rewrite first_cons. simpl. rewrite IH. reflexivity.
Qed.

Lemma skip_skip (n m : nat) (s : string) :
  Py.skip m (Py.skip n s) = Py.skip (n + m) s.
Proof.
  revert s. induction n as [|n IH]; intros s; [reflexivity|].
  destruct s as [|c s].
  - destruct m; reflexivity.
  - simpl. rewrite !skip_cons. apply IH.
Qed.

(** The block at index [i] is what [f.read(BUFFER_SIZE)] returns at the
    offset [i * BUFFER_SIZE], and it is not empty. *)
Lemma read_blocks_lookup (fuel : nat) (content : string) (i : nat)
    (b : string) :
  read_blocks fuel content !! i = Some b →
  b = Py.first BUFFER_SIZE (Py.skip (i * BUFFER_SIZE) content) ∧ b ≠ "".
Proof.
  revert content i. induction fuel as [|fuel IH]; intros content i;
    [intros H; discriminate H|].
  simpl. destruct (Py.first BUFFER_SIZE content) as [|c data] eqn:Hfirst;
    [intros H; discriminate H|].
  destruct i as [|i]; simpl.
  - intros [= <-]. split; [symmetry; exact Hfirst|discriminate].
  - intros Hb. apply IH in Hb as [-> Hne]. split; [|exact Hne].
    rewrite skip_skip. reflexivity.
Qed.

(** X12.  The blocks that DWN hands to [sendall], and that the client's
    [upload_file] sends, for a file [content]: each is the [BUFFER_SIZE]
    bytes at its offset (fewer at the end of the file), none is empty, and
    together they are the file; the receiving loop of the client's
    [download_file], given these blocks, writes the file. *)
Theorem X12_blocks_of_a_file (content : string) :
  Py.concat (file_blocks content) = content ∧
  (∀ i b, file_blocks content !! i = Some b →
     b = Py.first BUFFER_SIZE (Py.skip (i * BUFFER_SIZE) content) ∧
     b ≠ "" ∧ String.length b ≤ BUFFER_SIZE) ∧
  save_file (file_blocks content) = content.
Proof.
  assert (Hblocks : ∀ i b, file_blocks content !! i = Some b →
            b = Py.first BUFFER_SIZE (Py.skip (i * BUFFER_SIZE) content) ∧
            b ≠ "" ∧ String.length b ≤ BUFFER_SIZE).
  { intros i b Hb. apply read_blocks_lookup in Hb as [-> Hne].
    split; [reflexivity|]. split; [exact Hne|].
    rewrite length_first. apply Nat.le_min_l. }
  split; [apply concat_file_blocks|]. split; [exact Hblocks|].
  rewrite save_file_all; [apply concat_file_blocks|].
  apply Forall_lookup. intros i b Hb. apply (Hblocks i b Hb).
Qed.

(** ** An upload sent block by block *)

Lemma first_app_le (n : nat) (s t : string) :
  n ≤ String.length s → Py.first n (s +:+ t) = Py.first n s.
Proof.
  revert s. induction n as [|n IH]; intros [|c s] Hn; try reflexivity.
  - simpl in Hn. lia.
  - rewrite app_cons_s, !first_cons, IH; [reflexivity|]. simpl in Hn. lia.
Qed.

Lemma skip_app_le (n : nat) (s t : string) :
  n ≤ String.length s → Py.skip n (s +:+ t) = Py.skip n s +:+ t.
Proof.
  revert s. induction n as [|n IH]; intros [|c s] Hn; try reflexivity.
  - simpl in Hn. lia.
  - rewrite app_cons_s, !skip_cons, IH; [reflexivity|]. simpl in Hn. lia.
Qed.

Lemma read_blocks_S (fuel : nat) (content : string) :
  read_blocks (S fuel) content =
  match Py.first BUFFER_SIZE content with
  | "" => []
  | data => data :: read_blocks fuel (Py.skip BUFFER_SIZE content)
  end.
Proof. reflexivity. Qed.

Lemma receive_file_cons (data : string) (chunks : list string) :
  data ≠ "" → data ≠ "EOF" →
  receive_file (data :: chunks) = data +:+ receive_file chunks.
Proof.
  intros Hne Heof. simpl.
  apply String.eqb_neq in Hne as ->. apply String.eqb_neq in Heof as ->.
  reflexivity.
Qed.

Lemma buffer_size_gt_3 : 3 < BUFFER_SIZE.
Proof. unfold BUFFER_SIZE. lia. Qed.

(** A file that ends with the bytes [EOF] at a multiple of the block size:
    the last block is [EOF], and the upload loop stops there. *)
Lemma receive_read_blocks_eof (k fuel : nat) (pre : string) :
  String.length pre = k * BUFFER_SIZE →
  String.length pre + 3 ≤ fuel →
  receive_file (read_blocks fuel (pre +:+ "EOF")) = pre.
Proof.
  pose proof buffer_size_gt_3 as Hbs.
  revert fuel pre. induction k as [|k IH]; intros fuel pre Hlen Hfuel.
  - destruct pre; [|discriminate Hlen]. rewrite app_nil_l_s.
    destruct fuel as [|fuel]; [simpl in Hfuel; lia|].
    rewrite read_blocks_S, first_all by (simpl; lia). reflexivity.
  - destruct fuel as [|fuel]; [lia|].
    assert (Hge : BUFFER_SIZE ≤ String.length pre) by lia.
    rewrite read_blocks_S, first_app_le, skip_app_le by exact Hge.
    pose proof (length_first BUFFER_SIZE pre) as Hb.
    rewrite Nat.min_l in Hb by exact Hge.
    destruct (Py.first BUFFER_SIZE pre) as [|c b] eqn:Hfirst;
      [simpl in Hb; lia|].
    assert (Hne : String c b ≠ "EOF").
    { intros Heq. rewrite Heq in Hb. simpl in Hb. lia. }
    rewrite receive_file_cons by (discriminate || exact Hne).
    rewrite IH.
    + rewrite <- Hfirst. apply first_skip.
    + rewrite length_skip. lia.
    + rewrite length_skip. lia.
Qed.

(** Any other file is written whole. *)
Lemma receive_read_blocks_all (fuel : nat) (content : string) :
  String.length content ≤ fuel →
  (∀ pre, content = pre +:+ "EOF" → String.length pre `mod` BUFFER_SIZE ≠ 0) →
  receive_file (read_blocks fuel content) = content.
Proof.
  pose proof buffer_size_gt_3 as Hbs.
  revert content. induction fuel as [|fuel IH]; intros content Hfuel Hno.
  - destruct content; [reflexivity|simpl in Hfuel; lia].
  - rewrite read_blocks_S.
    pose proof (length_first BUFFER_SIZE content) as Hb.
    pose proof (first_skip BUFFER_SIZE content) as Hsplit.
    destruct (Py.first BUFFER_SIZE content) as [|c b] eqn:Hfirst.
    { destruct content as [|c content]; [reflexivity|].
      change (String.length (String c content))
        with (S (String.length content)) in Hb.
      change (String.length "") with 0 in Hb. lia. }
    assert (Hne : String c b ≠ "EOF").
    { intros Heq. rewrite Heq in Hb.
      change (String.length "EOF") with 3 in Hb.
      assert (Hlen : String.length content = 3) by lia.
      apply (Hno ""); [|apply Nat.Div0.mod_0_l].
      rewrite app_nil_l_s, <- Heq, <- Hfirst. symmetry. apply first_all. lia. }
    rewrite receive_file_cons by (discriminate || exact Hne).
    rewrite IH; [exact Hsplit| |].
    + rewrite length_skip. lia.
    + intros pre Hpre.
      assert (Hlong : BUFFER_SIZE ≤ String.length content).
      { pose proof (length_skip BUFFER_SIZE content) as Hs.
        rewrite Hpre, length_app_s in Hs. simpl in Hs. lia. }
      rewrite Nat.min_l in Hb by exact Hlong.
      intros Hmod. apply (Hno (String c b +:+ pre)).
      * rewrite app_assoc_s, <- Hpre. symmetry. exact Hsplit.
      * rewrite length_app_s, Hb.
        rewrite <- (Nat.Div0.mod_add (String.length pre) 1 BUFFER_SIZE) in Hmod.
        rewrite Nat.mul_1_l, Nat.add_comm in Hmod. exact Hmod.
Qed.

(** X13.  An upload sent by the client's [upload_file], block by block, and
    stored by the receiving loop of UPD, each block arriving as it was sent.
    The stored file is the file sent, except for a file that ends with the
    three bytes [EOF] right after a multiple of [BUFFER_SIZE] bytes: its last
    block is [EOF], and the file is stored without it. *)
Theorem X13_upload_block_by_block (content : string) :
  ((∀ pre, content = pre +:+ "EOF" →
           String.length pre `mod` BUFFER_SIZE ≠ 0) →
   receive_file (file_blocks content) = content) ∧
  (∀ pre, content = pre +:+ "EOF" →
          String.length pre `mod` BUFFER_SIZE = 0 →
          receive_file (file_blocks content) = pre).
Proof.
  split.
  - intros Hno. apply receive_read_blocks_all; [reflexivity|exact Hno].
  - intros pre -> Hmod. unfold file_blocks.
    apply (receive_read_blocks_eof (String.length pre `div` BUFFER_SIZE)).
    + pose proof (Nat.Div0.div_mod (String.length pre) BUFFER_SIZE) as Hd.
      rewrite Hmod in Hd. lia.
    + rewrite length_app_s. reflexivity.
Qed.

(** The statement of X13 for a file that consists of the three bytes
    [EOF]. *)
Lemma X13_upload_block_by_block_witness :
  receive_file (file_blocks ("" +:+ "EOF")) = "".
Proof.
  apply (proj2 (X13_upload_block_by_block ("" +:+ "EOF")) "").
  - reflexivity.
  - reflexivity.
Defined.

(** ** The size announced by DWN *)

Lemma split_none (c : ascii) (n : nat) (s : string) :
  Py.contains_char c s = false → Py.split c n s = [s].
Proof.
  unfold Py.contains_char. intros Hs. destruct n as [|n]; [reflexivity|].
  simpl. destruct (Py.cut c s); [discriminate Hs|reflexivity].
Qed.

Lemma split_once (c : ascii) (n : nat) (l r : string) :
  Py.contains_char c l = false →
  Py.contains_char c r = false →
  Py.split c (S n) (l +:+ String c r) = [l; r].
Proof.
  intros Hl Hr. simpl. rewrite cut_app by exact Hl.
  rewrite split_none by exact Hr. reflexivity.
Qed.

(** What the client reads in the announcement of a transfer of [n]
    bytes. *)
Lemma announced_size_of_int (n : Z) :
  announced_size ("Ready for TCP transfer|" +:+ Py.str_of_int n) false = Some n.
Proof.
  unfold announced_size.
  change ("Ready for TCP transfer|" +:+ Py.str_of_int n)
    with ("Ready for TCP transfer" +:+ String "|" (Py.str_of_int n)).
  rewrite contains_char_app.
  assert (Hlen : ∃ k, String.length
            ("Ready for TCP transfer" +:+ String "|" (Py.str_of_int n)) = S k).
  { rewrite length_app_s. simpl. eauto. }
  destruct Hlen as [k ->].
  rewrite split_once.
  - apply int_of_str_of_int.
  - reflexivity.
  - apply numeral_no_char; [reflexivity|apply str_of_int_numeral].
Qed.

(** The bytes of the blocks of a file. *)
Lemma length_concat_file_blocks (content : string) :
  String.length (Py.concat (file_blocks content)) = String.length content.
Proof. rewrite concat_file_blocks. reflexivity. Qed.

(** X14.  The size that DWN announces and the bytes it sends.  When DWN
    finds the thread, the file and a stream connection, the client's
    [download_file] reads in the first reply, "Ready for TCP
    transfer|<size>", the number of bytes of the blocks that the server then
    hands to [sendall]. *)
Theorem X14_announced_size_is_sent (a : addr)
    (thread_title filename content stored : string) (conn : list string)
    (rest : list (list string)) (st : State) :
  Py.contains_char " " thread_title = false →
  cwd st !! thread_title = Some (File content) →
  uploads st !! thread_title ≫= (.!! filename) = Some stored →
  tcp_in st = conn :: rest →
  ∃ st2 response blocks,
    do_DWN a (thread_title +:+ " " +:+ filename) st = (Val tt, st2) ∧
    replies st2 !! length (replies st) = Some (a, response) ∧
    tcp_out st2 = tcp_out st ++ [blocks] ∧
    Py.contains "Ready for TCP transfer" response = true ∧
    announced_size response false =
      Some (Z.of_nat (String.length (Py.concat blocks))).
Proof.
  intros Htitle Hfile Hstored Hconn.
  destruct (do_DWN_sends a thread_title filename content stored conn rest st
              Htitle Hfile Hstored Hconn)
    as (st2 & Hdwn & Hout & _ & Hreplies).
  exists st2,
    ("Ready for TCP transfer|" +:+
     Py.str_of_int (Z.of_nat (String.length stored))),
    (file_blocks stored).
  split; [exact Hdwn|]. split.
  { rewrite Hreplies. rewrite lookup_app_r by reflexivity.
    rewrite Nat.sub_diag. reflexivity. }
  split; [exact Hout|]. split; [reflexivity|].
  rewrite length_concat_file_blocks. apply announced_size_of_int.
Qed.

(** The statement of X14 for the file notes.txt of the thread Cantina. *)
Lemma X14_announced_size_is_sent_witness :
  ∃ st2 response blocks,
    do_DWN peer ("Cantina" +:+ " " +:+ "notes.txt") cantina_with_notes
      = (Val tt, st2) ∧
    replies st2 !! length (replies cantina_with_notes)
      = Some (peer, response) ∧
    tcp_out st2 = tcp_out cantina_with_notes ++ [blocks] ∧
    Py.contains "Ready for TCP transfer" response = true ∧
    announced_size response false =
      Some (Z.of_nat (String.length (Py.concat blocks))).
Proof.
  apply (X14_announced_size_is_sent peer "Cantina" "notes.txt"
           ("Han" +:+ Py.nl +:+ "Han uploaded notes.txt" +:+ Py.nl) "abcdef"
           [] [] cantina_with_notes).
  - vm_compute. reflexivity.
  - vm_compute. reflexivity.
  - vm_compute. reflexivity.
  - vm_compute. reflexivity.
Defined.

(** ** Editing a message *)

(** X15.  A successful EDT.  When the line of message [k] starts with [k]
    and the name of the session, EDT writes the thread file back with that
    line replaced by "<k> <username>: <new message>" and every other line,
    the creator's included, as it was read; the number of lines is kept, and
    the new line passes the same test again: the message stays with the
    user who edited it. *)
Theorem X15_edit_replaces_one_line (username : string) (a : addr)
    (thread_title content new_message : string) (k : nat) (st : State) :
  cwd st !! thread_title = Some (File content) →
  Utf8.valid content = true →
  0 < k < length (Py.readlines content) →
  Py.startswith (Py.readlines content !!! k)
    (Py.str_of_int (Z.of_nat k) +:+ " " +:+ username +:+ ":") = true →
  ∃ lines',
    edit_message username a thread_title (Z.of_nat k) new_message st =
      (Val tt,
       set_replies
         (λ l, l ++ [(a, "Message " +:+ Py.str_of_int (Z.of_nat k) +:+
                         " edited in " +:+ thread_title)])
         (set_cwd <[thread_title := File (Py.concat lines')]> st)) ∧
    length lines' = length (Py.readlines content) ∧
    (∀ i, i ≠ k → lines' !! i = Py.readlines content !! i) ∧
    lines' !! k =
      Some (Py.str_of_int (Z.of_nat k) +:+ " " +:+ username +:+ ": " +:+
            new_message +:+ Py.nl) ∧
    Py.startswith (lines' !!! k)
      (Py.str_of_int (Z.of_nat k) +:+ " " +:+ username +:+ ":") = true.
Proof.
  intros Hfile Hvalid Hk Hown.
  set (new_line := Py.str_of_int (Z.of_nat k) +:+ " " +:+ username +:+ ": " +:+
                   new_message +:+ Py.nl).
  exists (<[k := new_line]> (Py.readlines content)).
  assert (Hat : <[k := new_line]> (Py.readlines content) !! k = Some new_line)
    by (apply list_lookup_insert_eq; lia).
  split; [|split; [|split; [|split]]].
  - unfold edit_message. run.
    rewrite bool_decide_eq_true_2 by (rewrite Hfile; eauto). simpl.
    unfold read_text. rewrite Hfile, (decode_valid _ Hvalid).
    destruct (Z.leb_spec (Z.of_nat k) 0); [lia|].
    destruct (Z.leb_spec (Z.of_nat (length (Py.readlines content)))
                (Z.of_nat k)); [lia|].
    simpl. rewrite Nat2Z.id, Hown. simpl. rewrite Hfile. reflexivity.
  - apply length_insert.
  - intros i Hi. apply list_lookup_insert_ne. congruence.
  - exact Hat.
  - rewrite (list_lookup_total_correct _ _ _ Hat). unfold new_line.
    unfold Py.startswith. rewrite !prefix_app_same. reflexivity.
Qed.

(** The statement of X15 for message 1 of the thread Cantina, which Han
    posted. *)
Lemma X15_edit_replaces_one_line_witness :
  ∃ lines',
    edit_message "Han" peer "Cantina" (Z.of_nat 1) "Bye"
      (client_handler han_session initial_state).2 =
      (Val tt,
       set_replies
         (λ l, l ++ [(peer, "Message " +:+ Py.str_of_int (Z.of_nat 1) +:+
                            " edited in " +:+ "Cantina")])
         (set_cwd <["Cantina" := File (Py.concat lines')]>
            (client_handler han_session initial_state).2)) ∧
    length lines' =
      length (Py.readlines ("Han" +:+ Py.nl +:+ "1 Han: Hello" +:+ Py.nl)) ∧
    (∀ i, i ≠ 1 →
       lines' !! i =
       Py.readlines ("Han" +:+ Py.nl +:+ "1 Han: Hello" +:+ Py.nl) !! i) ∧
    lines' !! 1 =
      Some (Py.str_of_int (Z.of_nat 1) +:+ " " +:+ "Han" +:+ ": " +:+
            "Bye" +:+ Py.nl) ∧
    Py.startswith (lines' !!! 1)
      (Py.str_of_int (Z.of_nat 1) +:+ " " +:+ "Han" +:+ ":") = true.
Proof.
  apply (X15_edit_replaces_one_line "Han" peer "Cantina"
           ("Han" +:+ Py.nl +:+ "1 Han: Hello" +:+ Py.nl) "Bye" 1
           (client_handler han_session initial_state).2).
  - vm_compute. reflexivity.
  - vm_compute. reflexivity.
  - vm_compute. lia.
  - vm_compute. reflexivity.
Defined.

(** ** The creator's line *)

Lemma head_cons_inv (lines lines' : list string) :
  0 < length lines →
  lines' !! 0 = lines !! 0 →
  ∃ l0 rest rest', lines = l0 :: rest ∧ lines' = l0 :: rest'.
Proof.
  destruct lines as [|l0 rest]; simpl; [lia|]. intros _.
  destruct lines' as [|l0' rest']; simpl; [discriminate|].
  intros [= ->]. eauto.
Qed.

Lemma delete_message_first_line (username : string) (a : addr)
    (title : string) (n : Z) (t content : string) (st : State) :
  cwd st !! t = Some (File content) →
  first_line_kept t content (delete_message username a title n st).2.
Proof.
  intros Hfile. unfold first_line_kept, delete_message.
  destruct (decide (t = title)) as [->|Hne].
  - run. rewrite bool_decide_eq_true_2 by (rewrite Hfile; eauto). simpl.
    unfold read_text. rewrite Hfile.
    unfold Utf8.decode. destruct (Utf8.valid content); [|left; exact Hfile].
    destruct ((n <=? 0)%Z || (Z.of_nat (length (Py.readlines content)) <=? n)%Z)
      eqn:Hbounds; [left; exact Hfile|].
    apply orb_false_elim in Hbounds as [H0 Hlen].
    apply Z.leb_gt in H0. apply Z.leb_gt in Hlen. simpl.
    destruct (negb _); [left; exact Hfile|]. simpl. rewrite Hfile. simpl.
    right.
    destruct (head_cons_inv (Py.readlines content)
                (renumber (Z.to_nat n) (delete (Z.to_nat n)
                                          (Py.readlines content))))
      as (l0 & rest & rest' & Hlines & Hlines'); [lia| |].
    { rewrite renumber_lookup.
      destruct (decide (Z.to_nat n ≤ 0)); [lia|].
      apply list_lookup_delete_lt. lia. }
    exists l0, rest, rest'. split; [exact Hlines|].
    rewrite Hlines', lookup_insert_eq. reflexivity.
  - left. rewrite <- Hfile. run. cases;
      rewrite ?lookup_insert_ne by congruence; reflexivity.
Qed.

Lemma edit_message_first_line (username : string) (a : addr)
    (title : string) (n : Z) (new_message t content : string) (st : State) :
  cwd st !! t = Some (File content) →
  first_line_kept t content
    (edit_message username a title n new_message st).2.
Proof.
  intros Hfile. unfold first_line_kept, edit_message.
  destruct (decide (t = title)) as [->|Hne].
  - run. rewrite bool_decide_eq_true_2 by (rewrite Hfile; eauto). simpl.
    unfold read_text. rewrite Hfile.
    unfold Utf8.decode. destruct (Utf8.valid content); [|left; exact Hfile].
    destruct ((n <=? 0)%Z || (Z.of_nat (length (Py.readlines content)) <=? n)%Z)
      eqn:Hbounds; [left; exact Hfile|].
    apply orb_false_elim in Hbounds as [H0 Hlen].
    apply Z.leb_gt in H0. apply Z.leb_gt in Hlen. simpl.
    destruct (negb _); [left; exact Hfile|]. simpl. rewrite Hfile. simpl.
    right.
    match goal with
    | |- context [Py.concat (<[?k := ?x]> ?l)] =>
        destruct (head_cons_inv l (<[k := x]> l))
          as (l0 & rest & rest' & Hlines & Hlines');
          [lia|apply list_lookup_insert_ne; lia|]
    end.
    exists l0, rest, rest'. split; [exact Hlines|].
    rewrite Hlines', lookup_insert_eq. reflexivity.
  - left. rewrite <- Hfile. run. cases;
      rewrite ?lookup_insert_ne by congruence; reflexivity.
Qed.

(** X16.  DLT and EDT never change the first line of a thread file, the
    line that names the creator of the thread: whatever the arguments and
    whoever sends the command, each file of the working directory is after
    the command either what it was, or the first line as it was read
    followed by the lines written back. *)
Theorem X16_creator_line_kept (username : string) (a : addr)
    (args t content : string) (st : State) :
  cwd st !! t = Some (File content) →
  first_line_kept t content (do_DLT username a args st).2 ∧
  first_line_kept t content (do_EDT username a args st).2.
Proof.
  intros Hfile. split.
  - unfold do_DLT. destruct (length (Py.split " " 1 args) <? 2);
      [left; exact Hfile|].
    destruct (Py.int_of_str (Py.split " " 1 args !!! 1));
      [|left; exact Hfile].
    apply delete_message_first_line. exact Hfile.
  - unfold do_EDT. destruct (length (Py.split " " 2 args) <? 3);
      [left; exact Hfile|].
    destruct (Py.int_of_str (Py.split " " 2 args !!! 1));
      [|left; exact Hfile].
    apply edit_message_first_line. exact Hfile.
Qed.

(** The statement of X16 for the thread Cantina and a DLT, an EDT of its
    message 1. *)
Lemma X16_creator_line_kept_witness :
  first_line_kept "Cantina" ("Han" +:+ Py.nl +:+ "1 Han: Hello" +:+ Py.nl)
    (do_DLT "Han" peer "Cantina 1"
       (client_handler han_session initial_state).2).2 ∧
  first_line_kept "Cantina" ("Han" +:+ Py.nl +:+ "1 Han: Hello" +:+ Py.nl)
    (do_EDT "Han" peer "Cantina 1"
       (client_handler han_session initial_state).2).2.
Proof.
  apply (X16_creator_line_kept "Han" peer "Cantina 1" "Cantina"
           ("Han" +:+ Py.nl +:+ "1 Han: Hello" +:+ Py.nl)
           (client_handler han_session initial_state).2).
  vm_compute. reflexivity.
Defined.

(** ** Leaving *)

(** X17.  XIT ends the command loop.  A command whose first word is XIT, in
    any letter case and whatever follows the word, is answered "Goodbye";
    the name of the session leaves the registry; and no datagram that comes
    after it is read: the worker returns, and the state is the same
    whatever else was sent. *)
Theorem X17_exit_ends_the_loop (username : string) (a : addr)
    (cmd_data : string) (is_binary : bool) (rest : list received)
    (st : State) :
  cmd_data ≠ "" →
  Py.upper
    (Py.split " " 1
       (Py.strip (if is_binary then Utf8.decode_replace cmd_data
                  else cmd_data)) !!! 0) = "XIT" →
  command_loop username ((cmd_data, a, is_binary) :: rest) st =
    (Val tt,
     set_replies (λ l, l ++ [(a, "Goodbye")])
       (set_logged_users (λ users, users ∖ {[username]}) st)) ∧
  username ∉ logged_users
               (command_loop username ((cmd_data, a, is_binary) :: rest) st).2.
Proof.
  intros Hne Hxit.
  assert (Hloop :
    command_loop username ((cmd_data, a, is_binary) :: rest) st =
    (Val tt,
     set_replies (λ l, l ++ [(a, "Goodbye")])
       (set_logged_users (λ users, users ∖ {[username]}) st))).
  { simpl. unfold dispatch.
    apply String.eqb_neq in Hne as ->. rewrite Hxit. reflexivity. }
  split; [exact Hloop|]. rewrite Hloop. simpl.
  apply not_elem_of_difference. right. apply elem_of_singleton. reflexivity.
Qed.

(** The statement of X17 for "xit now", followed by another command. *)
Lemma X17_exit_ends_the_loop_witness :
  command_loop "Han"
    [("xit now", peer, false); ("CRT Cantina", peer, false)] han_logged_in =
    (Val tt,
     set_replies (λ l, l ++ [(peer, "Goodbye")])
       (set_logged_users (λ users, users ∖ {["Han"]}) han_logged_in)) ∧
  "Han" ∉ logged_users
            (command_loop "Han"
               [("xit now", peer, false); ("CRT Cantina", peer, false)]
               han_logged_in).2.
Proof.
  apply (X17_exit_ends_the_loop "Han" peer "xit now" false
           [("CRT Cantina", peer, false)] han_logged_in).
  - discriminate.
  - vm_compute. reflexivity.
Defined.

(** ** Creating and removing a thread *)

(** The thread list after a change of the working directory at [title]
    only. *)
Lemma get_thread_list_other (dir dir' : gmap string node)
    (title other : string) :
  (∀ name, name ≠ title → dir' !! name = dir !! name) →
  other ≠ title →
  other ∈ get_thread_list dir' ↔ other ∈ get_thread_list dir.
Proof.
  intros Hsame Hother. rewrite !elem_of_get_thread_list.
  rewrite (Hsame other Hother). reflexivity.
Qed.

(** X18.  RMV.  The creator of a thread is what the first line of its file
    strips to.  When that is the name of the session, RMV deletes the file
    and the upload directory of the thread: the thread is no longer listed,
    and the other threads are listed as before.  When it is not, RMV answers
    "You can only remove threads you created" and nothing else changes. *)
Theorem X18_remove_by_creator_only (username : string) (a : addr)
    (title content : string) (st : State) :
  cwd st !! title = Some (File content) →
  Utf8.valid content = true →
  let creator := Py.strip (default "" (head (Py.readlines content))) in
  (creator = username →
   ∃ st',
     do_RMV username a title st = (Val tt, st') ∧
     replies st' = replies st ++ [(a, "Thread " +:+ title +:+ " removed")] ∧
     cwd st' = delete title (cwd st) ∧
     uploads st' = delete title (uploads st) ∧
     (title ∉ get_thread_list (cwd st')) ∧
     ∀ other, other ≠ title →
       (other ∈ get_thread_list (cwd st') ↔ other ∈ get_thread_list (cwd st))) ∧
  (creator ≠ username →
   do_RMV username a title st =
     (Sig Continue,
      set_replies
        (λ l, l ++ [(a, "You can only remove threads you created")]) st)).
Proof.
  intros Hfile Hvalid creator.
  assert (Hrun : do_RMV username a title st =
    if String.eqb creator username then
      (Val tt,
       set_replies (λ l, l ++ [(a, "Thread " +:+ title +:+ " removed")])
         (set_uploads (delete title) (set_cwd (delete title) st)))
    else
      (Sig Continue,
       set_replies
         (λ l, l ++ [(a, "You can only remove threads you created")]) st)).
  { unfold do_RMV. run.
    rewrite bool_decide_eq_true_2 by (rewrite Hfile; eauto). simpl.
    unfold read_text. rewrite Hfile, (decode_valid _ Hvalid). simpl.
    fold creator. destruct (String.eqb creator username); reflexivity. }
  split.
  - intros Hcreator. apply String.eqb_eq in Hcreator.
    rewrite Hcreator in Hrun. eexists. split; [exact Hrun|]. simpl.
    split; [reflexivity|]. split; [reflexivity|]. split; [reflexivity|].
    split.
    + rewrite elem_of_get_thread_list, lookup_delete_eq.
      intros [[x Hx] _]. discriminate Hx.
    + intros other Hother. apply (get_thread_list_other _ _ title);
        [|exact Hother].
      intros name Hname. apply lookup_delete_ne. congruence.
  - intros Hcreator. apply String.eqb_neq in Hcreator.
    rewrite Hcreator in Hrun. exact Hrun.
Qed.

(** The statement of X18 for the thread Cantina, which Han created. *)
Lemma X18_remove_by_creator_only_witness :
  let creator :=
    Py.strip (default "" (head (Py.readlines
                                  ("Han" +:+ Py.nl +:+ "1 Han: Hello" +:+
                                   Py.nl)))) in
  (creator = "Leia" →
   ∃ st',
     do_RMV "Leia" peer "Cantina" (client_handler han_session initial_state).2
       = (Val tt, st') ∧
     replies st' =
       replies (client_handler han_session initial_state).2 ++
       [(peer, "Thread " +:+ "Cantina" +:+ " removed")] ∧
     cwd st' = delete "Cantina"
                 (cwd (client_handler han_session initial_state).2) ∧
     uploads st' = delete "Cantina"
                     (uploads (client_handler han_session initial_state).2) ∧
     ("Cantina" ∉ get_thread_list (cwd st')) ∧
     ∀ other, other ≠ "Cantina" →
       (other ∈ get_thread_list (cwd st') ↔
        other ∈ get_thread_list
                  (cwd (client_handler han_session initial_state).2))) ∧
  (creator ≠ "Leia" →
   do_RMV "Leia" peer "Cantina" (client_handler han_session initial_state).2 =
     (Sig Continue,
      set_replies
        (λ l, l ++ [(peer, "You can only remove threads you created")])
        (client_handler han_session initial_state).2)).
Proof.
  apply (X18_remove_by_creator_only "Leia" peer "Cantina"
           ("Han" +:+ Py.nl +:+ "1 Han: Hello" +:+ Py.nl)
           (client_handler han_session initial_state).2).
  - vm_compute. reflexivity.
  - vm_compute. reflexivity.
Defined.

(** X19.  CRT.  An entry of the working directory -- a thread, a
    directory, the credentials file -- is left as it is and the reply is
    "Thread <title> already exists".  When the server has started, a title
    that is the name of one directory entry and is no entry of the working
    directory becomes a file whose one line is the name of the session;
    after that the thread is listed by LST exactly when its name does not
    start with a dot and is none of the three reserved names, and the other
    threads are listed as before. *)
Theorem X19_create_thread (username : string) (a : addr) (title : string)
    (st : State) :
  (∀ x, cwd st !! title = Some x →
     do_CRT username a title st =
       (Val tt,
        set_replies
          (λ l, l ++ [(a, "Thread " +:+ title +:+ " already exists")]) st)) ∧
  (started st = true → plain_name title = true → cwd st !! title = None →
   ∃ st',
     do_CRT username a title st = (Val tt, st') ∧
     replies st' =
       replies st ++ [(a, "Thread " +:+ title +:+ " created successfully")] ∧
     cwd st' = <[title := File (username +:+ Py.nl)]> (cwd st) ∧
     (title ∈ get_thread_list (cwd st') ↔
      Py.startswith title "." = false ∧
      title ∉ ["server.py"; "client.py"; "credentials.txt"]) ∧
     ∀ other, other ≠ title →
       (other ∈ get_thread_list (cwd st') ↔ other ∈ get_thread_list (cwd st))).
Proof.
  split.
  - intros x Hx. unfold do_CRT. run.
    rewrite bool_decide_eq_true_2 by (rewrite Hx; eauto). reflexivity.
  - intros _ _ Hnone. unfold do_CRT. run.
    rewrite (path_missing _ _ Hnone). simpl. rewrite Hnone. simpl.
    eexists. split; [reflexivity|]. simpl.
    split; [reflexivity|]. split; [reflexivity|]. split.
    + rewrite elem_of_get_thread_list, lookup_insert_eq. split.
      * intros (_ & Hdot & Hres). auto.
      * intros [Hdot Hres]. split; [eauto|auto].
    + intros other Hother. apply (get_thread_list_other _ _ title);
        [|exact Hother].
      intros name Hname. apply lookup_insert_ne. congruence.
Qed.

(** The statement of X19 for the new thread Hoth. *)
Lemma X19_create_thread_witness :
  ∃ st',
    do_CRT "Han" peer "Hoth" han_logged_in = (Val tt, st') ∧
    replies st' =
      replies han_logged_in ++
      [(peer, "Thread " +:+ "Hoth" +:+ " created successfully")] ∧
    cwd st' = <["Hoth" := File ("Han" +:+ Py.nl)]> (cwd han_logged_in) ∧
    ("Hoth" ∈ get_thread_list (cwd st') ↔
     Py.startswith "Hoth" "." = false ∧
     "Hoth" ∉ ["server.py"; "client.py"; "credentials.txt"]) ∧
    ∀ other, other ≠ "Hoth" →
      (other ∈ get_thread_list (cwd st') ↔
       other ∈ get_thread_list (cwd han_logged_in)).
Proof.
  destruct (X19_create_thread "Han" peer "Hoth" han_logged_in) as [_ Hnew].
  apply Hnew.
  - vm_compute. reflexivity.
  - vm_compute. reflexivity.
  - vm_compute. reflexivity.
Defined.

(** ** Words *)

Lemma word_char_cases (c : ascii) :
  word_char c = true →
  nat_of_ascii c < 128 ∧
  Ascii.eqb c Py.LF = false ∧ Ascii.eqb c Py.CR = false ∧
  ∀ s, Py.strip_token Py.whitespace (String c s) = None ∧
       Py.strip_token (String.rev <$> Py.whitespace) (String c s) = None.
Proof.
  destruct c as [[] [] [] [] [] [] [] []]; intros H; vm_compute in H;
    try discriminate H;
    (split; [vm_compute; lia|]); (split; [reflexivity|]);
    (split; [reflexivity|]); intros s; split; reflexivity.
Qed.

Lemma length_rev_app (s acc : string) :
  String.length (String.rev_app s acc) = String.length s + String.length acc.
Proof.
  revert acc. induction s as [|c s IH]; intros acc; simpl; [reflexivity|].
  rewrite IH. simpl. lia.
Qed.

Lemma length_rev (s : string) : String.length (String.rev s) = String.length s.
Proof. unfold String.rev. rewrite length_rev_app. simpl. lia. Qed.

Lemma rev_app_app (s t acc : string) :
  String.rev_app (s +:+ t) acc = String.rev_app t (String.rev_app s acc).
Proof.
  revert acc. induction s as [|c s IH]; intros acc; str_simpl; [reflexivity|].
  apply IH.
Qed.

Lemma rev_app_append (s acc : string) :
  String.rev_app s acc = String.rev s +:+ acc.
Proof.
  unfold String.rev. revert acc.
  induction s as [|c s IH]; intros acc; simpl; [rewrite app_nil_l_s; reflexivity|].
  rewrite IH, (IH (String c "")), app_assoc_s. str_simpl. reflexivity.
Qed.

(** A text that starts with a character no white space starts with is not
    stripped on the left. *)
Lemma lstrip_loop_head (toks : list string) (fuel : nat) (s : string) :
  Py.strip_token toks s = None → Py.lstrip_loop toks fuel s = s.
Proof. intros H. destruct fuel; [reflexivity|]. simpl. rewrite H. reflexivity. Qed.

Lemma lstrip_loop_step (toks : list string) (fuel : nat) (s r : string) :
  Py.strip_token toks s = Some r →
  Py.lstrip_loop toks (S fuel) s = Py.lstrip_loop toks fuel r.
Proof. intros H. simpl. rewrite H. reflexivity. Qed.

Lemma word_head (w : string) :
  word w → ∃ c r, w = String c r ∧ word_char c = true.
Proof.
  intros [Hne Hw]. destruct w as [|c r]; [contradiction|].
  simpl in Hw. apply andb_prop in Hw as [Hc _]. eauto.
Qed.

Lemma word_rev (w : string) : word w → word (String.rev w).
Proof.
  intros [Hne Hw]. split.
  - intros Hrev. apply Hne. pose proof (length_rev w) as Hlen.
    rewrite Hrev in Hlen. destruct w; [reflexivity|discriminate Hlen].
  - rewrite rev_all_chars. exact Hw.
Qed.

(** A text that starts and ends with a word character, alone or followed
    by a line feed, strips to the text. *)
Lemma strip_inner (s : string) (c d : ascii) (r q : string) :
  s = String c r → String.rev s = String d q →
  word_char c = true → word_char d = true →
  Py.strip (s +:+ Py.nl) = s ∧ Py.strip s = s.
Proof.
  intros Hs Hq Hc Hd.
  destruct (word_char_cases c Hc) as (_ & _ & _ & Hcs).
  destruct (word_char_cases d Hd) as (_ & _ & _ & Hds).
  assert (Hrev : String.rev (s +:+ Py.nl) = String Py.LF (String d q)).
  { unfold String.rev at 1. rewrite rev_app_app. simpl.
    change (String.rev_app s "") with (String.rev s). rewrite Hq.
    reflexivity. }
  assert (Hl : ∀ t, Py.lstrip (s +:+ t) = s +:+ t).
  { intros t. unfold Py.lstrip. apply lstrip_loop_head. rewrite Hs, app_cons_s.
    destruct (Hcs (r +:+ t)) as [H _]. exact H. }
  assert (Hback : String.rev (String d q) = s)
    by (rewrite <- Hq; apply rev_rev).
  destruct (Hds q) as [_ Hdq].
  split.
  - unfold Py.strip. rewrite Hl. unfold Py.rstrip. rewrite Hrev.
    destruct (String.length (s +:+ Py.nl)) as [|n] eqn:Hn;
      [rewrite Hs, app_cons_s in Hn; discriminate Hn|].
    rewrite (lstrip_loop_step _ _ _ (String d q)) by reflexivity.
    rewrite lstrip_loop_head by exact Hdq. exact Hback.
  - unfold Py.strip. rewrite <- (app_nil_r_s s) at 1. rewrite Hl, app_nil_r_s.
    unfold Py.rstrip. rewrite Hq.
    rewrite lstrip_loop_head by exact Hdq. exact Hback.
Qed.

Lemma strip_word (w : string) :
  word w → Py.strip (w +:+ Py.nl) = w ∧ Py.strip w = w.
Proof.
  intros Hw. destruct (word_head w Hw) as (c & r & Hs & Hc).
  destruct (word_head _ (word_rev w Hw)) as (d & q & Hq & Hd).
  exact (strip_inner w c d r q Hs Hq Hc Hd).
Qed.

(** The same for a text that starts with a word and ends with one. *)
Lemma strip_words_nl (u mid p : string) :
  word u → word p →
  Py.strip (u +:+ mid +:+ p +:+ Py.nl) = u +:+ mid +:+ p ∧
  Py.strip (u +:+ mid +:+ p) = u +:+ mid +:+ p.
Proof.
  intros Hu Hp.
  destruct (word_head u Hu) as (c & r & -> & Hc).
  destruct (word_head _ (word_rev p Hp)) as (d & q & Hq & Hd).
  rewrite <- !app_assoc_s.
  apply (strip_inner _ c d (r +:+ mid +:+ p)
           (q +:+ String.rev (String c r +:+ mid))); [| |exact Hc|exact Hd].
  - rewrite !app_assoc_s. reflexivity.
  - unfold String.rev at 1. rewrite rev_app_app, rev_app_append.
    change (String.rev_app (String c r +:+ mid) "")
      with (String.rev (String c r +:+ mid)).
    rewrite Hq. reflexivity.
Qed.

Lemma split_ws_loop_S (fuel : nat) (cur s : string) :
  Py.split_ws_loop (S fuel) cur s =
  match Py.strip_token Py.whitespace s with
  | Some r =>
      match cur with "" => [] | _ => [String.rev cur] end ++
      Py.split_ws_loop fuel "" r
  | None =>
      match s with
      | "" => match cur with "" => [] | _ => [String.rev cur] end
      | String c s' => Py.split_ws_loop fuel (String c cur) s'
      end
  end.
Proof. reflexivity. Qed.

(** The loop of [split()] reads a word character by character. *)
Lemma split_ws_loop_word (fuel : nat) (cur w rest : string) :
  all_chars word_char w = true →
  Py.split_ws_loop (String.length w + fuel) cur (w +:+ rest) =
  Py.split_ws_loop fuel (String.rev_app w cur) rest.
Proof.
  revert cur. induction w as [|c w IH]; intros cur Hw.
  - rewrite app_nil_l_s. reflexivity.
  - simpl in Hw. apply andb_prop in Hw as [Hc Hw].
    destruct (word_char_cases c Hc) as (_ & _ & _ & Hcs).
    change (String.length (String c w) + fuel)
      with (S (String.length w + fuel)).
    rewrite app_cons_s, split_ws_loop_S.
    destruct (Hcs (w +:+ rest)) as [-> _].
    rewrite IH by exact Hw. reflexivity.
Qed.

(** What the loop gives out for the word it has read. *)
Lemma flush_word (w : string) :
  word w →
  match String.rev_app w "" with "" => [] | _ => [String.rev (String.rev_app w "")] end
  = [w].
Proof.
  intros Hw. destruct (word_head _ (word_rev w Hw)) as (d & q & Hq & _).
  change (String.rev_app w "") with (String.rev w). rewrite Hq, <- Hq.
  rewrite rev_rev. reflexivity.
Qed.

Lemma split_ws_loop_end (fuel : nat) : Py.split_ws_loop fuel "" "" = [].
Proof. destruct fuel; reflexivity. Qed.

(** A line of two words separated by a space, with or without its line
    feed. *)
Lemma split_ws_two (u p tail : string) :
  word u → word p → tail = "" ∨ tail = Py.nl →
  Py.split_ws (u +:+ " " +:+ p +:+ tail) = [u; p].
Proof.
  intros Hu Hp Htail. unfold Py.split_ws.
  replace (S (String.length (u +:+ " " +:+ p +:+ tail)))
    with (String.length u + S (String.length p + S (String.length tail))).
  2: { rewrite !length_app_s. change (String.length " ") with 1. lia. }
  rewrite split_ws_loop_word by apply Hu.
  change (" " +:+ p +:+ tail) with (String " " (p +:+ tail)).
  rewrite split_ws_loop_S.
  change (Py.strip_token Py.whitespace (String " " (p +:+ tail)))
    with (Some (p +:+ tail)).
  cbv iota beta. rewrite (flush_word u Hu).
  rewrite split_ws_loop_word by apply Hp.
  destruct Htail as [-> | ->].
  - rewrite split_ws_loop_S.
    change (Py.strip_token Py.whitespace "") with (@None string).
    cbv iota beta. rewrite (flush_word p Hp). reflexivity.
  - rewrite split_ws_loop_S.
    change (Py.strip_token Py.whitespace Py.nl) with (Some "").
    cbv iota beta. rewrite (flush_word p Hp), split_ws_loop_end. reflexivity.
Qed.

(** ** Lines *)

Lemma readlines_cons (c : ascii) (s : string) :
  Py.readlines (String c s) =
  if Ascii.eqb c Py.LF then Py.nl :: Py.readlines s
  else if Ascii.eqb c Py.CR then
    match s with
    | String c' s'' =>
        if Ascii.eqb c' Py.LF then Py.nl :: Py.readlines s''
        else Py.nl :: Py.readlines s
    | "" => [Py.nl]
    end
  else
    match Py.readlines s with
    | [] => [String c ""]
    | l :: ls => String c l :: ls
    end.
Proof. reflexivity. Qed.

(** A line without line breaks, and its line feed, is read as one line. *)
Lemma readlines_line (l rest : string) :
  all_chars (λ c, negb (Ascii.eqb c Py.LF) && negb (Ascii.eqb c Py.CR)) l
    = true →
  Py.readlines (l +:+ Py.nl +:+ rest) = (l +:+ Py.nl) :: Py.readlines rest.
Proof.
  induction l as [|c l IH]; intros Hl.
  - rewrite !app_nil_l_s. reflexivity.
  - simpl in Hl. apply andb_prop in Hl as [Hc Hl].
    apply andb_prop in Hc as [Hlf Hcr].
    apply negb_true_iff in Hlf. apply negb_true_iff in Hcr.
    rewrite !app_cons_s, readlines_cons, Hlf, Hcr, (IH Hl). reflexivity.
Qed.

(** What is appended after a line feed is read after the lines before
    it. *)
Lemma readlines_app_nl (pre rest : string) :
  Py.readlines ((pre +:+ Py.nl) +:+ rest) =
  Py.readlines (pre +:+ Py.nl) ++ Py.readlines rest.
Proof.
  induction pre as [|c pre IH].
  - rewrite !app_nil_l_s. reflexivity.
  - rewrite !app_cons_s, !readlines_cons.
    destruct (Ascii.eqb c Py.LF); [rewrite IH; reflexivity|].
    destruct (Ascii.eqb c Py.CR).
    + destruct pre as [|c' pre].
      * rewrite !app_nil_l_s. reflexivity.
      * rewrite !app_cons_s. cbv iota.
        destruct (Ascii.eqb c' Py.LF) eqn:Hc'.
        -- rewrite !app_cons_s, !readlines_cons, Hc' in IH.
           injection IH as IH. rewrite IH. reflexivity.
        -- rewrite !app_cons_s in IH. rewrite IH. reflexivity.
    + rewrite IH.
      destruct (Py.readlines (pre +:+ Py.nl)) as [|x xs] eqn:Hx; [|reflexivity].
      exfalso. clear IH. revert Hx. clear.
      induction pre as [|c pre IH].
      * rewrite app_nil_l_s. discriminate.
      * rewrite app_cons_s, readlines_cons.
        destruct (Ascii.eqb c Py.LF); [discriminate|].
        destruct (Ascii.eqb c Py.CR).
        -- destruct (pre +:+ Py.nl) as [|c' s]; [discriminate|].
           destruct (Ascii.eqb c' Py.LF); discriminate.
        -- destruct (Py.readlines (pre +:+ Py.nl)); discriminate.
Qed.

(** ** Well-formed UTF-8, appended *)

Lemma valid_from_0 (lo hi lo' hi' : nat) (s : string) :
  Utf8.valid_from 0 lo hi s = Utf8.valid_from 0 lo' hi' s.
Proof. destruct s; reflexivity. Qed.

Lemma valid_from_app (pending lo hi : nat) (s t : string) :
  Utf8.valid_from pending lo hi s = true →
  Utf8.valid t = true →
  Utf8.valid_from pending lo hi (s +:+ t) = true.
Proof.
  intros Hs Ht. revert pending lo hi Hs.
  induction s as [|c s IH]; intros pending lo hi Hs.
  - rewrite app_nil_l_s. simpl in Hs. apply Nat.eqb_eq in Hs as ->.
    rewrite (valid_from_0 _ _ 128 191). exact Ht.
  - rewrite app_cons_s. simpl in *. destruct pending as [|p].
    + destruct (Utf8.lead (nat_of_ascii c)) as [[[n lo'] hi']|];
        [apply IH; exact Hs|discriminate Hs].
    + apply andb_prop in Hs as [-> Hs]. simpl. apply IH. exact Hs.
Qed.

Lemma valid_app (s t : string) :
  Utf8.valid s = true → Utf8.valid t = true → Utf8.valid (s +:+ t) = true.
Proof. apply valid_from_app. Qed.

Lemma valid_ascii (s : string) :
  all_chars (λ c, nat_of_ascii c <? 128) s = true → Utf8.valid s = true.
Proof.
  unfold Utf8.valid. induction s as [|c s IH]; [reflexivity|].
  simpl. intros [Hc Hs]%andb_prop. apply Nat.ltb_lt in Hc.
  rewrite (lead_ascii _ Hc). auto.
Qed.

Lemma all_chars_impl (P Q : ascii → bool) (s : string) :
  (∀ c, P c = true → Q c = true) →
  all_chars P s = true → all_chars Q s = true.
Proof.
  intros HPQ. induction s as [|c s IH]; [reflexivity|].
  simpl. intros [Hc Hs]%andb_prop. rewrite (HPQ c Hc), (IH Hs). reflexivity.
Qed.

(** The line of a registration: well-formed, and one line. *)
Lemma credentials_line_valid (u p : string) :
  word u → word p → Utf8.valid (credentials_line u p) = true.
Proof.
  intros [_ Hu] [_ Hp]. apply valid_ascii. unfold credentials_line.
  rewrite !all_chars_app.
  rewrite (all_chars_impl word_char _ u), (all_chars_impl word_char _ p);
    [reflexivity| |exact Hp| |exact Hu];
    intros c Hc; apply Nat.ltb_lt; apply (word_char_cases c Hc).
Qed.

Lemma credentials_line_read (u p rest : string) :
  word u → word p →
  Py.readlines (credentials_line u p +:+ rest) =
  credentials_line u p :: Py.readlines rest.
Proof.
  intros [_ Hu] [_ Hp]. unfold credentials_line.
  rewrite <- (app_assoc_s u " "), <- (app_assoc_s _ p Py.nl).
  rewrite app_assoc_s. apply readlines_line.
  rewrite !all_chars_app.
  rewrite (all_chars_impl word_char _ u), (all_chars_impl word_char _ p);
    [reflexivity| |exact Hp| |exact Hu];
    intros c Hc; destruct (word_char_cases c Hc) as (_ & -> & -> & _);
    reflexivity.
Qed.

(** ** Registration and login *)

(** A login, and a registration under a name that is taken, read the
    credentials file and change nothing. *)
Lemma authenticate_user_reads (username password content : string)
    (new_user : bool) (st : State) :
  cwd st !! CREDENTIALS_FILE = Some (File content) →
  Utf8.valid content = true →
  (new_user = true →
   is_Some (credentials_of (Py.readlines content) !! username)) →
  authenticate_user username password new_user st =
    (Val (if new_user then false
          else bool_decide (credentials_of (Py.readlines content) !! username
                            = Some password)), st).
Proof.
  intros Hfile Hvalid Htaken. unfold authenticate_user. run.
  rewrite bool_decide_eq_true_2 by (rewrite Hfile; eauto). simpl.
  unfold read_text. rewrite Hfile, (decode_valid _ Hvalid). simpl.
  destruct new_user; [|reflexivity].
  rewrite bool_decide_eq_true_2 by (apply Htaken; reflexivity). reflexivity.
Qed.

(** The credentials after one more line of two words. *)
Lemma credentials_of_snoc (lines : list string) (u p : string) :
  word u → word p →
  credentials_of (lines ++ [credentials_line u p]) =
  <[u := p]> (credentials_of lines).
Proof.
  intros Hu Hp. unfold credentials_of. rewrite foldl_app. simpl.
  unfold credentials_line.
  destruct (strip_words_nl u " " p Hu Hp) as [-> _].
  rewrite bool_decide_eq_false_2.
  2: { destruct (word_head u Hu) as (c & r & -> & _). discriminate. }
  pose proof (split_ws_two u p "" Hu Hp (or_introl eq_refl)) as Hsplit.
  rewrite app_nil_r_s in Hsplit. cbv zeta. rewrite Hsplit. reflexivity.
Qed.

Lemma credentials_strict_snoc (lines : list string) (u p : string)
    (c : gmap string string) :
  word u → word p →
  credentials_strict lines = Ret c →
  credentials_strict (lines ++ [credentials_line u p]) = Ret (<[u := p]> c).
Proof.
  intros Hu Hp Hc. unfold credentials_strict in *. rewrite foldl_app, Hc.
  simpl. unfold credentials_line.
  destruct (strip_words_nl u " " p Hu Hp) as [-> _].
  rewrite bool_decide_eq_false_2.
  2: { destruct (word_head u Hu) as (x & r & -> & _). discriminate. }
  rewrite (split_ws_two u p Py.nl Hu Hp) by (right; reflexivity). reflexivity.
Qed.

(** The lines of the credentials file after a registration. *)
Lemma readlines_registered (content u p : string) :
  word u → word p →
  content = "" ∨ (∃ pre, content = pre +:+ Py.nl) →
  Py.readlines (content +:+ credentials_line u p) =
  Py.readlines content ++ [credentials_line u p].
Proof.
  intros Hu Hp Hcontent.
  assert (Hline : Py.readlines (credentials_line u p) = [credentials_line u p]).
  { rewrite <- (app_nil_r_s (credentials_line u p)) at 1.
    apply credentials_line_read; assumption. }
  destruct Hcontent as [-> | [pre ->]].
  - rewrite app_nil_l_s. exact Hline.
  - rewrite readlines_app_nl, Hline. reflexivity.
Qed.

(** X20.  Registration, then login.  The user name and the password are
    words of printable ASCII characters, the credentials file is missing,
    empty, or ends with a line feed, and the name is not in it.  Then the
    registration appends the line "<name> <password>" and returns [True];
    after it a login under the name returns [True] with that password and
    [False] with any other, a second registration under the name returns
    [False], none of them changes anything, and the dictionary that the
    session worker reads from the file has the name. *)
Theorem X20_register_then_login (username password content : string)
    (st : State) :
  word username → word password →
  cwd st !! CREDENTIALS_FILE = Some (File content) ∨
  cwd st !! CREDENTIALS_FILE = None ∧ content = "" →
  Utf8.valid content = true →
  content = "" ∨ (∃ pre, content = pre +:+ Py.nl) →
  credentials_of (Py.readlines content) !! username = None →
  ∃ st1,
    authenticate_user username password true st = (Val true, st1) ∧
    cwd st1 !! CREDENTIALS_FILE =
      Some (File (content +:+ credentials_line username password)) ∧
    authenticate_user username password false st1 = (Val true, st1) ∧
    (∀ other, other ≠ password →
       authenticate_user username other false st1 = (Val false, st1)) ∧
    (∀ other, authenticate_user username other true st1 = (Val false, st1)) ∧
    (∀ c, credentials_strict (Py.readlines content) = Ret c →
       credentials_strict
         (Py.readlines (content +:+ credentials_line username password)) =
       Ret (<[username := password]> c)).
Proof.
  intros Hu Hp Hfile Hvalid Hshape Hfree.
  assert (Hreg : ∃ st1,
    authenticate_user username password true st = (Val true, st1) ∧
    cwd st1 !! CREDENTIALS_FILE =
      Some (File (content +:+ credentials_line username password))).
  { unfold authenticate_user. run. destruct Hfile as [Hfile | [Hfile ->]].
    - rewrite bool_decide_eq_true_2 by (rewrite Hfile; eauto). simpl.
      unfold read_text. rewrite Hfile, (decode_valid _ Hvalid). simpl.
      rewrite bool_decide_eq_false_2
        by (rewrite Hfree; intros [x Hx]; discriminate Hx).
      rewrite Hfile. simpl. eexists. split; [reflexivity|].
      simpl. apply lookup_insert_eq.
    - rewrite (path_missing _ _ Hfile). simpl. rewrite Hfile. simpl.
      unfold read_text. rewrite lookup_insert_eq. simpl.
      rewrite bool_decide_eq_false_2
        by (unfold credentials_of; simpl; rewrite lookup_empty;
            intros [x Hx]; discriminate Hx).
      simpl. rewrite lookup_insert_eq. simpl.
      eexists. split; [reflexivity|]. simpl. apply lookup_insert_eq. }
  destruct Hreg as (st1 & Hreg & Hfile1). exists st1.
  assert (Hvalid1 :
    Utf8.valid (content +:+ credentials_line username password) = true)
    by (apply valid_app; [exact Hvalid|apply credentials_line_valid; assumption]).
  assert (Hcred :
    credentials_of
      (Py.readlines (content +:+ credentials_line username password))
      !! username = Some password).
  { rewrite readlines_registered, credentials_of_snoc by assumption.
    apply lookup_insert_eq. }
  split; [exact Hreg|]. split; [exact Hfile1|]. split; [|split; [|split]].
  - rewrite (authenticate_user_reads _ _ _ false st1 Hfile1 Hvalid1)
      by discriminate.
    rewrite bool_decide_eq_true_2 by exact Hcred. reflexivity.
  - intros other Hother.
    rewrite (authenticate_user_reads _ _ _ false st1 Hfile1 Hvalid1)
      by discriminate.
    rewrite bool_decide_eq_false_2; [reflexivity|].
    rewrite Hcred. intros [= Heq]. apply Hother. symmetry. exact Heq.
  - intros other.
    apply (authenticate_user_reads _ _ _ true st1 Hfile1 Hvalid1).
    intros _. rewrite Hcred. eauto.
  - intros c Hc. rewrite readlines_registered by assumption.
    apply credentials_strict_snoc; assumption.
Qed.

(** The statement of X20 for the first registration on a fresh server. *)
Lemma X20_register_then_login_witness :
  ∃ st1,
    authenticate_user "Han" "solo1" true initial_state = (Val true, st1) ∧
    cwd st1 !! CREDENTIALS_FILE =
      Some (File ("" +:+ credentials_line "Han" "solo1")) ∧
    authenticate_user "Han" "solo1" false st1 = (Val true, st1) ∧
    (∀ other, other ≠ "solo1" →
       authenticate_user "Han" other false st1 = (Val false, st1)) ∧
    (∀ other, authenticate_user "Han" other true st1 = (Val false, st1)) ∧
    (∀ c, credentials_strict (Py.readlines "") = Ret c →
       credentials_strict
         (Py.readlines ("" +:+ credentials_line "Han" "solo1")) =
       Ret (<["Han" := "solo1"]> c)).
Proof.
  apply (X20_register_then_login "Han" "solo1" "" initial_state).
  - split; [discriminate|reflexivity].
  - split; [discriminate|reflexivity].
  - right. split; reflexivity.
  - reflexivity.
  - left. reflexivity.
  - reflexivity.
Defined.

(** ** A thread from its creation to its removal *)

Lemma word_valid (w : string) : word w → Utf8.valid w = true.
Proof.
  intros [_ Hw]. apply valid_ascii.
  apply (all_chars_impl word_char); [|exact Hw].
  intros c Hc. apply Nat.ltb_lt. apply (word_char_cases c Hc).
Qed.

Lemma word_line (w : string) :
  word w → Py.readlines (w +:+ Py.nl) = [w +:+ Py.nl].
Proof.
  intros [_ Hw]. rewrite <- (app_nil_r_s Py.nl).
  rewrite (readlines_line w ""); [rewrite app_nil_r_s; reflexivity|].
  apply (all_chars_impl word_char); [|exact Hw].
  intros c Hc. destruct (word_char_cases c Hc) as (_ & -> & -> & _).
  reflexivity.
Qed.

(** RMV on the file that CRT writes for [creator]. *)
Lemma do_RMV_fresh (creator username : string) (a : addr) (title : string)
    (st : State) :
  word creator →
  cwd st !! title = Some (File (creator +:+ Py.nl)) →
  do_RMV username a title st =
    if String.eqb creator username then
      (Val tt,
       set_replies (λ l, l ++ [(a, "Thread " +:+ title +:+ " removed")])
         (set_uploads (delete title) (set_cwd (delete title) st)))
    else
      (Sig Continue,
       set_replies
         (λ l, l ++ [(a, "You can only remove threads you created")]) st).
Proof.
  intros Hcreator Hfile. unfold do_RMV. run.
  rewrite bool_decide_eq_true_2 by (rewrite Hfile; eauto). simpl.
  unfold read_text. rewrite Hfile.
  rewrite decode_valid
    by (apply valid_app; [apply word_valid; exact Hcreator|reflexivity]).
  simpl. rewrite (word_line _ Hcreator). simpl.
  destruct (strip_word creator Hcreator) as [-> _].
  destruct (String.eqb creator username); reflexivity.
Qed.

(** X21.  A thread from CRT to RMV.  The server has started, the name of
    the session is a word of printable ASCII characters, and the title is
    the name of one directory entry and is new.  After the CRT, an RMV
    from a session under any other name is refused and changes nothing; an
    RMV from the creator removes the thread, and the working directory and
    the upload directories are again what they were before the CRT. *)
Theorem X21_create_then_remove (username other : string) (a : addr)
    (title : string) (st : State) :
  started st = true →
  plain_name title = true →
  word username →
  cwd st !! title = None →
  uploads st !! title = None →
  ∃ st1,
    do_CRT username a title st = (Val tt, st1) ∧
    (other ≠ username →
     do_RMV other a title st1 =
       (Sig Continue,
        set_replies
          (λ l, l ++ [(a, "You can only remove threads you created")]) st1)) ∧
    ∃ st2,
      do_RMV username a title st1 = (Val tt, st2) ∧
      cwd st2 = cwd st ∧ uploads st2 = uploads st ∧
      replies st2 =
        replies st ++
        [(a, "Thread " +:+ title +:+ " created successfully");
         (a, "Thread " +:+ title +:+ " removed")].
Proof.
  intros _ _ Hu Hnone Hup.
  exists (set_replies
            (λ l, l ++ [(a, "Thread " +:+ title +:+ " created successfully")])
            (set_cwd <[title := File (username +:+ Py.nl)]> st)).
  split; [|split].
  - unfold do_CRT. run. rewrite (path_missing _ _ Hnone). simpl.
    rewrite Hnone. reflexivity.
  - intros Hother. rewrite (do_RMV_fresh username other) by
      (try exact Hu; simpl; apply lookup_insert_eq).
    assert (String.eqb username other = false) as ->; [|reflexivity].
    apply String.eqb_neq. congruence.
  - eexists. split.
    + rewrite (do_RMV_fresh username username) by
        (try exact Hu; simpl; apply lookup_insert_eq).
      rewrite String.eqb_refl. reflexivity.
    + simpl. split; [apply delete_insert_id; exact Hnone|].
      split; [apply delete_id; exact Hup|].
      rewrite <- app_assoc. reflexivity.
Qed.

(** The statement of X21 for Han and Leia and the thread Hoth. *)
Lemma X21_create_then_remove_witness :
  ∃ st1,
    do_CRT "Han" peer "Hoth" han_logged_in = (Val tt, st1) ∧
    ("Leia" ≠ "Han" →
     do_RMV "Leia" peer "Hoth" st1 =
       (Sig Continue,
        set_replies
          (λ l, l ++ [(peer, "You can only remove threads you created")])
          st1)) ∧
    ∃ st2,
      do_RMV "Han" peer "Hoth" st1 = (Val tt, st2) ∧
      cwd st2 = cwd han_logged_in ∧ uploads st2 = uploads han_logged_in ∧
      replies st2 =
        replies han_logged_in ++
        [(peer, "Thread " +:+ "Hoth" +:+ " created successfully");
         (peer, "Thread " +:+ "Hoth" +:+ " removed")].
Proof.
  apply (X21_create_then_remove "Han" "Leia" peer "Hoth" han_logged_in).
  - vm_compute. reflexivity.
  - vm_compute. reflexivity.
  - split; [discriminate|reflexivity].
  - vm_compute. reflexivity.
  - vm_compute. reflexivity.
Defined.

(** ** Posting and reading *)

Lemma concat_app (l k : list string) :
  Py.concat (l ++ k) = Py.concat l +:+ Py.concat k.
Proof.
  induction l as [|x l IH]; simpl; [rewrite app_nil_l_s; reflexivity|].
  unfold Py.concat in *. simpl. rewrite IH, app_assoc_s. reflexivity.
Qed.

Lemma readlines_nonempty (pre : string) : Py.readlines (pre +:+ Py.nl) ≠ [].
Proof.
  induction pre as [|c pre IH].
  - rewrite app_nil_l_s. discriminate.
  - rewrite app_cons_s, readlines_cons.
    destruct (Ascii.eqb c Py.LF); [discriminate|].
    destruct (Ascii.eqb c Py.CR).
    + destruct (pre +:+ Py.nl) as [|c' s]; [discriminate|].
      destruct (Ascii.eqb c' Py.LF); discriminate.
    + destruct (Py.readlines (pre +:+ Py.nl)); discriminate.
Qed.

Lemma numeral_no_break (c : ascii) : numeral_char c = true → no_break c = true.
Proof.
  intros Hc. unfold no_break.
  rewrite (numeral_char_not c Py.LF Hc), (numeral_char_not c Py.CR Hc)
    by reflexivity.
  reflexivity.
Qed.

(** The line of a message is well-formed and is one line. *)
Lemma message_line_valid (n : nat) (username message : string) :
  Utf8.valid username = true → Utf8.valid message = true →
  Utf8.valid (message_line n username message) = true.
Proof.
  intros Hu Hm. unfold message_line.
  apply valid_app; [apply valid_numeral, str_of_int_numeral|].
  apply (valid_app " "); [reflexivity|].
  apply valid_app; [exact Hu|].
  apply (valid_app ": "); [reflexivity|].
  apply valid_app; [exact Hm|reflexivity].
Qed.

Lemma message_line_read (n : nat) (username message : string) :
  all_chars no_break username = true → all_chars no_break message = true →
  Py.readlines (message_line n username message) =
  [message_line n username message].
Proof.
  intros Hu Hm. unfold message_line.
  rewrite <- (app_assoc_s _ " "), <- (app_assoc_s _ username),
    <- (app_assoc_s _ ": "), <- (app_assoc_s _ message).
  rewrite <- (app_nil_r_s Py.nl).
  rewrite readlines_line; [reflexivity|].
  fold no_break. rewrite !all_chars_app, Hu, Hm.
  rewrite (all_chars_impl numeral_char no_break _ numeral_no_break)
    by apply str_of_int_numeral.
  reflexivity.
Qed.

(** X22.  A message posted, then read.  The thread file ends with a line
    feed (as every file that CRT writes and MSG extends), the title has no
    space, the name of the session and the message are well-formed and have
    no line break, and the text of the thread with the new message is one
    that [reliable_send] sends in one datagram.  MSG appends the line
    "<n> <username>: <message>", where [n] is the number of lines the file
    had; the file then has one line more, so that the next message gets the
    number [n + 1]; and an RDT that follows replies with the lines of the
    file after the first, which are those it had before and the new
    line. *)
Theorem X22_post_then_read (username : string) (a : addr)
    (title message pre : string) (st : State) :
  Py.contains_char " " title = false →
  cwd st !! title = Some (File (pre +:+ Py.nl)) →
  Utf8.valid (pre +:+ Py.nl) = true →
  Utf8.valid username = true → all_chars no_break username = true →
  Utf8.valid message = true → all_chars no_break message = true →
  sendable
    ("Thread " +:+ title +:+ ":" +:+ Py.nl +:+
     Py.concat (drop 1 (Py.readlines (pre +:+ Py.nl))) +:+
     message_line (length (Py.readlines (pre +:+ Py.nl))) username message)
    = true →
  let lines := Py.readlines (pre +:+ Py.nl) in
  let line := message_line (length lines) username message in
  ∃ st1,
    do_MSG username a (title +:+ " " +:+ message) st = (Val tt, st1) ∧
    cwd st1 !! title = Some (File ((pre +:+ Py.nl) +:+ line)) ∧
    Py.readlines ((pre +:+ Py.nl) +:+ line) = lines ++ [line] ∧
    do_RDT a title st1 =
      (Val tt,
       set_replies
         (λ l, l ++ [(a, "Thread " +:+ title +:+ ":" +:+ Py.nl +:+
                         Py.concat (drop 1 lines) +:+ line)]) st1).
Proof.
  intros Htitle Hfile Hvalid Hu Hub Hm Hmb _ lines line.
  assert (Hread : Py.readlines ((pre +:+ Py.nl) +:+ line) = lines ++ [line]).
  { rewrite readlines_app_nl. unfold line.
    rewrite message_line_read by assumption. reflexivity. }
  eexists. split; [|split; [|split; [exact Hread|]]].
  - apply (do_MSG_posts username a title message _ st Htitle Hfile Hvalid).
  - simpl. apply lookup_insert_eq.
  - unfold do_RDT. run.
    rewrite bool_decide_eq_true_2 by (rewrite lookup_insert_eq; eauto). simpl.
    unfold read_text. rewrite lookup_insert_eq.
    fold lines. change (Py.str_of_int (Z.of_nat (length lines)) +:+ " " +:+
                        username +:+ ": " +:+ message +:+ Py.nl) with line.
    rewrite decode_valid
      by (apply valid_app; [exact Hvalid|
          apply message_line_valid; assumption]).
    simpl. rewrite Hread.
    destruct lines as [|l0 rest] eqn:Hlines;
      [exfalso; exact (readlines_nonempty pre Hlines)|].
    rewrite length_app. simpl.
    destruct (length rest + 1 <=? 0) eqn:Hle;
      [apply Nat.leb_le in Hle; lia|].
    change (drop 0 (rest ++ [line])) with (rest ++ [line]).
    change (drop 0 rest) with rest.
    rewrite concat_app. change (Py.concat [line]) with (line +:+ "").
    rewrite app_nil_r_s. reflexivity.
Qed.

(** The statement of X22 for a second message to the thread Cantina. *)
Lemma X22_post_then_read_witness :
  let lines :=
    Py.readlines (("Han" +:+ Py.nl +:+ "1 Han: Hello") +:+ Py.nl) in
  let line := message_line (length lines) "Han" "Bye" in
  ∃ st1,
    do_MSG "Han" peer ("Cantina" +:+ " " +:+ "Bye")
      (client_handler han_session initial_state).2 = (Val tt, st1) ∧
    cwd st1 !! "Cantina" =
      Some (File ((("Han" +:+ Py.nl +:+ "1 Han: Hello") +:+ Py.nl) +:+ line)) ∧
    Py.readlines ((("Han" +:+ Py.nl +:+ "1 Han: Hello") +:+ Py.nl) +:+ line) =
      lines ++ [line] ∧
    do_RDT peer "Cantina" st1 =
      (Val tt,
       set_replies
         (λ l, l ++ [(peer, "Thread " +:+ "Cantina" +:+ ":" +:+ Py.nl +:+
                            Py.concat (drop 1 lines) +:+ line)]) st1).
Proof.
  apply (X22_post_then_read "Han" peer "Cantina" "Bye"
           ("Han" +:+ Py.nl +:+ "1 Han: Hello")
           (client_handler han_session initial_state).2).
  - vm_compute. reflexivity.
  - vm_compute. reflexivity.
  - vm_compute. reflexivity.
  - vm_compute. reflexivity.
  - vm_compute. reflexivity.
  - vm_compute. reflexivity.
  - vm_compute. reflexivity.
  - vm_compute. reflexivity.
Defined.

(** ** Commands that are not understood *)

(** X23.  "Invalid command".  A command whose first word is ASCII text
    and, in upper case, is none of the ten command words, or is one of the
    eight that take arguments and stands alone, is answered "Invalid
    command", and nothing else changes. *)
Theorem X23_invalid_command (username : string) (a : addr)
    (cmd_data : string) (is_binary : bool) (st : State) :
  let parts :=
    Py.split " " 1
      (Py.strip (if is_binary then Utf8.decode_replace cmd_data
                 else cmd_data)) in
  let command := Py.upper (parts !!! 0) in
  cmd_data ≠ "" →
  ascii_text (parts !!! 0) = true →
  command ≠ "XIT" → command ≠ "LST" →
  length parts ≤ 1 ∨
  command ∉ ["CRT"; "MSG"; "RDT"; "DLT"; "EDT"; "RMV"; "UPD"; "DWN"] →
  dispatch username a cmd_data is_binary st =
    (Val tt, set_replies (λ l, l ++ [(a, "Invalid command")]) st).
Proof.
  intros parts command Hne _ Hxit Hlst Hcases. unfold dispatch.
  apply String.eqb_neq in Hne as ->. fold parts. fold command.
  apply String.eqb_neq in Hxit as ->. apply String.eqb_neq in Hlst as Hlst'.
  destruct Hcases as [Hlen | Hnot].
  - assert ((1 <? length parts) = false) as -> by (apply Nat.ltb_ge; exact Hlen).
    rewrite !andb_false_r, Hlst'. reflexivity.
  - rewrite Hlst'.
    repeat match goal with
           | |- context [String.eqb command ?w] =>
               destruct (String.eqb_spec command w) as [Heq|_];
               [exfalso; apply Hnot; rewrite Heq; set_solver|]
           end.
    reflexivity.
Qed.

(** The statement of X23 for the command word CRT alone. *)
Lemma X23_invalid_command_witness :
  dispatch "Han" peer "crt" false han_logged_in =
    (Val tt, set_replies (λ l, l ++ [(peer, "Invalid command")]) han_logged_in).
Proof.
  apply (X23_invalid_command "Han" peer "crt" false han_logged_in).
  - discriminate.
  - vm_compute. reflexivity.
  - vm_compute. discriminate.
  - vm_compute. discriminate.
  - left. vm_compute. lia.
Defined.

(** ** The handshake of a session *)

(** A registration, with what it leaves unchanged. *)
Lemma authenticate_user_registers (username password content : string)
    (st : State) :
  cwd st !! CREDENTIALS_FILE = Some (File content) ∨
  cwd st !! CREDENTIALS_FILE = None ∧ content = "" →
  Utf8.valid content = true →
  credentials_of (Py.readlines content) !! username = None →
  ∃ st1,
    authenticate_user username password true st = (Val true, st1) ∧
    cwd st1 !! CREDENTIALS_FILE =
      Some (File (content +:+ credentials_line username password)) ∧
    logged_users st1 = logged_users st ∧ replies st1 = replies st.
Proof.
  intros Hfile Hvalid Hfree.
  unfold authenticate_user. run. destruct Hfile as [Hfile | [Hfile ->]].
  - rewrite bool_decide_eq_true_2 by (rewrite Hfile; eauto). simpl.
    unfold read_text. rewrite Hfile, (decode_valid _ Hvalid). simpl.
    rewrite bool_decide_eq_false_2
      by (rewrite Hfree; intros [x Hx]; discriminate Hx).
    rewrite Hfile. simpl. eexists. split; [reflexivity|].
    simpl. split; [apply lookup_insert_eq|]. split; reflexivity.
  - rewrite (path_missing _ _ Hfile). simpl. rewrite Hfile. simpl.
    unfold read_text. rewrite lookup_insert_eq. simpl.
    rewrite bool_decide_eq_false_2
      by (unfold credentials_of; simpl; rewrite lookup_empty;
          intros [x Hx]; discriminate Hx).
    simpl. rewrite lookup_insert_eq. simpl.
    eexists. split; [reflexivity|]. simpl.
    split; [apply lookup_insert_eq|]. split; reflexivity.
Qed.

(** The first half of a session: the name is looked up in the credentials
    file and the reply says whether it is known. *)
Lemma session_looks_up (username : string) (a : addr) (inbox : list received)
    (st : State) (known : bool) :
  username ≠ "" →
  username ∉ logged_users st →
  (cwd st !! CREDENTIALS_FILE = None ∧ known = false ∨
   ∃ content c,
     cwd st !! CREDENTIALS_FILE = Some (File content) ∧
     Utf8.valid content = true ∧
     credentials_strict (Py.readlines content) = Ret c ∧
     known = bool_decide (is_Some (c !! username))) →
  session username a inbox st =
    bind (check_password username (negb known) inbox)
      (command_loop username)
      (set_replies
         (λ l, l ++ [(a, if known then "Username OK" else "New User")]) st).
Proof.
  intros Hne Hfree Hfile. unfold session.
  apply String.eqb_neq in Hne as ->.
  unfold bind at 1. unfold gets at 1.
  rewrite bool_decide_eq_false_2 by exact Hfree.
  unfold bind at 1. unfold path_exists at 1. unfold gets at 1.
  destruct Hfile as [[Hfile ->] | (content & c & Hfile & Hvalid & Hc & ->)].
  - rewrite (path_missing _ _ Hfile). reflexivity.
  - rewrite bool_decide_eq_true_2 by (rewrite Hfile; eauto).
    unfold bind at 1. unfold bind at 1. unfold readlines at 1.
    unfold bind at 1. unfold gets at 1. unfold read_text.
    rewrite Hfile, (decode_valid _ Hvalid). unfold lift at 1. unfold ret at 1.
    unfold bind at 1. rewrite Hc. reflexivity.
Qed.

(** The second half: the password is checked. *)
Lemma check_password_ok (username password : string) (new_user : bool)
    (a : addr) (inbox : list received) (st st1 : State) :
  authenticate_user username password new_user st = (Val true, st1) →
  bind (check_password username new_user ((password, a, false) :: inbox))
    (command_loop username) st =
  command_loop username inbox
    (set_logged_users (λ users, {[username]} ∪ users)
       (set_replies
          (λ l, l ++ [(a, if new_user then "Account Created" else "Welcome")])
          st1)).
Proof.
  intros Hauth. unfold check_password.
  unfold bind at 1. unfold bind at 1. rewrite Hauth. reflexivity.
Qed.

Lemma check_password_refused (username password : string) (new_user : bool)
    (a : addr) (inbox : list received) (st st1 : State) :
  authenticate_user username password new_user st = (Val false, st1) →
  bind (check_password username new_user ((password, a, false) :: inbox))
    (command_loop username) st =
  (Sig Return,
   set_replies
     (λ l, l ++ [(a, if new_user then "Account creation failed"
                     else "Invalid Password")]) st1).
Proof.
  intros Hauth. unfold check_password.
  unfold bind at 1. unfold bind at 1. rewrite Hauth. reflexivity.
Qed.

Lemma command_loop_XIT (username : string) (a : addr)
    (inbox : list received) (st : State) :
  command_loop username (("XIT", a, false) :: inbox) st =
  (Val tt,
   set_replies (λ l, l ++ [(a, "Goodbye")])
     (set_logged_users (λ users, users ∖ {[username]}) st)).
Proof. reflexivity. Qed.

(** X24.  The handshake, from registration to login.  A name and a
    password that are words of printable ASCII characters; the name is not
    logged in and not in the credentials file, which is missing, empty or
    ends with a line feed and has no line of one word.  A first session
    under the name is told "New User", then "Account Created", and leaves
    with XIT.  After it, a session under the name is told "Username OK";
    with the password it is told "Welcome" and the name is logged in; with
    any other password it is told "Invalid Password", the worker returns,
    and the name is not logged in. *)
Theorem X24_session_handshake (username password wrong : string) (a : addr)
    (content : string) (c : gmap string string) (st : State) :
  word username → word password → wrong ≠ password →
  username ∉ logged_users st →
  cwd st !! CREDENTIALS_FILE = Some (File content) ∨
  cwd st !! CREDENTIALS_FILE = None ∧ content = "" →
  Utf8.valid content = true →
  content = "" ∨ (∃ pre, content = pre +:+ Py.nl) →
  credentials_strict (Py.readlines content) = Ret c →
  c !! username = None →
  credentials_of (Py.readlines content) !! username = None →
  ∃ st1,
    client_handler
      [(username, a, false); (password, a, false); ("XIT", a, false)] st
      = (Finished None, st1) ∧
    replies st1 =
      replies st ++
      [(a, "New User"); (a, "Account Created"); (a, "Goodbye")] ∧
    (username ∉ logged_users st1) ∧
    (∃ st2,
       client_handler [(username, a, false); (password, a, false)] st1
         = (Waiting, st2) ∧
       replies st2 = replies st1 ++ [(a, "Username OK"); (a, "Welcome")] ∧
       username ∈ logged_users st2) ∧
    (∃ st3,
       client_handler [(username, a, false); (wrong, a, false)] st1
         = (Finished None, st3) ∧
       replies st3 =
         replies st1 ++ [(a, "Username OK"); (a, "Invalid Password")] ∧
       username ∉ logged_users st3).
Proof.
  intros Hu Hp Hwrong Hfree Hfile Hvalid Hshape Hc Hcu Hof.
  destruct (strip_word username Hu) as [_ Hstrip].
  assert (Hne : username ≠ "") by apply Hu.
  set (line := credentials_line username password).
  (* the first session *)
  set (st_r := set_replies (λ l, l ++ [(a, "New User")]) st).
  destruct (authenticate_user_registers username password content st_r
              Hfile Hvalid Hof) as (st_a & Hauth & Hfile_a & Husers_a & Hrep_a).
  set (st1 := finally username
                (set_replies (λ l, l ++ [(a, "Goodbye")])
                   (set_logged_users (λ users, users ∖ {[username]})
                      (set_logged_users (λ users, {[username]} ∪ users)
                         (set_replies (λ l, l ++ [(a, "Account Created")])
                            st_a))))).
  assert (Hfirst :
    client_handler
      [(username, a, false); (password, a, false); ("XIT", a, false)] st
    = (Finished None, st1)).
  { unfold client_handler. rewrite Hstrip.
    rewrite (session_looks_up username a _ st false Hne Hfree).
    2: { destruct Hfile as [Hfile | [Hfile _]]; [right|left; auto].
         exists content, c. split; [exact Hfile|]. split; [exact Hvalid|].
         split; [exact Hc|]. symmetry. apply bool_decide_eq_false_2.
         rewrite Hcu. intros [x Hx]. discriminate Hx. }
    rewrite (check_password_ok username password (negb false) a _ _ st_a Hauth).
    rewrite command_loop_XIT. reflexivity. }
  assert (Hrep1 : replies st1 =
            replies st ++
            [(a, "New User"); (a, "Account Created"); (a, "Goodbye")]).
  { simpl. rewrite Hrep_a. simpl. rewrite <- !app_assoc. reflexivity. }
  assert (Hfree1 : username ∉ logged_users st1).
  { simpl. apply not_elem_of_difference. right. apply elem_of_singleton.
    reflexivity. }
  assert (Hfile1 : cwd st1 !! CREDENTIALS_FILE = Some (File (content +:+ line)))
    by exact Hfile_a.
  assert (Hvalid1 : Utf8.valid (content +:+ line) = true)
    by (apply valid_app; [exact Hvalid|apply credentials_line_valid; assumption]).
  assert (Hc1 : credentials_strict (Py.readlines (content +:+ line)) =
                Ret (<[username := password]> c)).
  { unfold line. rewrite readlines_registered by assumption.
    apply credentials_strict_snoc; assumption. }
  assert (Hof1 : credentials_of (Py.readlines (content +:+ line)) !! username
                 = Some password).
  { unfold line. rewrite readlines_registered, credentials_of_snoc
      by assumption. apply lookup_insert_eq. }
  assert (Hlook : ∀ inbox,
    session username a inbox st1 =
    bind (check_password username (negb true) inbox) (command_loop username)
      (set_replies (λ l, l ++ [(a, "Username OK")]) st1)).
  { intros inbox.
    apply (session_looks_up username a inbox st1 true Hne Hfree1).
    right. exists (content +:+ line), (<[username := password]> c).
    split; [exact Hfile1|]. split; [exact Hvalid1|]. split; [exact Hc1|].
    symmetry. apply bool_decide_eq_true_2. rewrite lookup_insert_eq. eauto. }
  set (st_u := set_replies (λ l, l ++ [(a, "Username OK")]) st1) in *.
  exists st1. split; [exact Hfirst|]. split; [exact Hrep1|].
  split; [exact Hfree1|]. split.
  - (* the password *)
    eexists. split; [|split].
    + assert (Hauth2 : authenticate_user username password (negb true) st_u
                       = (Val true, st_u)).
      { change (negb true) with false.
        rewrite (authenticate_user_reads username password (content +:+ line)
                   false st_u Hfile1 Hvalid1) by discriminate.
        rewrite bool_decide_eq_true_2 by exact Hof1. reflexivity. }
      unfold client_handler. rewrite Hstrip, Hlook.
      rewrite (check_password_ok username password (negb true) a _ _ _
                 Hauth2).
      reflexivity.
    + simpl. rewrite <- !app_assoc. reflexivity.
    + simpl. apply elem_of_union. left. apply elem_of_singleton. reflexivity.
  - (* another password *)
    eexists. split; [|split].
    + assert (Hauth3 : authenticate_user username wrong (negb true) st_u
                       = (Val false, st_u)).
      { change (negb true) with false.
        rewrite (authenticate_user_reads username wrong (content +:+ line)
                   false st_u Hfile1 Hvalid1) by discriminate.
        rewrite bool_decide_eq_false_2; [reflexivity|].
        rewrite Hof1. intros [= Heq]. apply Hwrong. symmetry. exact Heq. }
      unfold client_handler. rewrite Hstrip, Hlook.
      rewrite (check_password_refused username wrong (negb true) a _ _ _
                 Hauth3).
      reflexivity.
    + simpl. rewrite <- !app_assoc. reflexivity.
    + simpl. apply not_elem_of_difference. right. apply elem_of_singleton.
      reflexivity.
Qed.

(** The statement of X24 for Han, the first user of a fresh server. *)
Lemma X24_session_handshake_witness :
  ∃ st1,
    client_handler
      [("Han", peer, false); ("solo1", peer, false); ("XIT", peer, false)]
      initial_state = (Finished None, st1) ∧
    replies st1 =
      replies initial_state ++
      [(peer, "New User"); (peer, "Account Created"); (peer, "Goodbye")] ∧
    ("Han" ∉ logged_users st1) ∧
    (∃ st2,
       client_handler [("Han", peer, false); ("solo1", peer, false)] st1
         = (Waiting, st2) ∧
       replies st2 = replies st1 ++ [(peer, "Username OK"); (peer, "Welcome")] ∧
       "Han" ∈ logged_users st2) ∧
    (∃ st3,
       client_handler [("Han", peer, false); ("chewie", peer, false)] st1
         = (Finished None, st3) ∧
       replies st3 =
         replies st1 ++ [(peer, "Username OK"); (peer, "Invalid Password")] ∧
       "Han" ∉ logged_users st3).
Proof.
  apply (X24_session_handshake "Han" "solo1" "chewie" peer "" ∅ initial_state).
  - split; [discriminate|reflexivity].
  - split; [discriminate|reflexivity].
  - discriminate.
  - vm_compute. discriminate.
  - right. split; reflexivity.
  - reflexivity.
  - left. reflexivity.
  - reflexivity.
  - reflexivity.
  - reflexivity.
Defined.

(** ** Transfers that do not start *)



(** ** Message numbers that are refused *)




(** ** The client and the server read a transfer command alike *)

Lemma client_transfer_args_Some (word command t f : string) :
  client_transfer_args word command = Some (t, f) →
  Py.contains_char " " t = false ∧
  ∃ w, command = w +:+ " " +:+ t +:+ " " +:+ f.
Proof.
  unfold client_transfer_args.
  destruct (Py.startswith _ _); [|discriminate].
  simpl. destruct (Py.cut " " command) as [[w r1]|] eqn:Hcut1; [|discriminate].
  destruct (Py.cut " " r1) as [[t' f']|] eqn:Hcut2; [|discriminate].
  intros [= <- <-].
  apply cut_sound in Hcut1 as [-> _]. apply cut_sound in Hcut2 as [-> Ht].
  split; [exact Ht|]. exists w. reflexivity.
Qed.

(** X27.  The client and the server split a transfer command alike.  When
    the command loop of the client takes a line for an upload or a download
    of file [f] to or from thread [t], and the request it sends is not
    changed by [strip], the server dispatches the request to UPD or DWN and
    reads the same thread title and the same file name in it, also when the
    file name has spaces. *)
Theorem X27_transfer_command_agreement (username : string) (a : addr)
    (command t f : string) (st : State) :
  (client_transfer_args "UPD" command = Some (t, f) →
   Py.strip (transfer_request "UPD" t f) = transfer_request "UPD" t f →
   dispatch username a (transfer_request "UPD" t f) false st =
     do_UPD username a (t +:+ " " +:+ f) st ∧
   Py.split " " 1 (t +:+ " " +:+ f) = [t; f]) ∧
  (client_transfer_args "DWN" command = Some (t, f) →
   Py.strip (transfer_request "DWN" t f) = transfer_request "DWN" t f →
   dispatch username a (transfer_request "DWN" t f) false st =
     do_DWN a (t +:+ " " +:+ f) st ∧
   Py.split " " 1 (t +:+ " " +:+ f) = [t; f]).
Proof.
  split.
  - intros Hargs Hstrip.
    destruct (client_transfer_args_Some _ _ _ _ Hargs) as [Ht _].
    split; [|apply split_two; exact Ht].
    unfold dispatch. rewrite Hstrip. unfold transfer_request.
    rewrite (split_two "UPD") by reflexivity. reflexivity.
  - intros Hargs Hstrip.
    destruct (client_transfer_args_Some _ _ _ _ Hargs) as [Ht _].
    split; [|apply split_two; exact Ht].
    unfold dispatch. rewrite Hstrip. unfold transfer_request.
    rewrite (split_two "DWN") by reflexivity. reflexivity.
Qed.

(** The statement of X27 for an upload of a file whose name has a space. *)
Lemma X27_transfer_command_agreement_witness :
  dispatch "Han" peer (transfer_request "UPD" "Cantina" "my notes.txt") false
    (cantina_before_upload ["abc"]) =
    do_UPD "Han" peer ("Cantina" +:+ " " +:+ "my notes.txt")
      (cantina_before_upload ["abc"]) ∧
  Py.split " " 1 ("Cantina" +:+ " " +:+ "my notes.txt") =
    ["Cantina"; "my notes.txt"].
Proof.
  apply (proj1 (X27_transfer_command_agreement "Han" peer
                  "upd Cantina my notes.txt" "Cantina" "my notes.txt"
                  (cantina_before_upload ["abc"]))).
  - vm_compute. reflexivity.
  - vm_compute. reflexivity.
Defined.
